(** * ToneSugar: the audio analysis pipeline and the metadata store

    A shallow embedding of [analyzer/handler.py] and [app/db_dynamo.py].

    Python values are an inductive type; floats are IEEE binary64 values
    ([spec_float] at precision 53); the collaborators (S3, DynamoDB, the
    audio libraries, the clock) are requests answered by an environment
    that sees the whole history of earlier requests, so an answer may
    differ from one attempt to the next.  Every request can raise. *)

From Stdlib Require Import ZArith List String Ascii Bool Lia.
From Stdlib Require Import Floats.SpecFloat.
Import ListNotations.
Set Warnings "-register-all".
Local Open Scope string_scope.
Local Open Scope list_scope.

(* ===================================================================== *)
(** * Python values *)
(* ===================================================================== *)

Module Py.

(** A Python [float]: binary64. *)
Definition float : Type := spec_float.

Definition prec : Z := 53.
Definition emax : Z := 1024.

(** The float nearest to an integer ([float(n)]). *)
Definition float_of_Z (z : Z) : float := binary_normalize prec emax z 0 false.

(** [0.0] *)
Definition f_zero : float := S754_zero false.

(** [5.0] *)
Definition f_five : float := Eval cbv in float_of_Z 5.

(** [30.0] *)
Definition f_thirty : float := Eval cbv in float_of_Z 30.

(** [bool(x)] for a float: false for [0.0] and [-0.0] only. *)
Definition float_truthy (x : float) : bool :=
  match x with
  | S754_zero _ => false
  | _ => true
  end.

(** [x > 0] *)
Definition float_gt0 (x : float) : bool := SFltb f_zero x.

(** [a - b] *)
Definition float_sub (a b : float) : float := SFsub prec emax a b.

(** [n / d] on integers (true division), [d] not zero: the float nearest
    to the exact quotient, rounded once, ties to even; the sign of a zero
    quotient follows the signs of [n] and [d].  The division works on the
    integers themselves, as mantissas with exponent 0, so neither is
    rounded before it.  An infinity stands for a quotient beyond the
    range of the floats, where Python raises [OverflowError]. *)
Definition int_truediv (n d : Z) : float :=
  let sn := (n <? 0)%Z in
  let sd := (d <? 0)%Z in
  match Z.abs n, Z.abs d with
  | Zpos a, Zpos b =>
      SFdiv prec emax (S754_finite sn a 0) (S754_finite sd b 0)
  | Z0, Zpos _ => S754_zero (xorb sn sd)
  | _, _ => S754_nan
  end.

(** Values.  A [dict] keeps its insertion order and has string keys, as
    every dict of this program has (event payloads, DynamoDB items,
    expression maps, the analysis result).  [VDecimal s] is [Decimal(s)]. *)
Inductive pyval : Type :=
| VNone
| VBool (b : bool)
| VInt (z : Z)
| VFloat (x : float)
| VStr (s : string)
| VDecimal (s : string)
| VList (l : list pyval)
| VTuple (l : list pyval)
| VDict (d : list (string * pyval)).

Definition dict : Type := list (string * pyval).

(** ** Strings *)

Definition is_upper (c : ascii) : bool :=
  let n := nat_of_ascii c in (65 <=? n)%nat && (n <=? 90)%nat.

(** [str.lower] on a text of ASCII characters: the letters A to Z are
    mapped, every other character is kept.  Python also maps the letters
    outside ASCII; on a text that has one this function is not
    [str.lower], and the statements that show its result are about
    ASCII texts ([ascii_only]).  The texts [str.lower] maps to the
    literals this program compares with ([".mp3"], [".wav"], ["true"],
    ...) are ASCII, so the comparisons are not affected. *)
Definition lower_char (c : ascii) : ascii :=
  if is_upper c then ascii_of_nat (nat_of_ascii c + 32) else c.

Fixpoint lower (s : string) : string :=
  match s with
  | EmptyString => EmptyString
  | String c s' => String (lower_char c) (lower s')
  end.

(** [needle in hay] *)
Fixpoint str_in (needle hay : string) : bool :=
  String.prefix needle hay ||
  match hay with
  | EmptyString => false
  | String _ hay' => str_in needle hay'
  end.

Fixpoint str_drop (n : nat) (s : string) : string :=
  match n, s with
  | O, _ => s
  | S n', String _ s' => str_drop n' s'
  | S _, EmptyString => EmptyString
  end.

Fixpoint str_take (n : nat) (s : string) : string :=
  match n, s with
  | S n', String c s' => String c (str_take n' s')
  | _, _ => EmptyString
  end.

Fixpoint str_forallb (p : ascii -> bool) (s : string) : bool :=
  match s with
  | EmptyString => true
  | String c s' => p c && str_forallb p s'
  end.

Fixpoint str_existsb (p : ascii -> bool) (s : string) : bool :=
  match s with
  | EmptyString => false
  | String c s' => p c || str_existsb p s'
  end.

(** A text of ASCII characters only. *)
Definition is_ascii_char (c : ascii) : bool := (nat_of_ascii c <? 128)%nat.

Definition ascii_only (s : string) : bool := str_forallb is_ascii_char s.

Fixpoint rfind_from (c : ascii) (s : string) (i acc : Z) : Z :=
  match s with
  | EmptyString => acc
  | String x s' => rfind_from c s' (i + 1) (if Ascii.eqb x c then i else acc)
  end.

(** [s.rfind(c)]: the last index of [c], or [-1]. *)
Definition rfind (c : ascii) (s : string) : Z := rfind_from c s 0 (-1).

(** [s.replace(old, new)] for a non-empty [old]: the occurrences are
    replaced from the left, without overlap.  [skip] counts the
    characters of a match still to be dropped. *)
Fixpoint replace_go (old new : string) (skip : nat) (s : string) : string :=
  match s with
  | EmptyString => EmptyString
  | String c s' =>
      match skip with
      | S k => replace_go old new k s'
      | O =>
          if String.prefix old s
          then new ++ replace_go old new (String.length old - 1) s'
          else String c (replace_go old new 0 s')
      end
  end.

Definition replace (old new s : string) : string := replace_go old new 0 s.

(** ** os.path (posixpath) *)

(** [os.path.basename(p)]: what follows the last slash. *)
Definition basename (p : string) : string :=
  str_drop (Z.to_nat (rfind "/" p + 1)) p.

(** [os.path.splitext(p)]: the extension starts at the last dot of the
    last path component, unless that component has only dots before it. *)
Definition splitext (p : string) : string * string :=
  let sepIndex := rfind "/" p in
  let dotIndex := rfind "." p in
  if (sepIndex <? dotIndex)%Z then
    let filenameIndex := Z.to_nat (sepIndex + 1) in
    let lead := str_take (Z.to_nat dotIndex - filenameIndex) (str_drop filenameIndex p) in
    if str_existsb (fun c => negb (Ascii.eqb c ".")) lead
    then (str_take (Z.to_nat dotIndex) p, str_drop (Z.to_nat dotIndex) p)
    else (p, EmptyString)
  else (p, EmptyString).

(** ** Truth values *)

Definition is_digit_1_9 (c : ascii) : bool :=
  let n := nat_of_ascii c in (49 <=? n)%nat && (n <=? 57)%nat.

Fixpoint before_exponent (s : string) : string :=
  match s with
  | EmptyString => EmptyString
  | String c s' =>
      if Ascii.eqb c "e" || Ascii.eqb c "E" then EmptyString
      else String c (before_exponent s')
  end.

(** [bool(Decimal(s))]: true for the special values (NaN, Infinity) and
    for a coefficient that is not zero. *)
Definition decimal_truthy (s : string) : bool :=
  str_existsb (fun c => Ascii.eqb c "n" || Ascii.eqb c "N") s ||
  str_existsb is_digit_1_9 (before_exponent s).

(** [bool(v)], as [not v], [if v] and [v or w] evaluate it. *)
Definition truthy (v : pyval) : bool :=
  match v with
  | VNone => false
  | VBool b => b
  | VInt z => negb (z =? 0)%Z
  | VFloat x => float_truthy x
  | VStr s => negb (String.eqb s "")
  | VDecimal s => decimal_truthy s
  | VList l => match l with [] => false | _ => true end
  | VTuple l => match l with [] => false | _ => true end
  | VDict d => match d with [] => false | _ => true end
  end.

(** [type(v).__name__] *)
Definition type_name (v : pyval) : string :=
  match v with
  | VNone => "NoneType"
  | VBool _ => "bool"
  | VInt _ => "int"
  | VFloat _ => "float"
  | VStr _ => "str"
  | VDecimal _ => "Decimal"
  | VList _ => "list"
  | VTuple _ => "tuple"
  | VDict _ => "dict"
  end.

(** ** Dicts *)

(** [d.get(k)]: [None] stands for Python's [None] default. *)
Fixpoint dict_get (k : string) (d : dict) : option pyval :=
  match d with
  | [] => None
  | (k', v) :: d' => if String.eqb k' k then Some v else dict_get k d'
  end.

(** [d.get(k)] as a value. *)
Definition get_or_none (k : string) (d : dict) : pyval :=
  match dict_get k d with
  | Some v => v
  | None => VNone
  end.

(** [d[k] = v]: a present key keeps its position. *)
Fixpoint dict_set (k : string) (v : pyval) (d : dict) : dict :=
  match d with
  | [] => [(k, v)]
  | (k', v') :: d' =>
      if String.eqb k' k then (k, v) :: d' else (k', v') :: dict_set k v d'
  end.

Definition dict_keys (d : dict) : list string := map fst d.

End Py.

(* ===================================================================== *)
(** * The runtime: exceptions, collaborators, histories *)
(* ===================================================================== *)

Module Rt.
Import Py.

(** An exception of class [Exception].  The handlers of this program look
    at two things only: whether it is a botocore [ClientError], and its
    text [str(e)].  Signals outside [Exception] (KeyboardInterrupt,
    SystemExit) are not part of the model. *)
Inductive exc_class : Type := ClientError | TypeError | OtherException.

Record exc : Type := Exc { exc_cls : exc_class; exc_str : string }.

Definition is_client_error (e : exc) : bool :=
  match exc_cls e with
  | ClientError => true
  | _ => false
  end.

Inductive outcome (T : Type) : Type :=
| Ok (t : T)
| Raise (e : exc).
Arguments Ok {T} t.
Arguments Raise {T} e.

(** [datetime.now(timezone.utc)]: an aware datetime in UTC. *)
Record datetime : Type := Datetime {
  year : nat; month : nat; day : nat;
  hour : nat; minute : nat; second : nat; microsecond : nat
}.

(** An object owned by numpy or librosa (an array, a numpy scalar).  The
    program never looks inside one: each operation on it is a request. *)
Definition handle : Type := nat.

(** The requests to the collaborators, indexed by the type of the answer.
    The argument names are the keyword arguments of the source. *)
Inductive call : Type -> Type :=
(* time, tempfile, uuid, datetime *)
| TimeTime : call float
| NowUtc : call datetime
| Uuid4Str : call string
| NamedTemporaryFile (suffix : string) : call string
(* importlib *)
| ImportModule (name : string) : call unit
(* s3 *)
| DownloadFile (bucket key : pyval) (filename : string) : call unit
| PutObject (Bucket : pyval) (Key : string) (Body : string)
            (ContentType : string) : call unit
(* table *)
| UpdateItem (Key : dict) (UpdateExpression : string)
             (ExpressionAttributeNames ExpressionAttributeValues : dict)
             (ReturnValues : option string) : call dict
| PutItem (Item : dict) : call unit
(* mutagen, soundfile *)
| MutagenLength (path : string) : call float
| SfInfoDuration (path : string) : call (option float)
(* librosa *)
| LibrosaGetDuration (path : string) : call float
| LibrosaLoad (path : string) (sr : option Z) (mono : bool)
              (duration : float) (res_type : option string)
    : call (option handle * option Z)
| BeatTrack (y : handle) (sr : Z) : call (handle * handle)
| BeatTempo (y : handle) (sr : Z) (aggregate : string) : call handle
(* operations on numpy objects *)
| Len (o : handle) : call Z
| Truth (o : handle) : call bool
| LeZero (o : handle) : call bool
| HasAttr (o : handle) (name : string) : call bool
| ShapeTruth (o : handle) : call bool
| NpMean (o : handle) : call handle
| ToFloat (o : handle) : call float.

(** What each request stands for:
    - [MutagenLength p]: [float(MutagenMP3(p).info.length)];
    - [SfInfoDuration p]: [sf.info(p).duration];
    - [LibrosaGetDuration p]: [float(librosa.get_duration(path=p))];
    - [Truth o]: [bool(o)]; [LeZero o]: the truth value of [o <= 0];
    - [ShapeTruth o]: the truth value of [getattr(o, "shape", ())];
    - [HasAttr o n]: [hasattr(o, n)]; [ToFloat o]: [float(o)];
    - [Uuid4Str]: [str(uuid.uuid4())]. *)

(** One entry of the history: a request with its answer, or the release
    of the scratch file when its [with] block is left. *)
Inductive event : Type :=
| Ev {T : Type} (c : call T) (r : outcome T)
| Released (name : string).

Definition trace : Type := list event.

(** The environment answers a request knowing everything that happened
    before it. *)
Definition Env : Type := forall T : Type, trace -> call T -> outcome T.

(** A computation: given the environment and the history so far, a result
    and the events it added to the history, oldest first. *)
Definition M (A : Type) : Type := Env -> trace -> outcome A * trace.

Definition ret {A} (a : A) : M A := fun _ _ => (Ok a, []).

Definition raise {A} (e : exc) : M A := fun _ _ => (Raise e, []).

Definition bind {A B} (m : M A) (k : A -> M B) : M B :=
  fun env t =>
    match m env t with
    | (Ok a, d1) => let '(r, d2) := k a env (t ++ d1) in (r, d1 ++ d2)
    | (Raise e, d1) => (Raise e, d1)
    end.

Definition request {T} (c : call T) : M T :=
  fun env t => let r := env T t c in (r, [Ev c r]).

(** [try: m  except Exception as e: h e] *)
Definition try_except {A} (m : M A) (h : exc -> M A) : M A :=
  fun env t =>
    match m env t with
    | (Ok a, d1) => (Ok a, d1)
    | (Raise e, d1) => let '(r, d2) := h e env (t ++ d1) in (r, d1 ++ d2)
    end.

(** [try: m  except ClientError as e: h e] *)
Definition try_except_client {A} (m : M A) (h : exc -> M A) : M A :=
  try_except m (fun e => if is_client_error e then h e else raise e).

(** [with tempfile.NamedTemporaryFile(suffix=suffix) as tmp: body tmp.name].
    The file is released however the body ends; releasing is taken not to
    raise. *)
Definition with_tmpfile {A} (suffix : string) (body : string -> M A) : M A :=
  fun env t =>
    match request (NamedTemporaryFile suffix) env t with
    | (Ok name, d1) =>
        let '(r, d2) := body name env (t ++ d1) in
        (r, d1 ++ d2 ++ [Released name])
    | (Raise e, d1) => (Raise e, d1)
    end.

(** A block of a function body that may [return]: [Some r] when it did. *)
Definition or_else {A} (block : M (option A)) (rest : M A) : M A :=
  bind block (fun r => match r with Some a => ret a | None => rest end).

Declare Scope py_scope.
Delimit Scope py_scope with py.
Notation "x <- m ;; k" := (bind m (fun x => k))
  (at level 61, m at next level, right associativity) : py_scope.
Notation "' pat <- m ;; k" := (bind m (fun x => match x with pat => k end))
  (at level 61, pat pattern, m at next level, right associativity) : py_scope.
Notation "m ;; k" := (bind m (fun _ => k))
  (at level 61, right associativity) : py_scope.

(** ** Library functions on values that can raise *)

Definition type_error (msg : string) : exc := Exc TypeError msg.

(** [os.path.splitext(v)] *)
Definition os_path_splitext (v : pyval) : M (string * string) :=
  match v with
  | VStr p => ret (splitext p)
  | _ => raise (type_error
           ("expected str, bytes or os.PathLike object, not " ++ type_name v))
  end.

(** [os.path.basename(v)] *)
Definition os_path_basename (v : pyval) : M string :=
  match v with
  | VStr p => ret (basename p)
  | _ => raise (type_error
           ("expected str, bytes or os.PathLike object, not " ++ type_name v))
  end.

(** [len(y)] for [y] an array or [None]. *)
Definition py_len (y : option handle) : M Z :=
  match y with
  | Some o => request (Len o)
  | None => raise (type_error "object of type 'NoneType' has no len()")
  end.

(** [n / d] for two ints. *)
Definition py_truediv (n d : Z) : M float :=
  if (d =? 0)%Z then raise (Exc OtherException "division by zero")
  else
    match int_truediv n d with
    | S754_infinity _ =>
        raise (Exc OtherException
                 "integer division result too large for a float")
    | x => ret x
    end.

(** ** Decimal numerals and [datetime.isoformat] *)

Definition digit_char (n : nat) : ascii := ascii_of_nat (48 + n mod 10).

Fixpoint dec_digits (fuel n : nat) (acc : string) : string :=
  let acc' := String (digit_char n) acc in
  match fuel with
  | O => acc'
  | S f => if (n / 10 =? 0)%nat then acc' else dec_digits f (n / 10) acc'
  end.

(** [str(n)] *)
Definition str_of_nat (n : nat) : string := dec_digits n n EmptyString.

Fixpoint zeros (k : nat) : string :=
  match k with
  | O => EmptyString
  | S k' => String "0" (zeros k')
  end.

(** ["%0wd" % n] *)
Definition fmt0 (w n : nat) : string :=
  let s := str_of_nat n in zeros (w - String.length s) ++ s.

(** The date and time part of [isoformat]: the fraction appears only
    when the microseconds are not zero. *)
Definition iso_local (dt : datetime) : string :=
  fmt0 4 (year dt) ++ "-" ++ fmt0 2 (month dt) ++ "-" ++ fmt0 2 (day dt) ++
  "T" ++ fmt0 2 (hour dt) ++ ":" ++ fmt0 2 (minute dt) ++ ":" ++
  fmt0 2 (second dt) ++
  (if (microsecond dt =? 0)%nat then EmptyString
   else "." ++ fmt0 6 (microsecond dt)).

(** [dt.isoformat()] for a datetime whose zone is UTC. *)
Definition isoformat (dt : datetime) : string := iso_local dt ++ "+00:00".

(** ** The float and JSON printers

    [str(x)] of a float (the shortest numeral that reads back as [x]) and
    [json.dumps] are functions of the Python library; the program only
    passes their results on. *)
Class PyLib : Type := {
  float_str : float -> string;
  json_dumps : pyval -> string
}.

(** [Decimal(str(float(x)))] *)
Definition decimal_of_float `{PyLib} (x : float) : pyval := VDecimal (float_str x).

End Rt.

(* ===================================================================== *)
(** * analyzer/handler.py *)
(* ===================================================================== *)

Module Handler.
Import Py Rt.
Local Open Scope py_scope.

(** The module-level settings, read from the process environment when the
    module is loaded. *)
Record config : Type := Config {
  OUT_PREFIX : string;
  ENABLE_TEMPO : bool;
  TEMPO_MAX_SECONDS : float;
  TEMPO_SR : Z
}.

(** [os.getenv("ENABLE_TEMPO", "true").lower() in ("1", "true", "yes", "on")] *)
Definition enable_tempo_of (v : option string) : bool :=
  let s := lower (match v with Some s => s | None => "true" end) in
  existsb (String.eqb s) ["1"; "true"; "yes"; "on"].

(** The settings when no variable is set: prefix ["analysis/"], tempo on,
    30 seconds, 22050 Hz. *)
Definition default_config : config :=
  {| OUT_PREFIX := "analysis/";
     ENABLE_TEMPO := enable_tempo_of None;
     TEMPO_MAX_SECONDS := f_thirty;
     TEMPO_SR := 22050 |}.

Section Pipeline.
Context `{PyLib}.
Variable cfg : config.

(** ** _fast_duration *)

(** MP3: header parsing with mutagen. *)
Definition duration_mutagen (path : string) : M (option (float * string)) :=
  try_except
    (d <- request (MutagenLength path) ;;
     ret (Some (d, "mutagen")))
    (fun _ => ret None).

(** WAV and other PCM: [soundfile.info]. *)
Definition duration_soundfile (path : string) : M (option (float * string)) :=
  try_except
    (duration <- request (SfInfoDuration path) ;;
     match duration with
     | Some d =>
         if float_gt0 d then ret (Some (d, "soundfile.info")) else ret None
     | None => ret None
     end)
    (fun _ => ret None).

(** Fallback: librosa's duration query. *)
Definition duration_librosa (path : string) : M (option (float * string)) :=
  try_except
    (request (ImportModule "librosa") ;;
     d <- request (LibrosaGetDuration path) ;;
     if float_gt0 d then ret (Some (d, "librosa.get_duration")) else ret None)
    (fun _ => ret None).

(** Last resort: decode five seconds and take their length.  In
    [sr and len(y) > 0] the length is asked for only when [sr] is true;
    [len(y)] is evaluated once more for the quotient [len(y) / sr]. *)
Definition duration_partial (path : string) : M (option (float * string)) :=
  try_except
    (request (ImportModule "librosa") ;;
     '(y, sr) <- request (LibrosaLoad path None true f_five None) ;;
     match sr with
     | Some srz =>
         if (srz =? 0)%Z then ret None else
         n <- py_len y ;;
         if (0 <? n)%Z
         then
           n' <- py_len y ;;
           q <- py_truediv n' srz ;;
           ret (Some (q, "librosa.partial"))
         else ret None
     | None => ret None
     end)
    (fun _ => ret None).

Definition _fast_duration (path ext : string) : M (float * string) :=
  let ext := lower ext in
  or_else (if String.eqb ext ".mp3" then duration_mutagen path else ret None)
  (or_else (duration_soundfile path)
  (or_else (duration_librosa path)
  (or_else (duration_partial path)
  (ret (f_zero, "unknown"))))).

(** ** _bounded_tempo *)

(** The variable [tempo]: what [beat_track] returned, or the Python float
    the fallback assigned. *)
Inductive tempo_val : Type :=
| TObj (o : handle)
| TFloat (x : float).

(** [not tempo or tempo <= 0 or (hasattr(beats, "__len__") and len(beats) == 0)] *)
Definition tempo_inconclusive (tempo beats : handle) : M bool :=
  t <- request (Truth tempo) ;;
  if negb t then ret true else
  le <- request (LeZero tempo) ;;
  if le then ret true else
  has <- request (HasAttr beats "__len__") ;;
  if has then
    n <- request (Len beats) ;;
    ret (n =? 0)%Z
  else ret false.

(** The onset-based estimate; a failure leaves [tempo] as it was. *)
Definition tempo_fallback (y : handle) (sr : Z) (tempo : handle) : M tempo_val :=
  try_except
    (t_alt <- request (BeatTempo y sr "mean") ;;
     request (ImportModule "numpy") ;;
     shaped <- request (ShapeTruth t_alt) ;;
     if shaped then
       m <- request (NpMean t_alt) ;;
       x <- request (ToFloat m) ;;
       ret (TFloat x)
     else
       x <- request (ToFloat t_alt) ;;
       ret (TFloat x))
    (fun _e => ret (TObj tempo)).

(** [float(tempo or 0.0)] *)
Definition tempo_or_zero (tempo : tempo_val) : M float :=
  match tempo with
  | TObj o =>
      t <- request (Truth o) ;;
      if t then request (ToFloat o) else ret f_zero
  | TFloat x => ret (if float_truthy x then x else f_zero)
  end.

(** [int(len(beats) if hasattr(beats, "__len__") else 0)] *)
Definition beats_count_of (beats : handle) : M Z :=
  has <- request (HasAttr beats "__len__") ;;
  if has then request (Len beats) else ret 0%Z.

Definition tempo_zero : float * Z * float := (f_zero, 0%Z, f_zero).

Definition _bounded_tempo (path : string) : M (float * Z * float) :=
  if negb (ENABLE_TEMPO cfg) then ret tempo_zero else
  try_except
    (request (ImportModule "librosa") ;;
     start <- request TimeTime ;;
     '(y, sr) <- request (LibrosaLoad path (Some (TEMPO_SR cfg)) true
                            (TEMPO_MAX_SECONDS cfg) (Some "kaiser_fast")) ;;
     match y with
     | None => ret tempo_zero
     | Some yo =>
         n <- request (Len yo) ;;
         if (n =? 0)%Z then ret tempo_zero else
         match sr with
         | None => ret tempo_zero
         | Some srz =>
             if (srz =? 0)%Z then ret tempo_zero else
             '(tempo, beats) <- request (BeatTrack yo srz) ;;
             weak <- tempo_inconclusive tempo beats ;;
             tempo' <- (if weak then tempo_fallback yo srz tempo
                        else ret (TObj tempo)) ;;
             now <- request TimeTime ;;
             let elapsed := float_sub now start in
             t <- tempo_or_zero tempo' ;;
             b <- beats_count_of beats ;;
             ret (t, b, elapsed)
         end
     end)
    (fun _ => ret tempo_zero).

(** ** handler *)

Definition error_result (msg : string) : pyval := VDict [("error", VStr msg)].

Definition update_expr : string :=
  "SET #duration = :d, #tempo = :t, #analyzed_at = :a".

Definition expr_names : dict :=
  [("#duration", VStr "duration");
   ("#tempo", VStr "tempo");
   ("#analyzed_at", VStr "analyzed_at")].

(** [datetime.now(timezone.utc).isoformat().replace("+00:00", "Z")] *)
Definition analyzed_at_of (now : datetime) : string :=
  replace "+00:00" "Z" (isoformat now).

Definition expr_values (duration tempo : float) (now : datetime) : dict :=
  [(":d", decimal_of_float duration);
   (":t", decimal_of_float tempo);
   (":a", VStr (analyzed_at_of now))].

(** The retry test on the text of the error. *)
Definition retryable (e : exc) : bool :=
  str_in "ValidationException" (exc_str e) ||
  str_in "reserved keyword" (exc_str e).

(** The request of both update attempts. *)
Definition update_request (file_id : pyval) (values : dict) : call dict :=
  UpdateItem [("file_id", file_id)] update_expr expr_names values None.

(** Update the record: one attempt, and one more when the error text
    names a validation error. *)
Definition update_record (file_id : pyval) (duration tempo : float) : M unit :=
  now <- request NowUtc ;;
  let values := expr_values duration tempo now in
  try_except
    (request (update_request file_id values) ;; ret tt)
    (fun e =>
       if retryable e
       then request (update_request file_id values) ;; ret tt
       else raise e).

(** Fallback: insert a new record when no file_id came with the event. *)
Definition insert_record (key : pyval) (duration tempo : float) : M unit :=
  name <- os_path_basename key ;;
  request (PutItem [("file_id", VStr name);
                    ("s3_key", key);
                    ("duration", decimal_of_float duration);
                    ("tempo", decimal_of_float tempo)]).

Definition analysis_of (duration tempo : float) (beats_count : Z)
    (duration_method : string) (timings : dict) : dict :=
  [("duration", VFloat duration);
   ("tempo", VFloat tempo);
   ("beats", VInt beats_count);
   ("duration_method", VStr duration_method);
   ("timings", VDict timings);
   ("tempo_enabled", VBool (ENABLE_TEMPO cfg));
   ("tempo_max_seconds", VFloat (TEMPO_MAX_SECONDS cfg));
   ("tempo_sr", VInt (TEMPO_SR cfg))].

(** The two stages are attributes of the module, looked up when they are
    called (the tests put stubs in their place): the pipeline takes them
    as arguments. *)
Section Stages.
Variable fast_duration : string -> string -> M (float * string).
Variable bounded_tempo : string -> M (float * Z * float).

(** The body of the [with] block. *)
Definition analyze_with (bucket key file_id : pyval) (t0 : float)
    (tmp_name : string) : M pyval :=
  request (DownloadFile bucket key tmp_name) ;;
  t <- request TimeTime ;;
  let timings := dict_set "download_s" (VFloat (float_sub t t0)) [] in
  '(_, ext0) <- os_path_splitext key ;;
  let ext := lower ext0 in
  t1 <- request TimeTime ;;
  '(duration, duration_method) <- fast_duration tmp_name ext ;;
  t <- request TimeTime ;;
  let timings := dict_set "duration_s" (VFloat (float_sub t t1)) timings in
  t2 <- request TimeTime ;;
  '(tempo, beats_count, tempo_elapsed) <- bounded_tempo tmp_name ;;
  tempo_s <- (if float_truthy tempo_elapsed then ret tempo_elapsed
              else t <- request TimeTime ;; ret (float_sub t t2)) ;;
  let timings := dict_set "tempo_s" (VFloat tempo_s) timings in
  let analysis := analysis_of duration tempo beats_count duration_method timings in
  name <- os_path_basename key ;;
  let out_key := (OUT_PREFIX cfg ++ name ++ ".json")%string in
  request (PutObject bucket out_key (json_dumps (VDict analysis))
             "application/json") ;;
  (if truthy file_id
   then update_record file_id duration tempo
   else insert_record key duration tempo) ;;
  ret (VDict [("bucket", bucket); ("key", key); ("analysis", VDict analysis)]).

(** The body of the [try] block. *)
Definition pipeline_with (bucket key file_id : pyval) : M pyval :=
  t0 <- request TimeTime ;;
  '(_, suffix) <- os_path_splitext key ;;
  with_tmpfile suffix (analyze_with bucket key file_id t0).

Definition handler_with (event : dict) : M pyval :=
  let bucket := get_or_none "bucket" event in
  let key := get_or_none "key" event in
  let file_id := get_or_none "file_id" event in
  if negb (truthy bucket) || negb (truthy key)
  then ret (error_result "Missing bucket or key")
  else
    try_except
      (pipeline_with bucket key file_id)
      (fun e => ret (error_result (exc_str e))).

End Stages.

Definition handler (event : dict) : M pyval :=
  handler_with _fast_duration _bounded_tempo event.

End Pipeline.

End Handler.

(* ===================================================================== *)
(** * app/db_dynamo.py *)
(* ===================================================================== *)

Module DbDynamo.
Import Py Rt.
Local Open Scope py_scope.

Section Store.
Context `{PyLib}.

Fixpoint _clean_ddb (value : pyval) : pyval :=
  match value with
  | VFloat x => VDecimal (float_str x)
  | VDict d => VDict (map (fun '(k, v) => (k, _clean_ddb v)) d)
  | VList l => VList (map _clean_ddb l)
  | VTuple l => VTuple (map _clean_ddb l)
  | _ => value
  end.

(** [{k: _clean_ddb(v) for k, v in d.items()}] *)
Definition clean_items (d : dict) : dict :=
  map (fun '(k, v) => (k, _clean_ddb v)) d.

(** The initial value of [duration] and of [tempo] in a new record:
    [Decimal("0")] for [None], the decimal of a float, anything else as
    it is. *)
Definition initial_number (v : pyval) : pyval :=
  match v with
  | VNone => VDecimal "0"
  | VFloat x => VDecimal (float_str x)
  | _ => v
  end.

(** [file_id or str(uuid.uuid4())] *)
Definition file_id_or_new (file_id : option string) : M string :=
  match file_id with
  | Some s => if String.eqb s "" then request Uuid4Str else ret s
  | None => request Uuid4Str
  end.

(** The arguments have their annotated types: [filename] and [s3_key]
    are strings, [file_id] a string or [None]; [duration] and [tempo] are
    any value, [None] by default. *)
Definition save_metadata (filename s3_key : string) (duration tempo : pyval)
    (file_id : option string) : M (option dict) :=
  file_id <- file_id_or_new file_id ;;
  let item :=
    [("file_id", VStr file_id);
     ("filename", VStr filename);
     ("s3_key", VStr s3_key);
     ("duration", initial_number duration);
     ("tempo", initial_number tempo)] in
  let item := clean_items item in
  try_except_client
    (request (PutItem item) ;; ret (Some item))
    (fun _e => ret None).

Definition dict_is_empty (d : dict) : bool :=
  match d with
  | [] => true
  | _ => false
  end.

(** [update_metadata(file_id, **fields)] *)
Definition update_metadata (file_id : string) (fields : dict) : M pyval :=
  if String.eqb file_id "" || dict_is_empty fields
  then ret (VDict [("error", VStr "Missing file_id or update fields")])
  else
    let cleaned_fields := clean_items fields in
    let names :=
      map (fun k => (("#" ++ k)%string, VStr k)) (dict_keys cleaned_fields) in
    let update_expr :=
      ("SET " ++ String.concat ", "
         (map (fun k => "#" ++ k ++ " = :" ++ k) (dict_keys cleaned_fields)))%string in
    let expr_values :=
      map (fun '(k, v) => ((":" ++ k)%string, v)) cleaned_fields in
    try_except_client
      (resp <- request (UpdateItem [("file_id", VStr file_id)] update_expr
                          names expr_values (Some "UPDATED_NEW")) ;;
       ret (match dict_get "Attributes" resp with
            | Some attrs => attrs
            | None => VDict []
            end))
      (fun e => ret (VDict [("error", VStr (exc_str e))])).

End Store.

End DbDynamo.

(* ===================================================================== *)
(** * Reading histories *)
(* ===================================================================== *)

Module Hist.
Import Py Rt.

Definition ev_raised (ev : event) : bool :=
  match ev with
  | Ev _ (Raise _) => true
  | _ => false
  end.

Definition error_of {T : Type} (r : outcome T) : option exc :=
  match r with
  | Ok _ => None
  | Raise e => Some e
  end.

(** The [put_item] requests of a history: the item, and the error the
    request raised, if any. *)
Fixpoint put_items (d : trace) : list (dict * option exc) :=
  match d with
  | [] => []
  | Ev (PutItem item) r :: d' => (item, error_of r) :: put_items d'
  | _ :: d' => put_items d'
  end.

(** An [update_item] request: key, expression, names, values. *)
Definition update_args : Type := dict * string * dict * dict.

(** The [update_item] requests of a history, each with the error it
    raised, if any. *)
Fixpoint updates (d : trace) : list (update_args * option exc) :=
  match d with
  | [] => []
  | Ev (UpdateItem k u n v _) r :: d' =>
      ((k, u, n, v), error_of r) :: updates d'
  | _ :: d' => updates d'
  end.

(** An artifact write: bucket, key, body, content type. *)
Definition put_args : Type := pyval * string * string * string.

Fixpoint put_objects (d : trace) : list (put_args * option exc) :=
  match d with
  | [] => []
  | Ev (PutObject b k body ct) r :: d' =>
      ((b, k, body, ct), error_of r) :: put_objects d'
  | _ :: d' => put_objects d'
  end.

Fixpoint downloads (d : trace) : list (option exc) :=
  match d with
  | [] => []
  | Ev (DownloadFile _ _ _) r :: d' =>
      error_of r :: downloads d'
  | _ :: d' => downloads d'
  end.

(** The error of the last [update_item] request, if it raised. *)
Definition last_update_error (d : trace) : option exc :=
  match rev (updates d) with
  | (_, o) :: _ => o
  | [] => None
  end.

(** A decode request: path, sample rate, mono, seconds, resampler. *)
Definition load_args : Type := string * option Z * bool * float * option string.

Fixpoint loads (d : trace) : list load_args :=
  match d with
  | [] => []
  | Ev (LibrosaLoad p sr mono dur rt) _ :: d' =>
      (p, sr, mono, dur, rt) :: loads d'
  | _ :: d' => loads d'
  end.

(** The requests that reach S3 or the table. *)
Definition is_io (ev : event) : bool :=
  match ev with
  | Ev (DownloadFile _ _ _) _ => true
  | Ev (PutObject _ _ _ _) _ => true
  | Ev (UpdateItem _ _ _ _ _) _ => true
  | Ev (PutItem _) _ => true
  | _ => false
  end.

(** The S3 and table requests of a history. *)
Definition io (d : trace) : trace := filter is_io d.

(** The requests the onset-based tempo fallback makes. *)
Definition is_fallback_request (ev : event) : bool :=
  match ev with
  | Ev (BeatTempo _ _ _) _ => true
  | Ev (ImportModule name) _ => String.eqb name "numpy"
  | Ev (ShapeTruth _) _ => true
  | Ev (NpMean _) _ => true
  | Ev (ToFloat _) _ => true
  | _ => false
  end.

(** The last event is a request that raised. *)
Definition ends_raised (d : trace) : bool :=
  match rev d with
  | ev :: _ => ev_raised ev
  | [] => false
  end.

(** Every request that raised before the last event was one of the
    tempo fallback. *)
Definition failures_absorbed (d : trace) : bool :=
  forallb (fun ev => implb (ev_raised ev) (is_fallback_request ev))
          (removelast d).

(** The request for the onset-based estimate, with which the fallback
    block of the tempo estimator begins. *)
Definition is_onset_request (ev : event) : bool :=
  match ev with
  | Ev (BeatTempo _ _ _) _ => true
  | _ => false
  end.

Definition is_clock_reading (ev : event) : bool :=
  match ev with
  | Ev TimeTime _ => true
  | _ => false
  end.

(** The events before the next reading of [time.time()]. *)
Fixpoint until_clock (d : trace) : trace :=
  match d with
  | [] => []
  | ev :: d' => if is_clock_reading ev then [] else ev :: until_clock d'
  end.

(** The events from the next reading of [time.time()] on. *)
Fixpoint from_clock (d : trace) : trace :=
  match d with
  | [] => []
  | ev :: d' => if is_clock_reading ev then d else from_clock d'
  end.

(** The events of the fallback block of the tempo estimator: from the
    request for the onset-based estimate up to the next reading of the
    clock (the block does not read the clock, and the estimator reads
    it right after the block). *)
Fixpoint fallback_part (d : trace) : trace :=
  match d with
  | [] => []
  | ev :: d' =>
      if is_onset_request ev then ev :: until_clock d' else fallback_part d'
  end.

(** The other events of the tempo estimator: those before the fallback
    block and those from the reading of the clock after it. *)
Fixpoint outside_fallback (d : trace) : trace :=
  match d with
  | [] => []
  | ev :: d' =>
      if is_onset_request ev then from_clock d' else ev :: outside_fallback d'
  end.

(** The events after the last reading of [time.time()]. *)
Definition after_clock (d : trace) : trace := rev (until_clock (rev d)).

(** What [time.time()] returned, reading by reading. *)
Fixpoint clock (d : trace) : list float :=
  match d with
  | [] => []
  | Ev TimeTime (Ok x) :: d' => x :: clock d'
  | _ :: d' => clock d'
  end.

(** What the beat tracker returned: tempo and beats. *)
Fixpoint tracked (d : trace) : list (handle * handle) :=
  match d with
  | [] => []
  | Ev (BeatTrack _ _) (Ok a) :: d' => a :: tracked d'
  | _ :: d' => tracked d'
  end.


(** The result is the success dictionary (it has no ["error"] key). *)
Definition succeeded (r : outcome pyval) : bool :=
  match r with
  | Ok (VDict d) =>
      match dict_get "error" d with
      | None => true
      | Some _ => false
      end
  | _ => false
  end.

(** The content of the object store: bucket and key to body and content
    type.  A [put_object] that returns replaces the whole object at its
    key (S3 has no merge); nothing else of this program writes objects. *)
Definition s3_store : Type := string -> string -> option (string * string).

Definition s3_step (s : s3_store) (ev : event) : s3_store :=
  match ev with
  | Ev (PutObject (VStr b) k body ct) (Ok _) =>
      fun b' k' =>
        if String.eqb b' b && String.eqb k' k then Some (body, ct) else s b' k'
  | _ => s
  end.

Definition s3_after (s : s3_store) (d : trace) : s3_store :=
  fold_left s3_step d s.

End Hist.

(* ===================================================================== *)
(** * Sample environments and events *)
(* ===================================================================== *)

Module Demo.
Import Py Rt Hist.

(** A stand-in for the printers, enough to run the pipeline. *)
Definition lib : PyLib :=
  {| float_str := fun x => if float_truthy x then "1.5" else "0.0";
     json_dumps := fun v => ("<json " ++ type_name v ++ ">")%string |}.

(** Every collaborator answers; the clock stands still. *)
Definition answer_ok (T : Type) (c : call T) : outcome T :=
  match c in call T return outcome T with
  | TimeTime => Ok f_zero
  | NowUtc => Ok (Datetime 2024 1 2 3 4 5 0)
  | Uuid4Str => Ok "00000000-0000-4000-8000-000000000001"
  | NamedTemporaryFile suffix => Ok ("/tmp/tmpabc" ++ suffix)%string
  | ImportModule _ => Ok tt
  | DownloadFile _ _ _ => Ok tt
  | PutObject _ _ _ _ => Ok tt
  | UpdateItem _ _ _ v _ => Ok [("Attributes", VDict v)]
  | PutItem _ => Ok tt
  | MutagenLength _ => Ok f_five
  | SfInfoDuration _ => Ok (Some f_five)
  | LibrosaGetDuration _ => Ok f_five
  | LibrosaLoad _ _ _ _ _ => Ok (Some 1%nat, Some 22050%Z)
  | BeatTrack _ _ => Ok (2%nat, 3%nat)
  | BeatTempo _ _ _ => Ok 4%nat
  | Len _ => Ok 7%Z
  | Truth _ => Ok true
  | LeZero _ => Ok false
  | HasAttr _ _ => Ok true
  | ShapeTruth _ => Ok true
  | NpMean o => Ok o
  | ToFloat _ => Ok f_thirty
  end.

Definition env_ok : Env := fun T _ c => answer_ok T c.

Definition validation_error : exc :=
  Exc ClientError
    "An error occurred (ValidationException) when calling the UpdateItem operation: Invalid UpdateExpression".

Definition throttled : exc :=
  Exc ClientError
    "An error occurred (ProvisionedThroughputExceededException) when calling the UpdateItem operation".

Definition access_denied : exc :=
  Exc ClientError "An error occurred (AccessDenied) when calling the PutObject operation".

Definition no_such_key : exc :=
  Exc ClientError "An error occurred (404) when calling the HeadObject operation: Not Found".

Definition no_librosa : exc := Exc OtherException "No module named 'librosa'".

Definition bad_header : exc := Exc OtherException "can't sync to MPEG frame".

Definition is_update_event (ev : event) : bool :=
  match ev with
  | Ev (UpdateItem _ _ _ _ _) _ => true
  | _ => false
  end.

(** The table rejects every update with [e]. *)
Definition env_update_fails (e : exc) : Env :=
  fun T t c =>
    match c in call T return outcome T with
    | UpdateItem _ _ _ _ _ => Raise e
    | c' => answer_ok _ c'
    end.

(** The table rejects the first update with [e] and accepts the next. *)
Definition env_update_fails_once (e : exc) : Env :=
  fun T t c =>
    match c in call T return outcome T with
    | UpdateItem _ _ _ v _ =>
        if existsb is_update_event t
        then Ok [("Attributes", VDict v)]
        else Raise e
    | c' => answer_ok _ c'
    end.

Definition env_download_fails : Env :=
  fun T t c =>
    match c in call T return outcome T with
    | DownloadFile _ _ _ => Raise no_such_key
    | c' => answer_ok _ c'
    end.

Definition env_put_object_fails : Env :=
  fun T t c =>
    match c in call T return outcome T with
    | PutObject _ _ _ _ => Raise access_denied
    | c' => answer_ok _ c'
    end.

(** No audio library can read the file. *)
Definition env_no_audio : Env :=
  fun T t c =>
    match c in call T return outcome T with
    | MutagenLength _ => Raise bad_header
    | SfInfoDuration _ => Raise bad_header
    | ImportModule _ => Raise no_librosa
    | c' => answer_ok _ c'
    end.

(** The beat tracker reports a tempo but no beat (the array of beats is
    empty; the decoded samples are not), and the onset-based estimate
    fails.  The clock advances between its first and its second reading. *)
Definition env_fallback_fails : Env :=
  fun T t c =>
    match c in call T return outcome T with
    | TimeTime => Ok (match t with [] | [_] => f_zero | _ => f_five end)
    | Len o => Ok (if (o =? 1)%nat then 7%Z else 0%Z)
    | BeatTempo _ _ _ => Raise (Exc OtherException "tempo estimation failed")
    | c' => answer_ok _ c'
    end.

Definition event_with_id : dict :=
  [("bucket", VStr "test-bucket"); ("key", VStr "uploads/abc.wav");
   ("file_id", VStr "fid-1")].

Definition event_without_id : dict :=
  [("bucket", VStr "test-bucket"); ("key", VStr "uploads/foo.mp3")].

Definition event_empty_id : dict :=
  [("bucket", VStr "test-bucket"); ("key", VStr "uploads/foo.mp3");
   ("file_id", VStr "")].

(** The update request of a run on [event_with_id] under [env_ok]. *)
Definition sample_update : update_args :=
  ([("file_id", VStr "fid-1")], Handler.update_expr, Handler.expr_names,
   Handler.expr_values (H := lib) f_five f_thirty (Datetime 2024 1 2 3 4 5 0)).

(** The stubs of the tests. *)
Definition stub_duration (d : float) : string -> string -> M (float * string) :=
  fun _ _ => ret (d, "stub").

Definition stub_tempo (r : float * Z * float) : string -> M (float * Z * float) :=
  fun _ => ret r.

End Demo.

(* ===================================================================== *)
(** * Specification vocabulary *)
(* ===================================================================== *)

Module Spec.
Import Py Rt.

(** [post m env t Q]: run from history [t], the computation [m] ends with
    a result and added events that satisfy [Q]. *)
Definition post {A} (m : M A) (env : Env) (t : trace)
    (Q : outcome A -> trace -> Prop) : Prop :=
  Q (fst (m env t)) (snd (m env t)).






(** [float(tempo or 0.0)] for the [tempo] the beat tracker returned:
    the requests it makes and the float it gives. *)
Inductive kept_tempo (tempo : handle) : trace -> float -> Prop :=
| kept_falsy :
    kept_tempo tempo [Ev (Truth tempo) (Ok false)] f_zero
| kept_truthy x :
    kept_tempo tempo [Ev (Truth tempo) (Ok true); Ev (ToFloat tempo) (Ok x)] x.

(** [int(len(beats) if hasattr(beats, "__len__") else 0)]: the requests
    it makes and the count it gives. *)
Inductive counted (beats : handle) : trace -> Z -> Prop :=
| counted_none :
    counted beats [Ev (HasAttr beats "__len__") (Ok false)] 0%Z
| counted_len n :
    counted beats
      [Ev (HasAttr beats "__len__") (Ok true); Ev (Len beats) (Ok n)] n.

(** No float anywhere in a value. *)
Fixpoint float_free (v : pyval) : bool :=
  match v with
  | VFloat _ => false
  | VList l => forallb float_free l
  | VTuple l => forallb float_free l
  | VDict d => forallb (fun '(_, x) => float_free x) d
  | _ => true
  end.

Definition float_free_dict (d : dict) : bool :=
  forallb (fun '(_, x) => float_free x) d.

(** A value that is neither a float nor a container. *)
Definition is_plain_leaf (v : pyval) : bool :=
  match v with
  | VFloat _ | VList _ | VTuple _ | VDict _ => false
  | _ => true
  end.

Section Cleaned.
Context `{PyLib}.

(** [cleaned v w]: [w] is [v] with each float [x] replaced by
    [Decimal(str(x))], the containers and all other leaves kept. *)
Inductive cleaned : pyval -> pyval -> Prop :=
| cl_float x : cleaned (VFloat x) (VDecimal (float_str x))
| cl_leaf v : is_plain_leaf v = true -> cleaned v v
| cl_list l l' : Forall2 cleaned l l' -> cleaned (VList l) (VList l')
| cl_tuple l l' : Forall2 cleaned l l' -> cleaned (VTuple l) (VTuple l')
| cl_dict d d' :
    Forall2 (fun kv kv' => fst kv = fst kv' /\ cleaned (snd kv) (snd kv')) d d' ->
    cleaned (VDict d) (VDict d').

End Cleaned.

Section Shape.
Context `{PyLib}.
Variable cfg : Handler.config.
Variables bucket key file_id : pyval.

(** The record inserted when the event has no file_id. *)
Definition inserted_item (key_s : string) (duration tempo : float) : dict :=
  [("file_id", VStr (basename key_s));
   ("s3_key", key);
   ("duration", decimal_of_float duration);
   ("tempo", decimal_of_float tempo)].

(** The table requests of one run of the persistence step, and the error
    the step ends with, if any. *)
Inductive persist_shape (duration tempo : float) : trace -> option exc -> Prop :=
| ps_clock_failed e :
    truthy file_id = true ->
    persist_shape duration tempo [] (Some e)
| ps_update_ok now a :
    truthy file_id = true ->
    persist_shape duration tempo
      [Ev (Handler.update_request file_id (Handler.expr_values duration tempo now)) (Ok a)]
      None
| ps_update_failed now e :
    truthy file_id = true ->
    Handler.retryable e = false ->
    persist_shape duration tempo
      [Ev (Handler.update_request file_id (Handler.expr_values duration tempo now)) (Raise e)]
      (Some e)
| ps_retry_ok now e1 a :
    truthy file_id = true ->
    Handler.retryable e1 = true ->
    persist_shape duration tempo
      [Ev (Handler.update_request file_id (Handler.expr_values duration tempo now)) (Raise e1);
       Ev (Handler.update_request file_id (Handler.expr_values duration tempo now)) (Ok a)]
      None
| ps_retry_failed now e1 e2 :
    truthy file_id = true ->
    Handler.retryable e1 = true ->
    persist_shape duration tempo
      [Ev (Handler.update_request file_id (Handler.expr_values duration tempo now)) (Raise e1);
       Ev (Handler.update_request file_id (Handler.expr_values duration tempo now)) (Raise e2)]
      (Some e2)
| ps_insert_ok key_s :
    truthy file_id = false ->
    key = VStr key_s ->
    persist_shape duration tempo
      [Ev (PutItem (inserted_item key_s duration tempo)) (Ok tt)] None
| ps_insert_failed key_s e :
    truthy file_id = false ->
    key = VStr key_s ->
    persist_shape duration tempo
      [Ev (PutItem (inserted_item key_s duration tempo)) (Raise e)] (Some e).

(** The artifact write of a run. *)
Definition artifact_request (key_s : string) (analysis : dict) : call unit :=
  PutObject bucket (Handler.OUT_PREFIX cfg ++ basename key_s ++ ".json")%string
            (json_dumps (VDict analysis)) "application/json".

(** The result of a run that succeeded. *)
Definition success_result (analysis : dict) : pyval :=
  VDict [("bucket", bucket); ("key", key); ("analysis", VDict analysis)].

(** The runs of the pipeline on an event with a bucket and a key: the
    result, and the S3 and table requests in the order they were made. *)
Inductive handler_shape : outcome pyval -> trace -> Prop :=
| hs_before_download e :
    handler_shape (Ok (Handler.error_result (exc_str e))) []
| hs_download_failed name e :
    handler_shape (Ok (Handler.error_result (exc_str e)))
      [Ev (DownloadFile bucket key name) (Raise e)]
| hs_analysis_failed name e :
    handler_shape (Ok (Handler.error_result (exc_str e)))
      [Ev (DownloadFile bucket key name) (Ok tt)]
| hs_put_failed name key_s duration tempo beats method timings e :
    key = VStr key_s ->
    handler_shape (Ok (Handler.error_result (exc_str e)))
      [Ev (DownloadFile bucket key name) (Ok tt);
       Ev (artifact_request key_s
             (Handler.analysis_of cfg duration tempo beats method timings))
          (Raise e)]
| hs_persist_failed name key_s duration tempo beats method timings p e :
    key = VStr key_s ->
    persist_shape duration tempo p (Some e) ->
    handler_shape (Ok (Handler.error_result (exc_str e)))
      (Ev (DownloadFile bucket key name) (Ok tt)
       :: Ev (artifact_request key_s
                (Handler.analysis_of cfg duration tempo beats method timings))
             (Ok tt)
       :: p)
| hs_success name key_s duration tempo beats method timings p :
    key = VStr key_s ->
    persist_shape duration tempo p None ->
    handler_shape
      (Ok (success_result
             (Handler.analysis_of cfg duration tempo beats method timings)))
      (Ev (DownloadFile bucket key name) (Ok tt)
       :: Ev (artifact_request key_s
                (Handler.analysis_of cfg duration tempo beats method timings))
             (Ok tt)
       :: p).

End Shape.

(** A stage that makes no S3 or table request. *)
Definition io_quiet {A} (m : M A) : Prop :=
  forall env t, Hist.io (snd (m env t)) = [].




End Spec.

(* ===================================================================== *)
(** * The rest of the application: app/db_dynamo.py (read and delete)
      and app/main.py *)
(* ===================================================================== *)

Module App.
Import Py Rt.

(** The requests of the whole application: those of the analyzer and of
    the record writers, and the ones only the API makes. *)
Inductive acall : Type -> Type :=
| OfCall {T : Type} (c : call T) : acall T
(* table *)
| Scan (Limit : Z) : acall dict
| GetItem (Key : dict) : acall dict
| DeleteItem (Key : dict) : acall dict
(* s3 *)
| UploadFileobj (Fileobj : handle) (Bucket : pyval) (Key : string) : acall unit
(* lambda_client *)
| LambdaInvoke (FunctionName : pyval) (InvocationType : string)
               (Payload : string) : acall dict.

Inductive aevent : Type :=
| AEv {T : Type} (c : acall T) (r : outcome T)
| AReleased (name : string).

Definition atrace : Type := list aevent.

Definition AEnv : Type := forall T : Type, atrace -> acall T -> outcome T.

(** A computation of the application: as [M], over the larger set of
    requests. *)
Definition W (A : Type) : Type := AEnv -> atrace -> outcome A * atrace.

Definition wret {A} (a : A) : W A := fun _ _ => (Ok a, []).

Definition wraise {A} (e : exc) : W A := fun _ _ => (Raise e, []).

Definition wbind {A B} (m : W A) (k : A -> W B) : W B :=
  fun env t =>
    match m env t with
    | (Ok a, d1) => let '(r, d2) := k a env (t ++ d1) in (r, d1 ++ d2)
    | (Raise e, d1) => (Raise e, d1)
    end.

Definition arequest {T} (c : acall T) : W T :=
  fun env t => let r := env T t c in (r, [AEv c r]).

(** [try: m  except Exception as e: h e] *)
Definition wtry {A} (m : W A) (h : exc -> W A) : W A :=
  fun env t =>
    match m env t with
    | (Ok a, d1) => (Ok a, d1)
    | (Raise e, d1) => let '(r, d2) := h e env (t ++ d1) in (r, d1 ++ d2)
    end.

(** [try: m  except ClientError as e: h e] *)
Definition wtry_client {A} (m : W A) (h : exc -> W A) : W A :=
  wtry m (fun e => if is_client_error e then h e else wraise e).

Definition lift_event (ev : event) : aevent :=
  match ev with
  | Ev c r => AEv (OfCall c) r
  | Released name => AReleased name
  end.

(** What the environment of the application answers to the requests of
    a computation of the first kind that has made the events [t] since
    the history [t0]. *)
Definition restrict (env : AEnv) (t0 : atrace) : Env :=
  fun T t c => env T (t0 ++ map lift_event t) (OfCall c).

(** A call of a function of the first kind from the application. *)
Definition lift {A} (m : M A) : W A :=
  fun env t0 =>
    let '(r, d) := m (restrict env t0) [] in (r, map lift_event d).

Declare Scope app_scope.
Delimit Scope app_scope with app.
Notation "x <- m ;; k" := (wbind m (fun x => k))
  (at level 61, m at next level, right associativity) : app_scope.
Notation "m ;; k" := (wbind m (fun _ => k))
  (at level 61, right associativity) : app_scope.
Local Open Scope app_scope.

Section Db.
Context `{PyLib}.

(** ** app/db_dynamo.py: list_metadata, list_metadata_by_file_id,
       delete_metadata *)

Definition list_metadata (limit : Z) : W pyval :=
  wtry_client
    (resp <- arequest (Scan limit) ;;
     wret (match dict_get "Items" resp with
           | Some items => items
           | None => VList []
           end))
    (fun _e => wret (VList [])).

(** The result is a Python list: [[item]] or [[]]. *)
Definition list_metadata_by_file_id (file_id : string) : W (list pyval) :=
  wtry_client
    (resp <- arequest (GetItem [("file_id", VStr file_id)]) ;;
     let item := get_or_none "Item" resp in
     wret (if truthy item then [item] else []))
    (fun _e => wret []).

Definition delete_metadata (file_id : string) : W pyval :=
  wtry_client
    (arequest (DeleteItem [("file_id", VStr file_id)]) ;;
     wret (VDict [("status", VStr "success")]))
    (fun e => wret (VDict [("error", VStr (exc_str e))])).

(** ** Operations on values that the endpoints use *)

Definition is_the_str (x : string) (v : pyval) : bool :=
  match v with
  | VStr s => String.eqb s x
  | _ => false
  end.

(** [x in v] for a string [x] *)
Definition py_contains (x : string) (v : pyval) : W bool :=
  match v with
  | VDict d => wret (existsb (String.eqb x) (dict_keys d))
  | VStr s => wret (str_in x s)
  | VList l => wret (existsb (is_the_str x) l)
  | VTuple l => wret (existsb (is_the_str x) l)
  | _ => wraise (type_error
           ("argument of type '" ++ type_name v ++ "' is not iterable"))
  end.

(** [v[x]] for a string [x] *)
Definition py_getitem (v : pyval) (x : string) : W pyval :=
  match v with
  | VDict d =>
      match dict_get x d with
      | Some y => wret y
      | None => wraise (Exc OtherException ("'" ++ x ++ "'"))
      end
  | VStr _ => wraise (type_error "string indices must be integers, not 'str'")
  | VList _ =>
      wraise (type_error "list indices must be integers or slices, not str")
  | VTuple _ =>
      wraise (type_error "tuple indices must be integers or slices, not str")
  | _ => wraise (type_error
           ("'" ++ type_name v ++ "' object is not subscriptable"))
  end.

(** [s.rsplit(c, 1)[-1]]: what follows the last [c], or all of [s]. *)
Definition after_last (c : ascii) (s : string) : string :=
  str_drop (Z.to_nat (rfind c s + 1)) s.

(** ** app/main.py *)

(** [S3_BUCKET] and [LAMBDA_NAME]: [os.getenv] gives a string or [None]. *)
Record app_config : Type := AppConfig {
  S3_BUCKET : pyval;
  LAMBDA_NAME : pyval
}.

(** What an endpoint hands back to the framework: a body, or the
    [HTTPException] it raised (the module never catches one). *)
Inductive http (A : Type) : Type :=
| Respond (a : A)
| HTTPException (status_code : Z) (detail : pyval).
Arguments Respond {A} a.
Arguments HTTPException {A} status_code detail.

(** An [UploadFile]: the name the client gave and the file object. *)
Record upload_file : Type := UploadFile {
  filename : string;
  file : handle
}.

Variable app : app_config.

Definition root : W pyval :=
  wret (VDict [("message", VStr "TuneSugar API running")]).

(** ["." + file.filename.rsplit(".", 1)[-1].lower()] *)
Definition upload_ext (name : string) : string :=
  ("." ++ lower (after_last "." name))%string.

(** The payload sent to the analyzer. *)
Definition payload_of (s3_key file_id : string) : dict :=
  [("bucket", S3_BUCKET app); ("key", VStr s3_key); ("file_id", VStr file_id)].

Definition upload_audio (f : upload_file) : W (http pyval) :=
  let ext := upload_ext (filename f) in
  if negb (existsb (String.eqb ext) [".wav"; ".mp3"])
  then wret (HTTPException 400 (VStr "Only WAV/MP3 supported"))
  else
    file_id <- arequest (OfCall Uuid4Str) ;;
    let s3_key := ("uploads/" ++ file_id ++ ext)%string in
    failed <-
      wtry (arequest (UploadFileobj (file f) (S3_BUCKET app) s3_key) ;;
            wret None)
           (fun e => wret (Some ("S3 upload failed: " ++ exc_str e)%string)) ;;
    match failed with
    | Some detail => wret (HTTPException 500 (VStr detail))
    | None =>
        lift (DbDynamo.save_metadata (filename f) s3_key VNone VNone
                (Some file_id)) ;;
        let payload := payload_of s3_key file_id in
        wtry
          (arequest (LambdaInvoke (LAMBDA_NAME app) "Event"
                       (json_dumps (VDict payload))) ;;
           wret (Respond (VDict [("file_id", VStr file_id);
                                 ("s3_key", VStr s3_key);
                                 ("lambda_invoked", VBool true)])))
          (fun e =>
             wret (Respond (VDict [("file_id", VStr file_id);
                                   ("s3_key", VStr s3_key);
                                   ("lambda_invoked", VBool false);
                                   ("error", VStr (exc_str e))])))
    end.

Definition get_samples (limit : Z) : W pyval :=
  items <- list_metadata limit ;;
  wret (VDict [("items", items)]).

Definition get_sample (file_id : string) : W pyval :=
  if String.eqb file_id ""
  then wret (VDict [("error", VStr "Missing file_id")])
  else
    item <- list_metadata_by_file_id file_id ;;
    match item with
    | [] => wret (VDict [("error", VStr "No sample found")])
    | first :: _ => wret (VDict [("items", first)])
    end.

(** [update_metadata(file_id, **fields)]: a key [file_id] among the
    fields collides with the positional argument. *)
Definition update_metadata_kw (file_id : string) (fields : dict) : W pyval :=
  match dict_get "file_id" fields with
  | Some _ =>
      wraise (type_error
        "update_metadata() got multiple values for argument 'file_id'")
  | None => lift (DbDynamo.update_metadata file_id fields)
  end.

Definition update_sample (file_id : string) (fields : dict) : W (http pyval) :=
  updated <- update_metadata_kw file_id fields ;;
  has_error <- py_contains "error" updated ;;
  if has_error then
    detail <- py_getitem updated "error" ;;
    wret (HTTPException 500 detail)
  else
    wret (Respond (VDict [("file_id", VStr file_id);
                          ("updated_fields", updated)])).

Definition delete_sample (file_id : string) : W (http pyval) :=
  if String.eqb file_id ""
  then wret (HTTPException 400 (VStr "Missing file_id"))
  else
    result <- delete_metadata file_id ;;
    has_error <- py_contains "error" result ;;
    if has_error then
      detail <- py_getitem result "error" ;;
      wret (HTTPException 500 detail)
    else
      wret (Respond (VDict [("file_id", VStr file_id);
                            ("deleted", VBool true)])).

End Db.

Arguments Respond {A} a.
Arguments HTTPException {A} status_code detail.

(** ** Reading a history of the application *)

(** The events of the first kind in a history, in order. *)
Fixpoint base_events (d : atrace) : trace :=
  match d with
  | [] => []
  | AEv (OfCall c) r :: d' => Ev c r :: base_events d'
  | AReleased name :: d' => Released name :: base_events d'
  | _ :: d' => base_events d'
  end.

(** The requests only the API makes, without their answers. *)
Inductive api_request : Type :=
| RScan (limit : Z)
| RGetItem (key : dict)
| RDeleteItem (key : dict)
| RUpload (bucket : pyval) (key : string)
| RInvoke (function_name : pyval) (invocation_type payload : string).

Fixpoint api_requests (d : atrace) : list (api_request * option exc) :=
  match d with
  | [] => []
  | AEv (Scan l) r :: d' => (RScan l, Hist.error_of r) :: api_requests d'
  | AEv (GetItem k) r :: d' => (RGetItem k, Hist.error_of r) :: api_requests d'
  | AEv (DeleteItem k) r :: d' =>
      (RDeleteItem k, Hist.error_of r) :: api_requests d'
  | AEv (UploadFileobj _ b k) r :: d' =>
      (RUpload b k, Hist.error_of r) :: api_requests d'
  | AEv (LambdaInvoke f i p) r :: d' =>
      (RInvoke f i p, Hist.error_of r) :: api_requests d'
  | _ :: d' => api_requests d'
  end.

(** The writes of a history, each as a tag, in the order they were made:
    the object uploads, the record puts, updates and deletes, the
    analyzer invocations. *)
Inductive write_kind : Type := WUpload | WPut | WUpdate | WDelete | WInvoke.

Fixpoint writes (d : atrace) : list write_kind :=
  match d with
  | [] => []
  | AEv (UploadFileobj _ _ _) _ :: d' => WUpload :: writes d'
  | AEv (OfCall (PutItem _)) _ :: d' => WPut :: writes d'
  | AEv (OfCall (UpdateItem _ _ _ _ _)) _ :: d' => WUpdate :: writes d'
  | AEv (DeleteItem _) _ :: d' => WDelete :: writes d'
  | AEv (LambdaInvoke _ _ _) _ :: d' => WInvoke :: writes d'
  | _ :: d' => writes d'
  end.

(** [post] for the application. *)
Definition wpost {A} (m : W A) (env : AEnv) (t : atrace)
    (Q : outcome A -> atrace -> Prop) : Prop :=
  Q (fst (m env t)) (snd (m env t)).

End App.

(* ===================================================================== *)
(** * More readings of a history of the analyzer *)
(* ===================================================================== *)

Module Obs.
Import Py Rt.

(** The scratch files created. *)
Fixpoint created (d : trace) : list string :=
  match d with
  | [] => []
  | Ev (NamedTemporaryFile _) (Ok name) :: d' => name :: created d'
  | _ :: d' => created d'
  end.

(** The scratch files released. *)
Fixpoint released (d : trace) : list string :=
  match d with
  | [] => []
  | Released name :: d' => name :: released d'
  | _ :: d' => released d'
  end.

(** The last event is the release of [name]. *)
Definition ends_with_release (name : string) (d : trace) : bool :=
  match rev d with
  | Released n :: _ => String.eqb n name
  | _ => false
  end.

(** The header parses requested. *)
Fixpoint mutagen_requests (d : trace) : list string :=
  match d with
  | [] => []
  | Ev (MutagenLength p) _ :: d' => p :: mutagen_requests d'
  | _ :: d' => mutagen_requests d'
  end.

(** The beat tracker requests: array and sample rate. *)
Fixpoint beat_tracks (d : trace) : list (handle * Z) :=
  match d with
  | [] => []
  | Ev (BeatTrack y sr) _ :: d' => (y, sr) :: beat_tracks d'
  | _ :: d' => beat_tracks d'
  end.

(** What the decoder returned, for the decodes that returned. *)
Fixpoint decoded (d : trace) : list (option handle * option Z) :=
  match d with
  | [] => []
  | Ev (LibrosaLoad _ _ _ _ _) (Ok a) :: d' => a :: decoded d'
  | _ :: d' => decoded d'
  end.

(** The onset-based estimates requested. *)
Fixpoint onset_requests (d : trace) : list (handle * Z) :=
  match d with
  | [] => []
  | Ev (BeatTempo y sr _) _ :: d' => (y, sr) :: onset_requests d'
  | _ :: d' => onset_requests d'
  end.

(** The identifiers asked of [uuid]. *)
Fixpoint uuid_requests (d : trace) : nat :=
  match d with
  | [] => 0
  | Ev Uuid4Str _ :: d' => S (uuid_requests d')
  | _ :: d' => uuid_requests d'
  end.

(** The lengths asked for and given: the object and its length. *)
Fixpoint lengths (d : trace) : list (handle * Z) :=
  match d with
  | [] => []
  | Ev (Len o) (Ok n) :: d' => (o, n) :: lengths d'
  | _ :: d' => lengths d'
  end.

(** What the header parse, the container query and the duration query
    returned. *)
Fixpoint header_lengths (d : trace) : list float :=
  match d with
  | [] => []
  | Ev (MutagenLength _) (Ok x) :: d' => x :: header_lengths d'
  | _ :: d' => header_lengths d'
  end.

Fixpoint info_durations (d : trace) : list (option float) :=
  match d with
  | [] => []
  | Ev (SfInfoDuration _) (Ok x) :: d' => x :: info_durations d'
  | _ :: d' => info_durations d'
  end.

Fixpoint queried_durations (d : trace) : list float :=
  match d with
  | [] => []
  | Ev (LibrosaGetDuration _) (Ok x) :: d' => x :: queried_durations d'
  | _ :: d' => queried_durations d'
  end.

(** The keys of a dict are distinct (as in every Python dict). *)
Definition distinct_keys (d : dict) : Prop := NoDup (dict_keys d).

End Obs.

(* ===================================================================== *)
(** * Sample environments of the application *)
(* ===================================================================== *)

Module AppDemo.
Import Py Rt App.

Definition stored_item : dict :=
  [("file_id", VStr "fid-1"); ("filename", VStr "loop.wav");
   ("s3_key", VStr "uploads/fid-1.wav");
   ("duration", VDecimal "0"); ("tempo", VDecimal "0")].

(** Every collaborator answers. *)
Definition answer_ok (T : Type) (c : acall T) : outcome T :=
  match c in acall T return outcome T with
  | OfCall c' => Demo.answer_ok _ c'
  | Scan _ => Ok [("Items", VList [VDict stored_item])]
  | GetItem _ => Ok [("Item", VDict stored_item)]
  | DeleteItem _ => Ok []
  | UploadFileobj _ _ _ => Ok tt
  | LambdaInvoke _ _ _ => Ok [("StatusCode", VInt 202)]
  end.

Definition env_ok : AEnv := fun T _ c => answer_ok T c.

Definition table_down : exc :=
  Exc ClientError
    "An error occurred (ResourceNotFoundException) when calling the operation".

(** The table refuses every request. *)
Definition env_table_down : AEnv :=
  fun T t c =>
    match c in acall T return outcome T with
    | Scan _ => Raise table_down
    | GetItem _ => Raise table_down
    | DeleteItem _ => Raise table_down
    | OfCall c0 =>
        match c0 in call T0 return outcome T0 with
        | PutItem _ => Raise table_down
        | UpdateItem _ _ _ _ _ => Raise table_down
        | c1 => Demo.answer_ok _ c1
        end
    | c' => answer_ok _ c'
    end.

(** The record is not there. *)
Definition env_no_item : AEnv :=
  fun T t c =>
    match c in acall T return outcome T with
    | GetItem _ => Ok []
    | c' => answer_ok _ c'
    end.

Definition env_upload_fails : AEnv :=
  fun T t c =>
    match c in acall T return outcome T with
    | UploadFileobj _ _ _ => Raise Demo.access_denied
    | c' => answer_ok _ c'
    end.

Definition env_invoke_fails : AEnv :=
  fun T t c =>
    match c in acall T return outcome T with
    | LambdaInvoke _ _ _ => Raise (Exc ClientError "Function not found")
    | c' => answer_ok _ c'
    end.

(** The update returns the new attributes, one of them named "error". *)
Definition env_error_attribute : AEnv :=
  fun T t c =>
    match c in acall T return outcome T with
    | OfCall c0 =>
        match c0 in call T0 return outcome T0 with
        | UpdateItem _ _ _ _ _ =>
            Ok [("Attributes", VDict [("error", VStr "none")])]
        | c1 => Demo.answer_ok _ c1
        end
    | c' => answer_ok _ c'
    end.

Definition app : app_config :=
  {| S3_BUCKET := VStr "test-bucket"; LAMBDA_NAME := VStr "test-lambda" |}.

Definition wav_upload : upload_file := {| filename := "Loop.WAV"; file := 9 |}.

Definition sample_id : string := "00000000-0000-4000-8000-000000000001".

End AppDemo.

(* ===================================================================== *)
(** * Rules for computations *)
(* ===================================================================== *)

Import Py Rt Hist Spec.

Section Rules.
Context {A B : Type}.
Implicit Types (env : Env) (t : trace).

Lemma post_ret (a : A) env t (Q : outcome A -> trace -> Prop) :
  Q (Ok a) [] -> post (ret a) env t Q.
Proof. exact (fun q => q). Qed.

Lemma post_raise (e : exc) env t (Q : outcome A -> trace -> Prop) :
  Q (Raise e) [] -> post (raise e) env t Q.
Proof. exact (fun q => q). Qed.

Lemma post_request (c : call A) env t (Q : outcome A -> trace -> Prop) :
  (forall r, Q r [Ev c r]) -> post (request c) env t Q.
Proof. intros q. apply q. Qed.

Lemma post_bind (m : M A) (k : A -> M B) env t
    (Q : outcome B -> trace -> Prop) :
  post m env t (fun r d1 =>
    match r with
    | Ok a => post (k a) env (t ++ d1) (fun r2 d2 => Q r2 (d1 ++ d2))
    | Raise e => Q (Raise e) d1
    end) ->
  post (bind m k) env t Q.
Proof.
  unfold post, bind. destruct (m env t) as [[a | e] d1]; simpl; auto.
  destruct (k a env (t ++ d1)) as [r2 d2]; simpl; auto.
Qed.

Lemma post_try (m : M A) (h : exc -> M A) env t
    (Q : outcome A -> trace -> Prop) :
  post m env t (fun r d1 =>
    match r with
    | Ok a => Q (Ok a) d1
    | Raise e => post (h e) env (t ++ d1) (fun r2 d2 => Q r2 (d1 ++ d2))
    end) ->
  post (try_except m h) env t Q.
Proof.
  unfold post, try_except. destruct (m env t) as [[a | e] d1]; simpl; auto.
  destruct (h e env (t ++ d1)) as [r2 d2]; simpl; auto.
Qed.

Lemma post_with_tmpfile (suffix : string) (body : string -> M A) env t
    (Q : outcome A -> trace -> Prop) :
  (forall r, match r with
     | Ok name =>
         post (body name) env (t ++ [Ev (NamedTemporaryFile suffix) (Ok name)])
           (fun r2 d2 =>
              Q r2 (Ev (NamedTemporaryFile suffix) (Ok name)
                    :: d2 ++ [Released name]))
     | Raise e => Q (Raise e) [Ev (NamedTemporaryFile suffix) (Raise e)]
     end) ->
  post (with_tmpfile suffix body) env t Q.
Proof.
  intros q. unfold post, with_tmpfile, request.
  specialize (q (env _ t (NamedTemporaryFile suffix))).
  destruct (env _ t (NamedTemporaryFile suffix)) as [name | e]; simpl; auto.
  unfold post in q.
  destruct (body name env _) as [r2 d2]; simpl in *; auto.
Qed.

Lemma post_weaken (m : M A) env t (Q Q' : outcome A -> trace -> Prop) :
  post m env t Q -> (forall r d, Q r d -> Q' r d) -> post m env t Q'.
Proof. unfold post. auto. Qed.


End Rules.

(** One step of symbolic execution. *)
Ltac post_step :=
  lazymatch goal with
  | |- post (bind _ _) _ _ _ => apply post_bind
  | |- post (ret _) _ _ _ => apply post_ret
  | |- post (raise _) _ _ _ => apply post_raise
  | |- post (request _) _ _ _ => apply post_request; intros [? | ?]
  | |- post (try_except _ _) _ _ _ => apply post_try
  | |- post (with_tmpfile _ _) _ _ _ => apply post_with_tmpfile; intros [? | ?]
  | |- post (if ?b then _ else _) _ _ _ => destruct b eqn:?
  | |- post (match ?x with _ => _ end) _ _ _ => destruct x eqn:?
  end.

Ltac post_steps := repeat (post_step; cbn beta iota).

(* ===================================================================== *)
(** * The duration resolver *)
(* ===================================================================== *)


Lemma ret_total {A : Type} (a : A) (env : Env) (t : trace) :
  exists o d, ret a env t = (Ok o, d).
Proof. unfold ret. eauto. Qed.













(* ===================================================================== *)
(** * The stages make no S3 or table request *)
(* ===================================================================== *)

Lemma fast_duration_quiet (path ext : string) :
  io_quiet (Handler._fast_duration path ext).
Proof.
  intros env t.
  change (post (Handler._fast_duration path ext) env t (fun _ d => io d = [])).
  unfold Handler._fast_duration, or_else, Handler.duration_mutagen,
    Handler.duration_soundfile, Handler.duration_librosa,
    Handler.duration_partial, py_len, py_truediv.
  post_steps; reflexivity.
Qed.

Lemma bounded_tempo_quiet (cfg : Handler.config) (path : string) :
  io_quiet (Handler._bounded_tempo cfg path).
Proof.
  intros env t.
  change (post (Handler._bounded_tempo cfg path) env t (fun _ d => io d = [])).
  unfold Handler._bounded_tempo, Handler.tempo_inconclusive,
    Handler.tempo_fallback, Handler.tempo_or_zero, Handler.beats_count_of.
  post_steps; reflexivity.
Qed.

(* ===================================================================== *)
(** * The runs of the pipeline *)
(* ===================================================================== *)

Lemma post_intro {A : Type} (m : M A) (env : Env) (t : trace)
    (Q : outcome A -> trace -> Prop) :
  (forall r d, m env t = (r, d) -> Q r d) -> post m env t Q.
Proof.
  unfold post. intros q. apply q. now destruct (m env t).
Qed.

(** Step over a stage that is known to be quiet. *)
Ltac post_quiet Hq :=
  let Q := fresh "Hq" in
  let E := fresh "E" in
  let r := fresh "r" in
  let d := fresh "d" in
  lazymatch goal with
  | |- post (?f ?a ?b) ?env ?t _ => pose proof (Hq a b env t) as Q
  | |- post (?f ?a) ?env ?t _ => pose proof (Hq a env t) as Q
  end;
  apply post_intro; intros r d E; rewrite E in Q; cbn [snd] in Q;
  clear E; destruct r as [? | ?].

Ltac io_simpl :=
  unfold io in *;
  repeat (rewrite ?filter_app; cbn [filter is_io app Handler.update_request]);
  repeat match goal with
         | Hq : filter is_io ?d = [] |- _ => rewrite Hq; clear Hq
         end;
  cbn [app].

Ltac shape_leaf :=
  io_simpl; repeat match goal with u : unit |- _ => destruct u end;
  solve [econstructor; eauto using persist_shape].

Lemma handler_with_shape `{PyLib} (cfg : Handler.config)
    (fd : string -> string -> M (float * string))
    (bt : string -> M (float * Z * float))
    (event : dict) (env : Env) (t : trace) :
  (forall p e, io_quiet (fd p e)) ->
  (forall p, io_quiet (bt p)) ->
  truthy (get_or_none "bucket" event) = true ->
  truthy (get_or_none "key" event) = true ->
  post (Handler.handler_with cfg fd bt event) env t (fun r d =>
    handler_shape cfg (get_or_none "bucket" event) (get_or_none "key" event)
      (get_or_none "file_id" event) r (io d)).
Proof.
  intros Hfd Hbt Hb Hk. unfold Handler.handler_with. rewrite Hb, Hk.
  cbn [negb orb].
  generalize dependent (get_or_none "bucket" event). intros bucket _.
  generalize dependent (get_or_none "file_id" event). intros file_id.
  generalize dependent (get_or_none "key" event). intros key _.
  unfold Handler.pipeline_with, Handler.analyze_with, os_path_splitext,
    os_path_basename.
  post_steps.
  all: try shape_leaf.
  all: post_quiet Hfd; post_steps.
  all: try shape_leaf.
  all: post_quiet Hbt; post_steps.
  all: try shape_leaf.
  all: unfold Handler.update_record, Handler.insert_record, os_path_basename in *; post_steps.
  all: try shape_leaf.
Qed.

(** The projections of a history see only its S3 and table requests. *)
Lemma updates_io (d : trace) : updates (io d) = updates d.
Proof.
  unfold io.
  induction d as [| [T c r | name] d IH]; [reflexivity | | exact IH].
  destruct c; cbn; try exact IH; now rewrite IH.
Qed.

Lemma put_items_io (d : trace) : put_items (io d) = put_items d.
Proof.
  unfold io.
  induction d as [| [T c r | name] d IH]; [reflexivity | | exact IH].
  destruct c; cbn; try exact IH; now rewrite IH.
Qed.

Lemma put_objects_io (d : trace) : put_objects (io d) = put_objects d.
Proof.
  unfold io.
  induction d as [| [T c r | name] d IH]; [reflexivity | | exact IH].
  destruct c; cbn; try exact IH; now rewrite IH.
Qed.

Lemma downloads_io (d : trace) : downloads (io d) = downloads d.
Proof.
  unfold io.
  induction d as [| [T c r | name] d IH]; [reflexivity | | exact IH].
  destruct c; cbn; try exact IH; now rewrite IH.
Qed.

Lemma last_update_error_io (d : trace) :
  last_update_error (io d) = last_update_error d.
Proof. unfold last_update_error. now rewrite updates_io. Qed.

Lemma s3_after_io (d : trace) (s : s3_store) :
  s3_after s (io d) = s3_after s d.
Proof.
  unfold s3_after, io. revert s.
  induction d as [| [T c r | name] d IH]; intros s; [reflexivity | | apply IH].
  destruct c; cbn; try apply IH.
Qed.

(** A run of the handler: the event lacks a bucket or a key and nothing
    is requested, or the run has one of the shapes of the pipeline. *)
Lemma handler_run_cases `{PyLib} (cfg : Handler.config) (event : dict)
    (env : Env) (t : trace) :
  Handler.handler cfg event env t
    = (Ok (Handler.error_result "Missing bucket or key"), [])
  \/ (truthy (get_or_none "bucket" event) = true /\
      truthy (get_or_none "key" event) = true /\
      handler_shape cfg (get_or_none "bucket" event) (get_or_none "key" event)
        (get_or_none "file_id" event)
        (fst (Handler.handler cfg event env t))
        (io (snd (Handler.handler cfg event env t)))).
Proof.
  destruct (truthy (get_or_none "bucket" event)) eqn:Hb;
    [destruct (truthy (get_or_none "key" event)) eqn:Hk |].
  - right. split; [reflexivity |]. split; [reflexivity |].
    apply (handler_with_shape cfg _ _ event env t); auto.
    + intros p e. apply fast_duration_quiet.
    + intros p. apply bounded_tempo_quiet.
  - left. unfold Handler.handler, Handler.handler_with. rewrite Hb, Hk.
    reflexivity.
  - left. unfold Handler.handler, Handler.handler_with. rewrite Hb.
    reflexivity.
Qed.

(** Read a run through its shape: the goal is about the result [r] and
    the S3 and table requests [ios] of the run. *)
Ltac by_shape cfg event env t :=
  let S := fresh "S" in
  let E := fresh "E" in
  let Hb := fresh "Hb" in
  let Hk := fresh "Hk" in
  destruct (handler_run_cases cfg event env t) as [E | (Hb & Hk & S)];
  [ rewrite E; cbn [fst snd]
  | let r := fresh "r" in
    let d := fresh "d" in
    let ios := fresh "ios" in
    set (r := fst (Handler.handler cfg event env t)) in *;
    set (d := snd (Handler.handler cfg event env t)) in *;
    clearbody r d;
    try rewrite <- (updates_io d);
    try rewrite <- (put_items_io d);
    try rewrite <- (put_objects_io d);
    try rewrite <- (downloads_io d);
    try rewrite <- (last_update_error_io d);
    let Eios := fresh "Eios" in
    remember (io d) as ios eqn:Eios ].

(** Walk through the pipeline: [stage_fd] and [stage_bt] step over the
    two stages, [leaf] closes the goals at the ends of the paths. *)
Ltac pipeline_walk stage_fd stage_bt leaf :=
  unfold Handler.pipeline_with, Handler.analyze_with, os_path_splitext,
    os_path_basename;
  post_steps; try leaf;
  stage_fd; post_steps; try leaf;
  stage_bt; post_steps; try leaf;
  unfold Handler.update_record, Handler.insert_record, os_path_basename in *;
  post_steps; try leaf.

(** Step over a stage with a fact [lem] about the events it adds. *)
Ltac post_known lem :=
  idtac;
  let F := fresh "Fact" in
  let E := fresh "E" in
  let r := fresh "r" in
  let d := fresh "d" in
  lazymatch goal with
  | |- post (?f ?a ?b) ?env ?t _ => pose proof (lem a b env t) as F
  | |- post (?f ?a) ?env ?t _ => pose proof (lem a env t) as F
  end;
  apply post_intro; intros r d E; rewrite E in F; cbn [fst snd] in F;
  clear E; destruct r as [? | ?].

(** Step over a stage about which nothing is known. *)
Ltac post_any :=
  idtac;
  let E := fresh "E" in
  let r := fresh "r" in
  let d := fresh "d" in
  apply post_intro; intros r d E; clear E; destruct r as [? | ?].

(* ===================================================================== *)
(** * The pipeline boundary *)
(* ===================================================================== *)

(** C2.  When the event has no bucket or no key, the handler returns
    exactly the dictionary with the error "Missing bucket or key" and
    makes no request at all: no download, no artifact write, no call to
    the table. *)
Theorem handler_missing_bucket_or_key `{PyLib} (cfg : Handler.config)
    (event : dict) (env : Env) (t : trace) :
  dict_get "bucket" event = None \/ dict_get "key" event = None ->
  Handler.handler cfg event env t
    = (Ok (VDict [("error", VStr "Missing bucket or key")]), []).
Proof.
  intros Hm. unfold Handler.handler, Handler.handler_with, get_or_none.
  destruct Hm as [-> | ->]; cbn [truthy negb orb]; [reflexivity |].
  now rewrite orb_true_r.
Qed.

Lemma handler_missing_bucket_or_key_witness :
  Handler.handler (H := Demo.lib) Handler.default_config
    [("file_id", VStr "fid-1")] Demo.env_ok []
    = (Ok (VDict [("error", VStr "Missing bucket or key")]), []).
Proof.
  apply (@handler_missing_bucket_or_key Demo.lib Handler.default_config
           [("file_id", VStr "fid-1")] Demo.env_ok []).
  left. reflexivity.
Defined.

Lemma try_to_error_total {A : Type} (m : M A) (f : exc -> A)
    (env : Env) (t : trace) :
  exists v d, try_except m (fun e => ret (f e)) env t = (Ok v, d).
Proof.
  unfold try_except. destruct (m env t) as [[a | e] d1]; cbn; eauto.
Qed.

(** C1.  The handler never raises, whatever the stages and the
    collaborators do.  An exception that leaves the body of its try block
    (download, duration stage, tempo stage, artifact write, table write)
    comes back as the dictionary with its text under "error".  In
    particular a failed download, a failed artifact write, a failed
    insert, and a failed last update each give the error result with
    the text of that failure. *)
Theorem handler_never_raises `{PyLib} (cfg : Handler.config) (event : dict)
    (env : Env) (t : trace) :
  (forall fd bt, exists v d,
      Handler.handler_with cfg fd bt event env t = (Ok v, d)) /\
  (forall fd bt e d,
      truthy (get_or_none "bucket" event) = true ->
      truthy (get_or_none "key" event) = true ->
      Handler.pipeline_with cfg fd bt (get_or_none "bucket" event)
        (get_or_none "key" event) (get_or_none "file_id" event) env t
        = (Raise e, d) ->
      Handler.handler_with cfg fd bt event env t
        = (Ok (VDict [("error", VStr (exc_str e))]), d)) /\
  (forall e,
      In (Some e) (downloads (snd (Handler.handler cfg event env t))) \/
      In (Some e) (map snd (put_objects (snd (Handler.handler cfg event env t)))) \/
      In (Some e) (map snd (put_items (snd (Handler.handler cfg event env t)))) \/
      last_update_error (snd (Handler.handler cfg event env t)) = Some e ->
      fst (Handler.handler cfg event env t)
        = Ok (VDict [("error", VStr (exc_str e))])).
Proof.
  split; [| split].
  - intros fd bt. unfold Handler.handler_with.
    destruct (negb _ || negb _).
    + apply ret_total.
    + apply try_to_error_total.
  - intros fd bt e d Hb Hk E. unfold Handler.handler_with.
    rewrite Hb, Hk. cbn [negb orb]. unfold try_except. rewrite E.
    cbn. now rewrite app_nil_r.
  - intros e. by_shape cfg event env t.
    + cbn. intuition discriminate.
    + destruct S as [e0 | name e0 | name e0
                     | name key_s du te be me ti e0 Ek
                     | name key_s du te be me ti p e0 Ek P
                     | name key_s du te be me ti p Ek P];
        try (inversion P; subst); cbn;
        intros [D | [D | [D | D]]];
        repeat match goal with
               | D : _ \/ _ |- _ => destruct D
               | D : False |- _ => destruct D
               | D : Some _ = Some _ |- _ => injection D as ->
               | D : None = Some _ |- _ => discriminate D
               end;
        reflexivity.
Qed.

Lemma handler_never_raises_witness :
  fst (Handler.handler (H := Demo.lib) Handler.default_config
         Demo.event_with_id Demo.env_download_fails [])
  = Ok (VDict [("error", VStr (exc_str Demo.no_such_key))]).
Proof.
  apply (proj2 (proj2 (@handler_never_raises Demo.lib Handler.default_config
                         Demo.event_with_id Demo.env_download_fails []))
           Demo.no_such_key).
  left. vm_compute. left. reflexivity.
Defined.

(* ===================================================================== *)
(** * The metadata step *)
(* ===================================================================== *)

(** With a file_id that is present but empty, the pipeline inserts a
    record and updates none. *)
Lemma insert_despite_file_id_present :
  dict_get "file_id" Demo.event_empty_id = Some (VStr "") /\
  put_items (snd (Handler.handler (H := Demo.lib) Handler.default_config
                    Demo.event_empty_id Demo.env_ok []))
    = [([("file_id", VStr "foo.mp3"); ("s3_key", VStr "uploads/foo.mp3");
         ("duration", VDecimal "1.5"); ("tempo", VDecimal "1.5")], None)] /\
  updates (snd (Handler.handler (H := Demo.lib) Handler.default_config
                  Demo.event_empty_id Demo.env_ok [])) = [].
Proof. vm_compute. repeat split. Qed.

(** C6, amended.  The choice follows the truth value of file_id, not its
    presence.  When file_id is true (present and not empty), the pipeline
    makes no insert, every update it makes has the key {file_id}, and a
    run that succeeds has made an update.  When file_id is false (absent,
    None or empty), the pipeline makes no update, every insert has
    file_id = basename(key) and s3_key = key, and a run that succeeds has
    made exactly one insert. *)
Theorem persistence_follows_file_id `{PyLib} (cfg : Handler.config)
    (event : dict) (env : Env) (t : trace) :
  (truthy (get_or_none "file_id" event) = true ->
     put_items (snd (Handler.handler cfg event env t)) = [] /\
     (forall k u n v o,
         In ((k, u, n, v), o) (updates (snd (Handler.handler cfg event env t))) ->
         k = [("file_id", get_or_none "file_id" event)]) /\
     (succeeded (fst (Handler.handler cfg event env t)) = true ->
      updates (snd (Handler.handler cfg event env t)) <> [])) /\
  (truthy (get_or_none "file_id" event) = false ->
     updates (snd (Handler.handler cfg event env t)) = [] /\
     (forall item o,
         In (item, o) (put_items (snd (Handler.handler cfg event env t))) ->
         exists key_s,
           get_or_none "key" event = VStr key_s /\
           dict_get "file_id" item = Some (VStr (basename key_s)) /\
           dict_get "s3_key" item = Some (VStr key_s)) /\
     (succeeded (fst (Handler.handler cfg event env t)) = true ->
      exists item,
        put_items (snd (Handler.handler cfg event env t)) = [(item, None)])).
Proof.
  by_shape cfg event env t.
  - split; intros _; (split; [reflexivity |]);
      (split; [intros; contradiction | discriminate]).
  - destruct S as [e0 | name e0 | name e0
                   | name key_s du te be me ti e0 Ek
                   | name key_s du te be me ti p e0 Ek P
                   | name key_s du te be me ti p Ek P];
      try (inversion P as [| | | | | key_s0 ? H3 | key_s0 ? ? H3]; subst); cbn;
      (split; intros Hf;
       try congruence;
       (split; [try reflexivity |]);
       (split;
        [ intros;
          repeat match goal with
                 | D : _ \/ _ |- _ => destruct D
                 | D : False |- _ => destruct D
                 | D : (_, _) = (_, _) |- _ => inversion D; subst; clear D
                 end;
          try reflexivity; eauto
        | try discriminate; eauto ])).
  all: exists key_s0; split; [assumption |];
    unfold inserted_item; cbn; rewrite H3; split; reflexivity.
Qed.

Lemma persistence_follows_file_id_witness :
  (exists item,
      put_items (snd (Handler.handler (H := Demo.lib) Handler.default_config
                        Demo.event_without_id Demo.env_ok []))
        = [(item, None)]) /\
  updates (snd (Handler.handler (H := Demo.lib) Handler.default_config
                  Demo.event_with_id Demo.env_ok [])) <> [].
Proof.
  split.
  - apply (proj2 (@persistence_follows_file_id Demo.lib Handler.default_config
                    Demo.event_without_id Demo.env_ok []));
      vm_compute; reflexivity.
  - apply (proj1 (@persistence_follows_file_id Demo.lib Handler.default_config
                    Demo.event_with_id Demo.env_ok []));
      vm_compute; reflexivity.
Defined.

(** C7.  When the first update raises an error whose text names a
    validation error, exactly one more update follows, with the same key,
    expression, names and values; if that one raises too, the result of
    the pipeline is the error dictionary with its text.  When the first
    update raises any other error, no update follows and the result is
    the error dictionary with the text of that error.  After an update
    that returns, no other follows. *)
Theorem update_retried_once `{PyLib} (cfg : Handler.config) (event : dict)
    (env : Env) (t : trace) :
  (forall a e1 rest,
      updates (snd (Handler.handler cfg event env t)) = (a, Some e1) :: rest ->
      Handler.retryable e1 = true ->
      exists o2,
        rest = [(a, o2)] /\
        (forall e2, o2 = Some e2 ->
           fst (Handler.handler cfg event env t)
             = Ok (VDict [("error", VStr (exc_str e2))])) /\
        (o2 = None -> succeeded (fst (Handler.handler cfg event env t)) = true)) /\
  (forall a e1 rest,
      updates (snd (Handler.handler cfg event env t)) = (a, Some e1) :: rest ->
      Handler.retryable e1 = false ->
      rest = [] /\
      fst (Handler.handler cfg event env t)
        = Ok (VDict [("error", VStr (exc_str e1))])) /\
  (forall a rest,
      updates (snd (Handler.handler cfg event env t)) = (a, None) :: rest ->
      rest = [] /\ succeeded (fst (Handler.handler cfg event env t)) = true).
Proof.
  by_shape cfg event env t.
  - repeat split; intros; discriminate.
  - destruct S as [e0 | name e0 | name e0
                   | name key_s du te be me ti e0 Ek
                   | name key_s du te be me ti p e0 Ek P
                   | name key_s du te be me ti p Ek P];
      try (inversion P; subst); cbn;
      (split; [| split]);
      intros;
      repeat match goal with
             | D : [] = _ :: _ |- _ => discriminate D
             | D : _ :: _ = _ :: _ |- _ => inversion D; subst; clear D
             end;
      try congruence;
      try (split; reflexivity);
      try (eexists; split; [reflexivity |];
           split; intros; [| try reflexivity; try discriminate];
           repeat match goal with
                  | D : Some _ = Some _ |- _ => injection D as ->
                  end;
           try discriminate; reflexivity).
Qed.

Lemma update_retried_once_witness :
  exists o2,
    [(Demo.sample_update, Some Demo.validation_error)]
      = [(Demo.sample_update, o2)] /\
    (forall e2, o2 = Some e2 ->
       fst (Handler.handler (H := Demo.lib) Handler.default_config
              Demo.event_with_id (Demo.env_update_fails Demo.validation_error) [])
         = Ok (VDict [("error", VStr (exc_str e2))])) /\
    (o2 = None ->
       succeeded
         (fst (Handler.handler (H := Demo.lib) Handler.default_config
                 Demo.event_with_id
                 (Demo.env_update_fails Demo.validation_error) [])) = true).
Proof.
  apply (proj1 (@update_retried_once Demo.lib Handler.default_config
                  Demo.event_with_id
                  (Demo.env_update_fails Demo.validation_error) [])
           Demo.sample_update Demo.validation_error
           [(Demo.sample_update, Some Demo.validation_error)]);
    vm_compute; reflexivity.
Defined.

(** Runs of the retry: the second attempt succeeds; it fails; the first
    error is of another kind. *)
Example retry_then_success :
  map snd (updates (snd (Handler.handler (H := Demo.lib) Handler.default_config
                           Demo.event_with_id
                           (Demo.env_update_fails_once Demo.validation_error) [])))
    = [Some Demo.validation_error; None] /\
  succeeded (fst (Handler.handler (H := Demo.lib) Handler.default_config
                    Demo.event_with_id
                    (Demo.env_update_fails_once Demo.validation_error) []))
    = true.
Proof. vm_compute. split; reflexivity. Qed.

Example no_retry_on_other_error :
  map snd (updates (snd (Handler.handler (H := Demo.lib) Handler.default_config
                           Demo.event_with_id
                           (Demo.env_update_fails Demo.throttled) [])))
    = [Some Demo.throttled] /\
  fst (Handler.handler (H := Demo.lib) Handler.default_config
         Demo.event_with_id (Demo.env_update_fails Demo.throttled) [])
    = Ok (VDict [("error", VStr (exc_str Demo.throttled))]).
Proof. vm_compute. split; reflexivity. Qed.

(* ===================================================================== *)
(** * The artifact *)
(* ===================================================================== *)

(** C8.  A run that succeeds has written exactly one object: in the
    bucket of the event, at the key prefix + basename(key) + ".json",
    with content type application/json, its body the JSON text of the
    analysis dictionary that the result carries, whose keys are the eight
    fields of the analysis.  After the run the object store holds that
    body at that key, whatever it held before. *)
Theorem artifact_written_once `{PyLib} (cfg : Handler.config) (event : dict)
    (env : Env) (t : trace) :
  succeeded (fst (Handler.handler cfg event env t)) = true ->
  exists key_s duration tempo beats method timings,
    get_or_none "key" event = VStr key_s /\
    fst (Handler.handler cfg event env t)
      = Ok (VDict [("bucket", get_or_none "bucket" event);
                   ("key", VStr key_s);
                   ("analysis",
                    VDict (Handler.analysis_of cfg duration tempo beats
                             method timings))]) /\
    put_objects (snd (Handler.handler cfg event env t))
      = [((get_or_none "bucket" event,
           (Handler.OUT_PREFIX cfg ++ basename key_s ++ ".json")%string,
           json_dumps (VDict (Handler.analysis_of cfg duration tempo beats
                                method timings)),
           "application/json"), None)] /\
    dict_keys (Handler.analysis_of cfg duration tempo beats method timings)
      = ["duration"; "tempo"; "beats"; "duration_method"; "timings";
         "tempo_enabled"; "tempo_max_seconds"; "tempo_sr"] /\
    (forall (before : s3_store) (b : string),
        get_or_none "bucket" event = VStr b ->
        s3_after before (snd (Handler.handler cfg event env t)) b
          (Handler.OUT_PREFIX cfg ++ basename key_s ++ ".json")%string
        = Some (json_dumps (VDict (Handler.analysis_of cfg duration tempo
                                     beats method timings)),
                "application/json")).
Proof.
  by_shape cfg event env t.
  - discriminate.
  - destruct S as [e0 | name e0 | name e0
                   | name key_s du te be me ti e0 Ek
                   | name key_s du te be me ti p e0 Ek P
                   | name key_s du te be me ti p Ek P];
      cbn; try discriminate.
    intros _. exists key_s, du, te, be, me, ti.
    unfold success_result, artifact_request. rewrite Ek in *.
    repeat split.
    + inversion P; subst; reflexivity.
    + intros before b Eb. rewrite <- s3_after_io, <- Eios, Eb.
      inversion P; subst; cbn; now rewrite !String.eqb_refl.
Qed.

Lemma artifact_written_once_witness :
  exists key_s duration tempo beats method timings,
    get_or_none "key" Demo.event_with_id = VStr key_s /\
    fst (Handler.handler (H := Demo.lib) Handler.default_config
           Demo.event_with_id Demo.env_ok [])
      = Ok (VDict [("bucket", get_or_none "bucket" Demo.event_with_id);
                   ("key", VStr key_s);
                   ("analysis",
                    VDict (Handler.analysis_of Handler.default_config
                             duration tempo beats method timings))]) /\
    put_objects (snd (Handler.handler (H := Demo.lib) Handler.default_config
                        Demo.event_with_id Demo.env_ok []))
      = [((get_or_none "bucket" Demo.event_with_id,
           (Handler.OUT_PREFIX Handler.default_config ++ basename key_s
              ++ ".json")%string,
           json_dumps (PyLib := Demo.lib)
             (VDict (Handler.analysis_of Handler.default_config
                       duration tempo beats method timings)),
           "application/json"), None)] /\
    dict_keys (Handler.analysis_of Handler.default_config
                 duration tempo beats method timings)
      = ["duration"; "tempo"; "beats"; "duration_method"; "timings";
         "tempo_enabled"; "tempo_max_seconds"; "tempo_sr"] /\
    (forall (before : s3_store) (b : string),
        get_or_none "bucket" Demo.event_with_id = VStr b ->
        s3_after before
          (snd (Handler.handler (H := Demo.lib) Handler.default_config
                  Demo.event_with_id Demo.env_ok [])) b
          (Handler.OUT_PREFIX Handler.default_config ++ basename key_s
             ++ ".json")%string
        = Some (json_dumps (PyLib := Demo.lib)
                  (VDict (Handler.analysis_of Handler.default_config
                            duration tempo beats method timings)),
                "application/json")).
Proof.
  apply (@artifact_written_once Demo.lib Handler.default_config
           Demo.event_with_id Demo.env_ok []).
  vm_compute. reflexivity.
Defined.

(** The run of the first end-to-end test: the stubs answer (3.5, "stub")
    and (120.0, 42, 0.01), replaced here by floats that are exact. *)
Example end_to_end_update :
  put_objects
    (snd (Handler.handler_with (H := Demo.lib) Handler.default_config
            (Demo.stub_duration f_five) (Demo.stub_tempo (f_thirty, 42%Z, f_five))
            Demo.event_with_id Demo.env_ok []))
    = [((VStr "test-bucket", "analysis/abc.wav.json", "<json dict>",
         "application/json"), None)] /\
  map (fun u => fst (fst (fst (fst u))))
    (updates
       (snd (Handler.handler_with (H := Demo.lib) Handler.default_config
               (Demo.stub_duration f_five)
               (Demo.stub_tempo (f_thirty, 42%Z, f_five))
               Demo.event_with_id Demo.env_ok [])))
    = [[("file_id", VStr "fid-1")]].
Proof. vm_compute. split; reflexivity. Qed.

(** The run of the second end-to-end test: no file_id, one insert keyed
    by the base name of the source key. *)
Example end_to_end_insert :
  put_items
    (snd (Handler.handler_with (H := Demo.lib) Handler.default_config
            (Demo.stub_duration f_five) (Demo.stub_tempo (f_zero, 0%Z, f_zero))
            Demo.event_without_id Demo.env_ok []))
    = [([("file_id", VStr "foo.mp3"); ("s3_key", VStr "uploads/foo.mp3");
         ("duration", VDecimal "1.5"); ("tempo", VDecimal "0.0")], None)].
Proof. vm_compute. reflexivity. Qed.

(** The artifact write is refused: the error dictionary comes back and
    the table is not touched. *)
Example put_object_failure_is_caught :
  fst (Handler.handler (H := Demo.lib) Handler.default_config
         Demo.event_with_id Demo.env_put_object_fails [])
    = Ok (VDict [("error", VStr (exc_str Demo.access_denied))]) /\
  updates (snd (Handler.handler (H := Demo.lib) Handler.default_config
                  Demo.event_with_id Demo.env_put_object_fails [])) = [] /\
  put_items (snd (Handler.handler (H := Demo.lib) Handler.default_config
                    Demo.event_with_id Demo.env_put_object_fails [])) = [].
Proof. vm_compute. repeat split. Qed.

(** A stage that raises: the handler returns the error dictionary. *)
Example stage_failure_is_caught :
  fst (Handler.handler_with (H := Demo.lib) Handler.default_config
         (fun _ _ => raise Demo.bad_header)
         (Demo.stub_tempo (f_zero, 0%Z, f_zero))
         Demo.event_with_id Demo.env_ok [])
    = Ok (VDict [("error", VStr "can't sync to MPEG frame")]).
Proof. vm_compute. reflexivity. Qed.

(* ===================================================================== *)
(** * The tempo estimator *)
(* ===================================================================== *)

Lemma post_elim {A : Type} (m : M A) (env : Env) (t : trace)
    (Q : outcome A -> trace -> Prop) :
  post m env t Q -> exists r d, m env t = (r, d) /\ Q r d.
Proof.
  unfold post. intros q. exists (fst (m env t)), (snd (m env t)).
  split; [now destruct (m env t) | exact q].
Qed.

(** When the beat tracker finds no beat and the onset-based estimate
    fails, the estimator goes on: it returns the tempo of the beat
    tracker and the elapsed time, not (0.0, 0, 0.0). *)
Lemma fallback_failure_keeps_tempo :
  Handler.ENABLE_TEMPO Handler.default_config = true /\
  fst (Handler._bounded_tempo Handler.default_config "/tmp/tmpabc.wav"
         Demo.env_fallback_fails [])
    = Ok (f_thirty, 0%Z, f_five) /\
  existsb ev_raised
    (snd (Handler._bounded_tempo Handler.default_config "/tmp/tmpabc.wav"
            Demo.env_fallback_fails [])) = true.
Proof. vm_compute. repeat split. Qed.

(** Choose the requests of the conversion of the tempo among the events
    after the last reading of the clock. *)
Ltac split_conversions :=
  first
    [ solve [ refine (ex_intro _ [_] _); do 3 eexists;
              repeat split; constructor ]
    | solve [ refine (ex_intro _ [_; _] _); do 3 eexists;
              repeat split; constructor ] ].

(** C4, amended.  With the tempo feature off, the estimator returns
    (0.0, 0, 0.0) and makes no request.  It never raises.  When its last
    request raised, it returns (0.0, 0, 0.0); a request that raised
    earlier than the last one is one of the onset-based fallback, and
    whenever a request outside the fallback block raised (the imports,
    the clock, the decode, the lengths, the beat tracker, the tests on
    tempo and beats, the final conversions to float and to int), the
    result is (0.0, 0, 0.0).  A failure inside the fallback block (the
    tempo estimate, the numpy import, the shape test, the mean, the
    conversion to float) is absorbed: when nothing outside the block
    fails, the estimator returns float(tempo or 0.0) for the tempo the
    beat tracker returned, the count of the beats the beat tracker
    returned (0 without a length), and the difference of the two
    readings of the clock. *)
Theorem bounded_tempo_degrades (cfg : Handler.config) (path : string)
    (env : Env) (t : trace) :
  (Handler.ENABLE_TEMPO cfg = false ->
     Handler._bounded_tempo cfg path env t = (Ok (f_zero, 0%Z, f_zero), [])) /\
  (exists x d,
     Handler._bounded_tempo cfg path env t = (Ok x, d) /\
     (ends_raised d = true -> x = (f_zero, 0%Z, f_zero)) /\
     failures_absorbed d = true /\
     (existsb ev_raised (outside_fallback d) = true ->
      x = (f_zero, 0%Z, f_zero)) /\
     (existsb ev_raised (fallback_part d) = true ->
      existsb ev_raised (outside_fallback d) = false ->
      exists start now tempo beats d1 d2 v n,
        clock d = [start; now] /\
        tracked d = [(tempo, beats)] /\
        after_clock d = d1 ++ d2 /\
        kept_tempo tempo d1 v /\
        counted beats d2 n /\
        x = (v, n, float_sub now start))).
Proof.
  split.
  - intros Eoff. unfold Handler._bounded_tempo. now rewrite Eoff.
  - assert (P : post (Handler._bounded_tempo cfg path) env t (fun r d =>
                exists x, r = Ok x /\
                  (ends_raised d = true -> x = (f_zero, 0%Z, f_zero)) /\
                  failures_absorbed d = true /\
                  (existsb ev_raised (outside_fallback d) = true ->
                   x = (f_zero, 0%Z, f_zero)) /\
                  (existsb ev_raised (fallback_part d) = true ->
                   existsb ev_raised (outside_fallback d) = false ->
                   exists start now tempo beats d1 d2 v n,
                     clock d = [start; now] /\
                     tracked d = [(tempo, beats)] /\
                     after_clock d = d1 ++ d2 /\
                     kept_tempo tempo d1 v /\
                     counted beats d2 n /\
                     x = (v, n, float_sub now start)))).
    { unfold Handler._bounded_tempo, Handler.tempo_inconclusive,
        Handler.tempo_fallback, Handler.tempo_or_zero, Handler.beats_count_of,
        Handler.tempo_zero.
      post_steps;
        (eexists; split; [reflexivity |];
         split; [cbn; intros; try discriminate; reflexivity |];
         split; [reflexivity |];
         split; [cbn; intros; try discriminate; reflexivity |];
         cbn; intros Hf Ho; try discriminate;
         do 4 eexists; split_conversions). }
    apply post_elim in P.
    destruct P as (r & d & E & x & -> & P1 & P2 & P3 & P4).
    exists x, d. auto.
Qed.

Lemma bounded_tempo_degrades_witness :
  Handler._bounded_tempo
    {| Handler.OUT_PREFIX := "analysis/"; Handler.ENABLE_TEMPO := false;
       Handler.TEMPO_MAX_SECONDS := f_thirty; Handler.TEMPO_SR := 22050 |}
    "/tmp/tmpabc.wav" Demo.env_ok []
  = (Ok (f_zero, 0%Z, f_zero), []) /\
  exists x d,
    Handler._bounded_tempo Handler.default_config "/tmp/tmpabc.wav"
      Demo.env_fallback_fails [] = (Ok x, d) /\
    exists start now tempo beats d1 d2 v n,
      clock d = [start; now] /\
      tracked d = [(tempo, beats)] /\
      after_clock d = d1 ++ d2 /\
      kept_tempo tempo d1 v /\
      counted beats d2 n /\
      x = (v, n, float_sub now start).
Proof.
  split.
  - apply (proj1 (bounded_tempo_degrades
                    {| Handler.OUT_PREFIX := "analysis/";
                       Handler.ENABLE_TEMPO := false;
                       Handler.TEMPO_MAX_SECONDS := f_thirty;
                       Handler.TEMPO_SR := 22050 |}
                    "/tmp/tmpabc.wav" Demo.env_ok [])).
    reflexivity.
  - destruct (proj2 (bounded_tempo_degrades Handler.default_config
                       "/tmp/tmpabc.wav" Demo.env_fallback_fails []))
      as (x & d & E & _ & _ & _ & K).
    exists x, d. split; [exact E |].
    apply K; revert E; vm_compute; intros E; inversion E; reflexivity.
Defined.

(** Without librosa the estimator stops at its first request. *)
Example tempo_without_librosa :
  Handler._bounded_tempo Handler.default_config "/tmp/tmpabc.wav"
    Demo.env_no_audio []
  = (Ok (f_zero, 0%Z, f_zero),
     [Ev (ImportModule "librosa") (Raise Demo.no_librosa)]).
Proof. reflexivity. Qed.

(** C5.  The estimator asks the decoder at most once, and what it asks
    for is the file it was given, mono, at the configured sample rate,
    for the configured number of seconds, with the fast resampler:
    nothing in the request depends on the length of the file, and no
    request asks for more. *)
Theorem bounded_tempo_decode_bound (cfg : Handler.config) (path : string)
    (env : Env) (t : trace) :
  loads (snd (Handler._bounded_tempo cfg path env t)) = [] \/
  loads (snd (Handler._bounded_tempo cfg path env t))
    = [(path, Some (Handler.TEMPO_SR cfg), true,
        Handler.TEMPO_MAX_SECONDS cfg, Some "kaiser_fast")].
Proof.
  change (post (Handler._bounded_tempo cfg path) env t (fun _ d =>
            loads d = [] \/
            loads d = [(path, Some (Handler.TEMPO_SR cfg), true,
                        Handler.TEMPO_MAX_SECONDS cfg, Some "kaiser_fast")])).
  unfold Handler._bounded_tempo, Handler.tempo_inconclusive,
    Handler.tempo_fallback, Handler.tempo_or_zero, Handler.beats_count_of.
  post_steps; cbn; auto.
Qed.

(** With the settings by default the one request is for 30 seconds at
    22050 Hz. *)
Example decode_request_by_default :
  loads (snd (Handler._bounded_tempo Handler.default_config "/tmp/tmpabc.wav"
                Demo.env_ok []))
  = [("/tmp/tmpabc.wav", Some 22050%Z, true, f_thirty, Some "kaiser_fast")].
Proof. reflexivity. Qed.

(* ===================================================================== *)
(** * Cleaning values for the table *)
(* ===================================================================== *)

(** Induction on values, with the hypothesis for every member of a
    container. *)
Lemma pyval_nested_ind (P : pyval -> Prop) :
  (forall v, is_plain_leaf v = true -> P v) ->
  (forall x, P (VFloat x)) ->
  (forall l, Forall P l -> P (VList l)) ->
  (forall l, Forall P l -> P (VTuple l)) ->
  (forall d, Forall (fun kv => P (snd kv)) d -> P (VDict d)) ->
  forall v, P v.
Proof.
  intros Hleaf Hfloat Hlist Htuple Hdict.
  fix IH 1. intros v.
  destruct v as [| b | z | x | s | s | l | l | d];
    try (apply Hleaf; reflexivity).
  - apply Hfloat.
  - apply Hlist. induction l as [| a l IHl]; constructor; [apply IH | exact IHl].
  - apply Htuple. induction l as [| a l IHl]; constructor; [apply IH | exact IHl].
  - apply Hdict.
    induction d as [| [k a] d IHd]; constructor; [apply IH | exact IHd].
Qed.

Section CleanFacts.
Context `{PyLib}.

Lemma clean_ddb_dict (d : dict) :
  DbDynamo._clean_ddb (VDict d) = VDict (DbDynamo.clean_items d).
Proof. reflexivity. Qed.

Lemma clean_ddb_cleaned (v : pyval) : cleaned v (DbDynamo._clean_ddb v).
Proof.
  induction v as [v L | x | l IH | l IH | d IH] using pyval_nested_ind.
  - destruct v; try discriminate L; now apply cl_leaf.
  - apply cl_float.
  - cbn. apply cl_list. induction IH; constructor; auto.
  - cbn. apply cl_tuple. induction IH; constructor; auto.
  - cbn. apply cl_dict.
    induction IH as [| [k a] d Ha _ IHd]; constructor; auto.
Qed.

Lemma clean_ddb_float_free (v : pyval) :
  float_free (DbDynamo._clean_ddb v) = true.
Proof.
  induction v as [v L | x | l IH | l IH | d IH] using pyval_nested_ind.
  - destruct v; try discriminate L; reflexivity.
  - reflexivity.
  - cbn. induction IH as [| a l Ha _ IHl]; [reflexivity |].
    cbn. now rewrite Ha, IHl.
  - cbn. induction IH as [| a l Ha _ IHl]; [reflexivity |].
    cbn. now rewrite Ha, IHl.
  - cbn. induction IH as [| [k a] d Ha _ IHd]; [reflexivity |].
    cbn in *. now rewrite Ha, IHd.
Qed.

Lemma clean_items_float_free (d : dict) :
  float_free_dict (DbDynamo.clean_items d) = true.
Proof.
  exact (clean_ddb_float_free (VDict d)).
Qed.

(** A value without floats is left as it is. *)
Lemma clean_ddb_fixes_float_free (v : pyval) :
  float_free v = true -> DbDynamo._clean_ddb v = v.
Proof.
  induction v as [v L | x | l IH | l IH | d IH] using pyval_nested_ind.
  - destruct v; try discriminate L; reflexivity.
  - discriminate.
  - cbn. intros F. f_equal.
    induction IH as [| a l Ha _ IHl]; [reflexivity |].
    cbn in F. apply andb_prop in F as [Fa Fl].
    cbn. now rewrite (Ha Fa), (IHl Fl).
  - cbn. intros F. f_equal.
    induction IH as [| a l Ha _ IHl]; [reflexivity |].
    cbn in F. apply andb_prop in F as [Fa Fl].
    cbn. now rewrite (Ha Fa), (IHl Fl).
  - cbn. intros F. f_equal.
    induction IH as [| [k a] d Ha _ IHd]; [reflexivity |].
    cbn in F. apply andb_prop in F as [Fa Fd].
    cbn in *. now rewrite (Ha Fa), (IHd Fd).
Qed.

Lemma names_float_free (ks : list string) :
  float_free_dict (map (fun k => (("#" ++ k)%string, VStr k)) ks) = true.
Proof. induction ks as [| k ks IH]; [reflexivity | exact IH]. Qed.

Lemma values_float_free (d : dict) :
  float_free_dict d = true ->
  float_free_dict (map (fun '(k, v) => ((":" ++ k)%string, v)) d) = true.
Proof.
  unfold float_free_dict.
  induction d as [| [k v] d IH]; [reflexivity |].
  cbn [map forallb]. intros F. apply andb_prop in F as [Fv Fd].
  apply andb_true_intro. split; [exact Fv | exact (IH Fd)].
Qed.

(** What [save_metadata] requests of the table. *)
Lemma save_metadata_requests (filename s3_key : string)
    (duration tempo : pyval) (file_id : option string) (env : Env) (t : trace) :
  post (DbDynamo.save_metadata filename s3_key duration tempo file_id) env t
    (fun r d =>
       updates d = [] /\
       exists id,
         let item :=
           DbDynamo.clean_items
             [("file_id", VStr id); ("filename", VStr filename);
              ("s3_key", VStr s3_key);
              ("duration", DbDynamo.initial_number duration);
              ("tempo", DbDynamo.initial_number tempo)] in
         (forall it, r = Ok (Some it) -> it = item) /\
         (forall it o, In (it, o) (put_items d) -> it = item)).
Proof.
  unfold DbDynamo.save_metadata, DbDynamo.file_id_or_new,
    try_except_client.
  post_steps; cbn; (split; [reflexivity |]).
  all: try (eexists; split;
            [ intros it E; inversion E; reflexivity
            | intros it o [E | []]; inversion E; reflexivity ]).
  all: try (exists EmptyString; split;
            [ intros it E; discriminate E | intros it o [] ]).
  all: try (eexists; split;
            [ intros it E; discriminate E
            | intros it o [E | []]; inversion E; reflexivity ]).
Qed.

(** What [update_metadata] requests of the table. *)
Lemma update_metadata_requests (file_id : string) (fields : dict)
    (env : Env) (t : trace) :
  post (DbDynamo.update_metadata file_id fields) env t (fun r d =>
    put_items d = [] /\
    forall k u n v o, In ((k, u, n, v), o) (updates d) ->
      k = [("file_id", VStr file_id)] /\
      n = map (fun k => (("#" ++ k)%string, VStr k))
            (dict_keys (DbDynamo.clean_items fields)) /\
      v = map (fun '(k, v) => ((":" ++ k)%string, v))
            (DbDynamo.clean_items fields)).
Proof.
  unfold DbDynamo.update_metadata, try_except_client.
  post_steps; cbn; (split; [reflexivity |]);
    intros k u n v o Hin;
    repeat match goal with
           | D : _ \/ _ |- _ => destruct D
           | D : False |- _ => destruct D
           | D : (_, _) = (_, _) |- _ => inversion D; subst; clear D
           end;
    repeat split.
Qed.


Lemma clean_items_keys (d : dict) :
  dict_keys (DbDynamo.clean_items d) = dict_keys d.
Proof.
  unfold dict_keys, DbDynamo.clean_items. rewrite map_map.
  apply map_ext. now intros [k v].
Qed.


End CleanFacts.

(** C10.  [_clean_ddb] replaces every float of a value, at any depth of
    dicts, lists and tuples, by the decimal of its text, keeps the
    containers (same kind, same length, same keys in the same order)
    and leaves every other leaf as it is; its result has no float, and
    where there was none it changes nothing.  So the item that
    save_metadata puts, and the key, names and values of the update that
    update_metadata makes, have no float anywhere. *)
Theorem clean_ddb_replaces_floats `{PyLib} (env : Env) (t : trace) :
  (forall v,
      cleaned v (DbDynamo._clean_ddb v) /\
      float_free (DbDynamo._clean_ddb v) = true /\
      (float_free v = true -> DbDynamo._clean_ddb v = v)) /\
  (forall filename s3_key duration tempo file_id item o,
      In (item, o)
         (put_items (snd (DbDynamo.save_metadata filename s3_key duration
                            tempo file_id env t))) ->
      float_free_dict item = true) /\
  (forall file_id fields k u n v o,
      In ((k, u, n, v), o)
         (updates (snd (DbDynamo.update_metadata file_id fields env t))) ->
      float_free_dict k = true /\ float_free_dict n = true /\
      float_free_dict v = true).
Proof.
  split; [| split].
  - intros v. split; [apply clean_ddb_cleaned |].
    split; [apply clean_ddb_float_free | apply clean_ddb_fixes_float_free].
  - intros filename s3_key duration tempo file_id item o Hin.
    pose proof (save_metadata_requests filename s3_key duration tempo
                  file_id env t) as P.
    unfold post in P. destruct P as (_ & id & _ & I).
    rewrite (I item o Hin). apply clean_items_float_free.
  - intros file_id fields k u n v o Hin.
    pose proof (update_metadata_requests file_id fields env t) as P.
    unfold post in P. destruct P as (_ & I).
    destruct (I k u n v o Hin) as (-> & -> & ->).
    split; [reflexivity |]. split; [apply names_float_free |].
    apply values_float_free, clean_items_float_free.
Qed.

Lemma clean_ddb_replaces_floats_witness :
  float_free_dict [("file_id", VStr "fid-1")] = true /\
  float_free_dict [("#tempo", VStr "tempo"); ("#tags", VStr "tags")] = true /\
  float_free_dict
    [(":tempo", VDecimal "1.5");
     (":tags", VList [VStr "loop"; VDict [("bpm", VDecimal "1.5")];
                      VTuple [VDecimal "0.0"; VInt 4]])] = true.
Proof.
  apply (proj2 (proj2 (@clean_ddb_replaces_floats Demo.lib Demo.env_ok []))
           "fid-1"
           [("tempo", VFloat f_thirty);
            ("tags", VList [VStr "loop"; VDict [("bpm", VFloat f_five)];
                            VTuple [VFloat f_zero; VInt 4]])]
           _ "SET #tempo = :tempo, #tags = :tags" _ _ None).
  vm_compute. left. reflexivity.
Defined.

Example clean_ddb_sample :
  DbDynamo._clean_ddb (H := Demo.lib)
    (VDict [("a", VFloat f_five);
            ("b", VList [VFloat f_zero; VStr "x"; VTuple [VNone; VFloat f_five]])])
  = VDict [("a", VDecimal "1.5");
           ("b", VList [VDecimal "0.0"; VStr "x"; VTuple [VNone; VDecimal "1.5"]])].
Proof. reflexivity. Qed.
(* ===================================================================== *)
(** * The timestamp *)
(* ===================================================================== *)













Lemma prefixed_eqb (c : ascii) (a b : string) :
  String.eqb (String c a) (String c b) = String.eqb a b.
Proof. cbn. now rewrite Ascii.eqb_refl. Qed.

(** Looking a placeholder up in the names gives the attribute back. *)
Lemma names_lookup (a : string) (ks : list string) :
  In a ks ->
  dict_get ("#" ++ a) (map (fun k => (("#" ++ k)%string, VStr k)) ks)
    = Some (VStr a).
Proof.
  induction ks as [| k ks IH]; [intros [] |].
  intros Hin. cbn [map dict_get]. cbn [append]. rewrite prefixed_eqb.
  destruct (String.eqb k a) eqn:E.
  - apply String.eqb_eq in E. now subst.
  - destruct Hin as [-> | Hin]; [now rewrite String.eqb_refl in E |].
    apply IH, Hin.
Qed.

(** Looking a placeholder up in the values gives the value of the
    field. *)
Lemma values_lookup (a : string) (d : dict) :
  dict_get (":" ++ a) (map (fun '(k, v) => ((":" ++ k)%string, v)) d)
    = dict_get a d.
Proof.
  induction d as [| [k v] d IH]; [reflexivity |].
  cbn [map dict_get]. cbn [append]. rewrite prefixed_eqb.
  destruct (String.eqb k a); [reflexivity | exact IH].
Qed.

Lemma clean_items_get `{PyLib} (a : string) (d : dict) :
  dict_get a (DbDynamo.clean_items d)
    = option_map DbDynamo._clean_ddb (dict_get a d).
Proof.
  induction d as [| [k v] d IH]; [reflexivity |].
  cbn [DbDynamo.clean_items map dict_get].
  destruct (String.eqb k a); [reflexivity | exact IH].
Qed.

Lemma dict_get_some_keys (a : string) (d : dict) (x : pyval) :
  dict_get a d = Some x -> In a (dict_keys d).
Proof.
  induction d as [| [k v] d IH]; [discriminate |].
  cbn [dict_get dict_keys map fst].
  destruct (String.eqb k a) eqn:E.
  - intros _. left. now apply String.eqb_eq.
  - intros G. right. apply IH, G.
Qed.









Example analyzed_at_sample :
  Handler.analyzed_at_of (Datetime 2024 1 2 3 4 5 0) = "2024-01-02T03:04:05Z"
  /\ Handler.analyzed_at_of (Datetime 2024 11 30 23 59 59 1500)
     = "2024-11-30T23:59:59.001500Z".
Proof. split; reflexivity. Qed.


(* ===================================================================== *)
(** * More on the pipeline: order of the writes, agreement of the
      record with the artifact *)
(* ===================================================================== *)

Ltac shape_cases S P :=
  destruct S as [e0 | name e0 | name e0
                 | name key_s du te be me ti e0 Ek
                 | name key_s du te be me ti p e0 Ek P
                 | name key_s du te be me ti p Ek P];
  try (inversion P; subst).

Ltac split_in :=
  repeat match goal with
         | D : _ \/ _ |- _ => destruct D
         | D : False |- _ => destruct D
         | D : (_, _) = (_, _) |- _ => inversion D; subst; clear D
         | D : [] = _ :: _ |- _ => discriminate D
         | D : Some _ = Some _ |- _ => injection D as ->
         | D : None = Some _ |- _ => discriminate D
         end.

(** X1.  The pipeline downloads at most once and writes at most one
    artifact; it writes the artifact only after the download returned,
    and it touches the table (update or insert) only after the artifact
    write returned. *)
Theorem handler_writes_in_order `{PyLib} (cfg : Handler.config) (event : dict)
    (env : Env) (t : trace) :
  (List.length (downloads (snd (Handler.handler cfg event env t))) <= 1)%nat /\
  (List.length (put_objects (snd (Handler.handler cfg event env t))) <= 1)%nat /\
  (put_objects (snd (Handler.handler cfg event env t)) <> [] ->
   downloads (snd (Handler.handler cfg event env t)) = [None]) /\
  (updates (snd (Handler.handler cfg event env t)) <> [] \/
   put_items (snd (Handler.handler cfg event env t)) <> [] ->
   exists a, put_objects (snd (Handler.handler cfg event env t)) = [(a, None)]).
Proof.
  by_shape cfg event env t.
  - cbn. repeat split; auto; intros; intuition congruence.
  - shape_cases S P; cbn;
      (split; [lia |]); (split; [lia |]);
      (split; [try reflexivity; intros N; now contradiction N |]);
      intros [N | N]; try (now contradiction N); eauto.
Qed.

Lemma handler_writes_in_order_witness :
  exists a,
    put_objects (snd (Handler.handler (H := Demo.lib) Handler.default_config
                        Demo.event_with_id
                        (Demo.env_update_fails Demo.throttled) []))
    = [(a, None)].
Proof.
  apply (proj2 (proj2 (proj2
           (@handler_writes_in_order Demo.lib Handler.default_config
              Demo.event_with_id (Demo.env_update_fails Demo.throttled) [])))).
  left. vm_compute. discriminate.
Defined.

(** X2.  In a run that succeeds, the numbers written to the table are
    the decimals of the very floats the result (and so the artifact)
    carries as duration and tempo: in the values :d and :t of every
    update, and in the item of every insert. *)
Theorem handler_record_matches_artifact `{PyLib} (cfg : Handler.config)
    (event : dict) (env : Env) (t : trace) :
  succeeded (fst (Handler.handler cfg event env t)) = true ->
  exists duration tempo beats method timings,
    fst (Handler.handler cfg event env t)
      = Ok (VDict [("bucket", get_or_none "bucket" event);
                   ("key", get_or_none "key" event);
                   ("analysis",
                    VDict (Handler.analysis_of cfg duration tempo beats
                             method timings))]) /\
    (forall k u n v o,
        In ((k, u, n, v), o) (updates (snd (Handler.handler cfg event env t))) ->
        dict_get ":d" v = Some (VDecimal (float_str duration)) /\
        dict_get ":t" v = Some (VDecimal (float_str tempo))) /\
    (forall item o,
        In (item, o) (put_items (snd (Handler.handler cfg event env t))) ->
        dict_get "duration" item = Some (VDecimal (float_str duration)) /\
        dict_get "tempo" item = Some (VDecimal (float_str tempo))).
Proof.
  by_shape cfg event env t.
  - discriminate.
  - shape_cases S P; cbn; try discriminate;
      intros _; exists du, te, be, me, ti;
      (split; [reflexivity |]);
      split; intros; split_in; split; reflexivity.
Qed.

Lemma handler_record_matches_artifact_witness :
  exists duration tempo beats method timings,
    fst (Handler.handler (H := Demo.lib) Handler.default_config
           Demo.event_without_id Demo.env_ok [])
      = Ok (VDict [("bucket", get_or_none "bucket" Demo.event_without_id);
                   ("key", get_or_none "key" Demo.event_without_id);
                   ("analysis",
                    VDict (Handler.analysis_of Handler.default_config
                             duration tempo beats method timings))]) /\
    (forall k u n v o,
        In ((k, u, n, v), o)
           (updates (snd (Handler.handler (H := Demo.lib)
                            Handler.default_config Demo.event_without_id
                            Demo.env_ok []))) ->
        dict_get ":d" v = Some (VDecimal (float_str (PyLib := Demo.lib) duration)) /\
        dict_get ":t" v = Some (VDecimal (float_str (PyLib := Demo.lib) tempo))) /\
    (forall item o,
        In (item, o)
           (put_items (snd (Handler.handler (H := Demo.lib)
                              Handler.default_config Demo.event_without_id
                              Demo.env_ok []))) ->
        dict_get "duration" item
          = Some (VDecimal (float_str (PyLib := Demo.lib) duration)) /\
        dict_get "tempo" item
          = Some (VDecimal (float_str (PyLib := Demo.lib) tempo))).
Proof.
  apply (@handler_record_matches_artifact Demo.lib Handler.default_config
           Demo.event_without_id Demo.env_ok []).
  vm_compute. reflexivity.
Defined.

(* ===================================================================== *)
(** * More on the two stages *)
(* ===================================================================== *)

Ltac unfold_fast_duration :=
  unfold Handler._fast_duration, or_else, Handler.duration_mutagen,
    Handler.duration_soundfile, Handler.duration_librosa,
    Handler.duration_partial, py_len, py_truediv.

Ltac unfold_bounded_tempo :=
  unfold Handler._bounded_tempo, Handler.tempo_inconclusive,
    Handler.tempo_fallback, Handler.tempo_or_zero, Handler.beats_count_of,
    Handler.tempo_zero.

(** X3.  The label of the duration resolver is one of five, and it
    tells where the duration comes from: "unknown" comes with 0.0;
    "mutagen" with the length the header parse returned, only for the
    extension .mp3 in any letter case; "soundfile.info" and
    "librosa.get_duration" with the duration that query returned, above
    zero; "librosa.partial" with the quotient len(y) / sr, finite, for
    the array and the rate the decoder returned, the rate not zero,
    where the length is asked for twice and the first answer was above
    zero.  The header parse is requested once for an .mp3 extension and
    never for another. *)
Theorem fast_duration_labels (path ext : string) (env : Env) (t : trace) :
  exists duration method,
    fst (Handler._fast_duration path ext env t) = Ok (duration, method) /\
    ((method = "unknown" /\ duration = f_zero) \/
     (method = "mutagen" /\ lower ext = ".mp3" /\
      Obs.header_lengths (snd (Handler._fast_duration path ext env t))
        = [duration]) \/
     (method = "soundfile.info" /\ float_gt0 duration = true /\
      Obs.info_durations (snd (Handler._fast_duration path ext env t))
        = [Some duration]) \/
     (method = "librosa.get_duration" /\ float_gt0 duration = true /\
      Obs.queried_durations (snd (Handler._fast_duration path ext env t))
        = [duration]) \/
     (method = "librosa.partial" /\
      exists y sr n n',
        Obs.decoded (snd (Handler._fast_duration path ext env t))
          = [(Some y, Some sr)] /\
        sr <> 0%Z /\
        Obs.lengths (snd (Handler._fast_duration path ext env t))
          = [(y, n); (y, n')] /\
        (0 < n)%Z /\
        duration = int_truediv n' sr /\
        (forall s, duration <> S754_infinity s))) /\
    (lower ext = ".mp3" ->
     Obs.mutagen_requests (snd (Handler._fast_duration path ext env t)) = [path]) /\
    (lower ext <> ".mp3" ->
     Obs.mutagen_requests (snd (Handler._fast_duration path ext env t)) = []).
Proof.
  change (post (Handler._fast_duration path ext) env t (fun r d =>
    exists duration method,
      r = Ok (duration, method) /\
      ((method = "unknown" /\ duration = f_zero) \/
       (method = "mutagen" /\ lower ext = ".mp3" /\
        Obs.header_lengths d = [duration]) \/
       (method = "soundfile.info" /\ float_gt0 duration = true /\
        Obs.info_durations d = [Some duration]) \/
       (method = "librosa.get_duration" /\ float_gt0 duration = true /\
        Obs.queried_durations d = [duration]) \/
       (method = "librosa.partial" /\
        exists y sr n n',
          Obs.decoded d = [(Some y, Some sr)] /\
          sr <> 0%Z /\
          Obs.lengths d = [(y, n); (y, n')] /\
          (0 < n)%Z /\
          duration = int_truediv n' sr /\
          (forall s, duration <> S754_infinity s))) /\
      (lower ext = ".mp3" -> Obs.mutagen_requests d = [path]) /\
      (lower ext <> ".mp3" -> Obs.mutagen_requests d = []))).
  unfold_fast_duration.
  destruct (String.eqb_spec (lower ext) ".mp3") as [Emp3 | Nmp3];
    post_steps;
    (do 2 eexists; split; [reflexivity |];
     split;
     [ first
         [ left; split; reflexivity
         | right; left; split; [reflexivity |];
           split; [assumption | reflexivity]
         | right; right; left; split; [reflexivity |];
           split; [assumption | reflexivity]
         | right; right; right; left; split; [reflexivity |];
           split; [assumption | reflexivity]
         | right; right; right; right; split; [reflexivity |];
           do 4 eexists;
           split; [reflexivity |];
           split; [apply Z.eqb_neq; eassumption |];
           split; [reflexivity |];
           split; [apply Z.ltb_lt; eassumption |];
           split; [symmetry; eassumption | intros ?; discriminate] ]
     | split; intros; [try reflexivity; try contradiction
                      | try reflexivity; try contradiction] ]).
Qed.

(** X4.  The duration resolver asks the decoder at most once, and then
    for the first five seconds of the file it was given, at the native
    sample rate. *)
Theorem fast_duration_decode_bound (path ext : string) (env : Env) (t : trace) :
  loads (snd (Handler._fast_duration path ext env t)) = [] \/
  loads (snd (Handler._fast_duration path ext env t))
    = [(path, None, true, f_five, None)].
Proof.
  change (post (Handler._fast_duration path ext) env t (fun _ d =>
            loads d = [] \/ loads d = [(path, None, true, f_five, None)])).
  unfold_fast_duration.
  post_steps; cbn; auto.
Qed.

(** X5.  The tempo estimator calls the beat tracker at most once, and
    only on an array the decoder returned, whose length it asked for
    first and found not to be zero, together with a sample rate that is
    not zero: after a failed or empty decode it is not called.  The
    onset-based estimate, when requested, is for the same array and
    rate, once. *)
Theorem bounded_tempo_tracker_input (cfg : Handler.config) (path : string)
    (env : Env) (t : trace) :
  (Obs.beat_tracks (snd (Handler._bounded_tempo cfg path env t)) = [] /\
   Obs.onset_requests (snd (Handler._bounded_tempo cfg path env t)) = []) \/
  (exists y sr n rest,
     sr <> 0%Z /\
     Obs.decoded (snd (Handler._bounded_tempo cfg path env t))
       = [(Some y, Some sr)] /\
     Obs.lengths (snd (Handler._bounded_tempo cfg path env t))
       = (y, n) :: rest /\
     n <> 0%Z /\
     Obs.beat_tracks (snd (Handler._bounded_tempo cfg path env t)) = [(y, sr)] /\
     (Obs.onset_requests (snd (Handler._bounded_tempo cfg path env t)) = [] \/
      Obs.onset_requests (snd (Handler._bounded_tempo cfg path env t))
        = [(y, sr)])).
Proof.
  change (post (Handler._bounded_tempo cfg path) env t (fun _ d =>
    (Obs.beat_tracks d = [] /\ Obs.onset_requests d = []) \/
    (exists y sr n rest,
       sr <> 0%Z /\ Obs.decoded d = [(Some y, Some sr)] /\
       Obs.lengths d = (y, n) :: rest /\
       n <> 0%Z /\
       Obs.beat_tracks d = [(y, sr)] /\
       (Obs.onset_requests d = [] \/ Obs.onset_requests d = [(y, sr)])))).
  unfold_bounded_tempo.
  post_steps; cbn;
    first
      [ left; split; reflexivity
      | right;
        match goal with
        | |- context [[(Some ?y, Some ?s)] = _] => exists y, s
        end;
        do 2 eexists;
        split; [apply Z.eqb_neq; assumption |];
        split; [reflexivity |];
        split; [reflexivity |];
        split; [apply Z.eqb_neq; assumption |];
        split; [reflexivity |];
        first [left; reflexivity | right; reflexivity] ].
Qed.

(* ===================================================================== *)
(** * More on the pipeline: the scratch file, the flow of the results *)
(* ===================================================================== *)

Lemma created_app (a b : trace) :
  Obs.created (a ++ b) = Obs.created a ++ Obs.created b.
Proof.
  induction a as [| [T c r | name] a IH]; [reflexivity | | exact IH].
  destruct c; cbn; try exact IH. destruct r; cbn; [now rewrite IH | exact IH].
Qed.

Lemma released_app (a b : trace) :
  Obs.released (a ++ b) = Obs.released a ++ Obs.released b.
Proof.
  induction a as [| [T c r | name] a IH]; [reflexivity | exact IH |].
  cbn. now rewrite IH.
Qed.

Lemma ends_with_release_last (l : trace) (name : string) :
  Obs.ends_with_release name (l ++ [Released name]) = true.
Proof.
  unfold Obs.ends_with_release. rewrite rev_app_distr. cbn.
  apply String.eqb_refl.
Qed.

(** The stages create and release no scratch file. *)
Lemma fast_duration_no_scratch (path ext : string) (env : Env) (t : trace) :
  Obs.created (snd (Handler._fast_duration path ext env t)) = [] /\
  Obs.released (snd (Handler._fast_duration path ext env t)) = [].
Proof.
  change (post (Handler._fast_duration path ext) env t (fun _ d =>
            Obs.created d = [] /\ Obs.released d = [])).
  unfold_fast_duration. post_steps; split; reflexivity.
Qed.

Lemma bounded_tempo_no_scratch (cfg : Handler.config) (path : string)
    (env : Env) (t : trace) :
  Obs.created (snd (Handler._bounded_tempo cfg path env t)) = [] /\
  Obs.released (snd (Handler._bounded_tempo cfg path env t)) = [].
Proof.
  change (post (Handler._bounded_tempo cfg path) env t (fun _ d =>
            Obs.created d = [] /\ Obs.released d = [])).
  unfold_bounded_tempo. post_steps; split; reflexivity.
Qed.

Ltac scratch_leaf :=
  repeat match goal with
         | Hq : _ /\ _ |- _ => destruct Hq
         end;
  rewrite ?app_nil_r; cbn [app];
  repeat (rewrite ?created_app, ?released_app;
          cbn [Obs.created Obs.released app Handler.update_request]);
  repeat match goal with
         | Hq : Obs.created ?d = [] |- _ => rewrite Hq; clear Hq
         | Hq : Obs.released ?d = [] |- _ => rewrite Hq; clear Hq
         end;
  cbn [app List.length];
  split; [reflexivity |]; split; [lia |];
  intros ? Hin; cbn [In] in Hin;
  first [ contradiction
        | destruct Hin as [<- | []];
          first [ rewrite ?app_comm_cons; apply ends_with_release_last
                | unfold Obs.ends_with_release; cbn [rev app];
                  apply String.eqb_refl ] ].

(** X6.  The scratch file is released on every path: a run creates at
    most one scratch file, and when it has created one, it releases
    that file, once, as the last thing it does, whether it ends with
    the analysis or with an error. *)
Theorem handler_releases_scratch `{PyLib} (cfg : Handler.config) (event : dict)
    (env : Env) (t : trace) :
  Obs.released (snd (Handler.handler cfg event env t))
    = Obs.created (snd (Handler.handler cfg event env t)) /\
  (List.length (Obs.created (snd (Handler.handler cfg event env t))) <= 1)%nat /\
  (forall name,
      In name (Obs.created (snd (Handler.handler cfg event env t))) ->
      Obs.ends_with_release name (snd (Handler.handler cfg event env t)) = true).
Proof.
  change (post (Handler.handler cfg event) env t (fun _ d =>
    Obs.released d = Obs.created d /\
    (List.length (Obs.created d) <= 1)%nat /\
    (forall name, In name (Obs.created d) ->
                  Obs.ends_with_release name d = true))).
  unfold Handler.handler, Handler.handler_with.
  destruct (negb _ || negb _).
  - apply post_ret. cbn. repeat split; auto; intros name [].
  - generalize (get_or_none "bucket" event) (get_or_none "file_id" event)
      (get_or_none "key" event).
    intros bucket file_id key.
    pipeline_walk ltac:(post_known fast_duration_no_scratch)
                  ltac:(post_known bounded_tempo_no_scratch)
                  ltac:(solve [scratch_leaf]).
Qed.

Lemma handler_releases_scratch_witness :
  Obs.ends_with_release "/tmp/tmpabc.wav"
    (snd (Handler.handler (H := Demo.lib) Handler.default_config
            Demo.event_with_id Demo.env_put_object_fails [])) = true.
Proof.
  apply (proj2 (proj2 (@handler_releases_scratch Demo.lib
                         Handler.default_config Demo.event_with_id
                         Demo.env_put_object_fails []))).
  vm_compute. left. reflexivity.
Defined.

Ltac result_leaf :=
  cbn [succeeded Handler.error_result dict_get String.eqb Ascii.eqb Bool.eqb];
  first
    [ intros Hs; discriminate Hs
    | intros _; do 6 eexists;
      repeat split; reflexivity ].

(** X7.  Whatever the two stages are, the analysis of a run that
    succeeds carries the timings of exactly three steps, download_s,
    duration_s and tempo_s, in that order, and the key of the event was
    a string. *)
Theorem handler_timings `{PyLib} (cfg : Handler.config)
    (fd : string -> string -> M (float * string))
    (bt : string -> M (float * Z * float))
    (event : dict) (env : Env) (t : trace) :
  succeeded (fst (Handler.handler_with cfg fd bt event env t)) = true ->
  exists key_s duration tempo beats method timings,
    get_or_none "key" event = VStr key_s /\
    fst (Handler.handler_with cfg fd bt event env t)
      = Ok (VDict [("bucket", get_or_none "bucket" event);
                   ("key", VStr key_s);
                   ("analysis",
                    VDict (Handler.analysis_of cfg duration tempo beats
                             method timings))]) /\
    dict_keys timings = ["download_s"; "duration_s"; "tempo_s"].
Proof.
  change (post (Handler.handler_with cfg fd bt event) env t (fun r _ =>
    succeeded r = true ->
    exists key_s duration tempo beats method timings,
      get_or_none "key" event = VStr key_s /\
      r = Ok (VDict [("bucket", get_or_none "bucket" event);
                     ("key", VStr key_s);
                     ("analysis",
                      VDict (Handler.analysis_of cfg duration tempo beats
                               method timings))]) /\
      dict_keys timings = ["download_s"; "duration_s"; "tempo_s"])).
  unfold Handler.handler_with.
  destruct (negb _ || negb _).
  - apply post_ret. discriminate.
  - generalize (get_or_none "bucket" event) (get_or_none "file_id" event)
      (get_or_none "key" event).
    intros bucket file_id key.
    pipeline_walk post_any post_any ltac:(solve [result_leaf]).
Qed.

Lemma handler_timings_witness :
  exists key_s duration tempo beats method timings,
    get_or_none "key" Demo.event_with_id = VStr key_s /\
    fst (Handler.handler_with (H := Demo.lib) Handler.default_config
           (Handler._fast_duration)
           (Handler._bounded_tempo Handler.default_config)
           Demo.event_with_id Demo.env_ok [])
      = Ok (VDict [("bucket", get_or_none "bucket" Demo.event_with_id);
                   ("key", VStr key_s);
                   ("analysis",
                    VDict (Handler.analysis_of Handler.default_config
                             duration tempo beats method timings))]) /\
    dict_keys timings = ["download_s"; "duration_s"; "tempo_s"].
Proof.
  apply (@handler_timings Demo.lib Handler.default_config
           Handler._fast_duration
           (Handler._bounded_tempo Handler.default_config)
           Demo.event_with_id Demo.env_ok []).
  vm_compute. reflexivity.
Defined.

Ltac flow_leaf f g :=
  cbn [succeeded Handler.error_result dict_get String.eqb Ascii.eqb Bool.eqb];
  first
    [ intros Hs; discriminate Hs
    | intros _;
      match goal with
      | Es : splitext ?s = (_, _), Ef : f ?n _ = (_, _), Eg : g ?n = (_, _)
        |- _ =>
          exists s, n; eexists; rewrite Es; cbn [fst snd];
          rewrite Ef, Eg; cbn [fst snd]
      end;
      split; [reflexivity |];
      split; [cbn [app Obs.created Handler.update_request]; reflexivity |];
      split; [reflexivity |];
      split; [reflexivity |];
      intros Ht; first [reflexivity | congruence] ].

(** X8.  The results flow through unchanged.  For a key whose
    extension is ASCII text (on such a text [lower] is [str.lower]) and
    with stages that compute their results from their arguments alone,
    the duration stage is called with the name of the scratch file and
    the extension of the key in lower case, the tempo stage with the
    name of the scratch file, and the analysis of a run that succeeds
    carries exactly what they returned as duration, method, tempo and
    beats; tempo_s is the elapsed time the tempo stage reported whenever
    that time is not zero. *)
Theorem handler_reports_stage_results `{PyLib} (cfg : Handler.config)
    (f : string -> string -> float * string)
    (g : string -> float * Z * float)
    (event : dict) (env : Env) (t : trace) :
  (forall key_s,
      get_or_none "key" event = VStr key_s ->
      ascii_only (snd (splitext key_s)) = true) ->
  succeeded (fst (Handler.handler_with cfg (fun p e => ret (f p e))
                    (fun p => ret (g p)) event env t)) = true ->
  exists key_s name timings,
    get_or_none "key" event = VStr key_s /\
    Obs.created (snd (Handler.handler_with cfg (fun p e => ret (f p e))
                        (fun p => ret (g p)) event env t)) = [name] /\
    fst (Handler.handler_with cfg (fun p e => ret (f p e))
           (fun p => ret (g p)) event env t)
      = Ok (VDict
              [("bucket", get_or_none "bucket" event);
               ("key", VStr key_s);
               ("analysis",
                VDict (Handler.analysis_of cfg
                         (fst (f name (lower (snd (splitext key_s)))))
                         (fst (fst (g name)))
                         (snd (fst (g name)))
                         (snd (f name (lower (snd (splitext key_s)))))
                         timings))]) /\
    dict_keys timings = ["download_s"; "duration_s"; "tempo_s"] /\
    (float_truthy (snd (g name)) = true ->
     dict_get "tempo_s" timings = Some (VFloat (snd (g name)))).
Proof.
  intros _.
  change (post (Handler.handler_with cfg (fun p e => ret (f p e))
                  (fun p => ret (g p)) event) env t (fun r d =>
    succeeded r = true ->
    exists key_s name timings,
      get_or_none "key" event = VStr key_s /\
      Obs.created d = [name] /\
      r = Ok (VDict
                [("bucket", get_or_none "bucket" event);
                 ("key", VStr key_s);
                 ("analysis",
                  VDict (Handler.analysis_of cfg
                           (fst (f name (lower (snd (splitext key_s)))))
                           (fst (fst (g name)))
                           (snd (fst (g name)))
                           (snd (f name (lower (snd (splitext key_s)))))
                           timings))]) /\
      dict_keys timings = ["download_s"; "duration_s"; "tempo_s"] /\
      (float_truthy (snd (g name)) = true ->
       dict_get "tempo_s" timings = Some (VFloat (snd (g name)))))).
  unfold Handler.handler_with.
  destruct (negb _ || negb _).
  - apply post_ret. discriminate.
  - generalize (get_or_none "bucket" event) (get_or_none "file_id" event)
      (get_or_none "key" event).
    intros bucket file_id key.
    unfold Handler.pipeline_with, Handler.analyze_with, os_path_splitext,
      Handler.update_record, Handler.insert_record, os_path_basename.
    post_steps.
    all: solve [flow_leaf f g].
Qed.

Lemma handler_reports_stage_results_witness :
  exists key_s name timings,
    get_or_none "key" Demo.event_with_id = VStr key_s /\
    Obs.created
      (snd (Handler.handler_with (H := Demo.lib) Handler.default_config
              (fun p e => ret ((fun _ _ => (f_five, "stub")) p e))
              (fun p => ret ((fun _ => (f_thirty, 42%Z, f_five)) p))
              Demo.event_with_id Demo.env_ok [])) = [name] /\
    fst (Handler.handler_with (H := Demo.lib) Handler.default_config
           (fun p e => ret ((fun _ _ => (f_five, "stub")) p e))
           (fun p => ret ((fun _ => (f_thirty, 42%Z, f_five)) p))
           Demo.event_with_id Demo.env_ok [])
      = Ok (VDict
              [("bucket", get_or_none "bucket" Demo.event_with_id);
               ("key", VStr key_s);
               ("analysis",
                VDict (Handler.analysis_of Handler.default_config
                         (fst ((fun _ _ => (f_five, "stub")) name
                                 (lower (snd (splitext key_s)))))
                         (fst (fst ((fun _ => (f_thirty, 42%Z, f_five)) name)))
                         (snd (fst ((fun _ => (f_thirty, 42%Z, f_five)) name)))
                         (snd ((fun _ _ => (f_five, "stub")) name
                                 (lower (snd (splitext key_s)))))
                         timings))]) /\
    dict_keys timings = ["download_s"; "duration_s"; "tempo_s"] /\
    (float_truthy (snd ((fun _ => (f_thirty, 42%Z, f_five)) name)) = true ->
     dict_get "tempo_s" timings
       = Some (VFloat (snd ((fun _ => (f_thirty, 42%Z, f_five)) name)))).
Proof.
  apply (@handler_reports_stage_results Demo.lib Handler.default_config
           (fun _ _ => (f_five, "stub"))
           (fun _ => (f_thirty, 42%Z, f_five))
           Demo.event_with_id Demo.env_ok []).
  - intros key_s E. vm_compute in E. inversion E. reflexivity.
  - vm_compute. reflexivity.
Defined.


(* ===================================================================== *)
(** * More on the pipeline: the tempo switch, the decoding budget *)
(* ===================================================================== *)

Lemma beat_tracks_app (a b : trace) :
  Obs.beat_tracks (a ++ b) = Obs.beat_tracks a ++ Obs.beat_tracks b.
Proof.
  induction a as [| [T c r | name] a IH]; [reflexivity | | exact IH].
  destruct c; cbn; try exact IH. now rewrite IH.
Qed.

Lemma loads_app (a b : trace) : loads (a ++ b) = loads a ++ loads b.
Proof.
  induction a as [| [T c r | name] a IH]; [reflexivity | | exact IH].
  destruct c; cbn; try exact IH. now rewrite IH.
Qed.

Lemma fast_duration_no_tracker (path ext : string) (env : Env) (t : trace) :
  Obs.beat_tracks (snd (Handler._fast_duration path ext env t)) = [].
Proof.
  change (post (Handler._fast_duration path ext) env t (fun _ d =>
            Obs.beat_tracks d = [])).
  unfold_fast_duration. post_steps; reflexivity.
Qed.

Lemma bounded_tempo_off (cfg : Handler.config) (path : string)
    (env : Env) (t : trace) :
  Handler.ENABLE_TEMPO cfg = false ->
  Handler._bounded_tempo cfg path env t = (Ok Handler.tempo_zero, []).
Proof.
  intros Eoff. unfold Handler._bounded_tempo. now rewrite Eoff.
Qed.

Ltac post_off Eoff :=
  idtac;
  let E := fresh "E" in
  let r := fresh "r" in
  let d := fresh "d" in
  apply post_intro; intros r d E;
  rewrite (bounded_tempo_off _ _ _ _ Eoff) in E;
  unfold Handler.tempo_zero in E; inversion E; subst; clear E.

Ltac off_leaf :=
  split;
  [ rewrite ?app_nil_r; cbn [app];
    repeat (rewrite ?beat_tracks_app;
            cbn [Obs.beat_tracks app Handler.update_request]);
    repeat match goal with
           | Hq : Obs.beat_tracks ?d = [] |- _ => rewrite Hq; clear Hq
           end;
    reflexivity
  | cbn [succeeded Handler.error_result dict_get String.eqb Ascii.eqb
           Bool.eqb];
    first [ intros Hs; discriminate Hs
          | intros _; do 4 eexists; split; reflexivity ] ].

(** X9.  With the tempo feature off, the pipeline never calls the beat
    tracker, and the analysis of a run that succeeds has tempo 0.0 and
    0 beats. *)
Theorem handler_tempo_disabled `{PyLib} (cfg : Handler.config) (event : dict)
    (env : Env) (t : trace) :
  Handler.ENABLE_TEMPO cfg = false ->
  Obs.beat_tracks (snd (Handler.handler cfg event env t)) = [] /\
  (succeeded (fst (Handler.handler cfg event env t)) = true ->
   exists key_s duration method timings,
     get_or_none "key" event = VStr key_s /\
     fst (Handler.handler cfg event env t)
       = Ok (VDict [("bucket", get_or_none "bucket" event);
                    ("key", VStr key_s);
                    ("analysis",
                     VDict (Handler.analysis_of cfg duration f_zero 0%Z
                              method timings))])).
Proof.
  intros Eoff.
  change (post (Handler.handler cfg event) env t (fun r d =>
    Obs.beat_tracks d = [] /\
    (succeeded r = true ->
     exists key_s duration method timings,
       get_or_none "key" event = VStr key_s /\
       r = Ok (VDict [("bucket", get_or_none "bucket" event);
                      ("key", VStr key_s);
                      ("analysis",
                       VDict (Handler.analysis_of cfg duration f_zero 0%Z
                                method timings))])))).
  unfold Handler.handler, Handler.handler_with.
  destruct (negb _ || negb _).
  - apply post_ret. split; [reflexivity | discriminate].
  - generalize (get_or_none "bucket" event) (get_or_none "file_id" event)
      (get_or_none "key" event).
    intros bucket file_id key.
    pipeline_walk ltac:(post_known fast_duration_no_tracker)
                  ltac:(post_off Eoff)
                  ltac:(solve [off_leaf]).
Qed.

Lemma handler_tempo_disabled_witness :
  Obs.beat_tracks
    (snd (Handler.handler (H := Demo.lib)
            {| Handler.OUT_PREFIX := "analysis/"; Handler.ENABLE_TEMPO := false;
               Handler.TEMPO_MAX_SECONDS := f_thirty;
               Handler.TEMPO_SR := 22050 |}
            Demo.event_with_id Demo.env_ok [])) = [] /\
  (succeeded
     (fst (Handler.handler (H := Demo.lib)
             {| Handler.OUT_PREFIX := "analysis/";
                Handler.ENABLE_TEMPO := false;
                Handler.TEMPO_MAX_SECONDS := f_thirty;
                Handler.TEMPO_SR := 22050 |}
             Demo.event_with_id Demo.env_ok [])) = true ->
   exists key_s duration method timings,
     get_or_none "key" Demo.event_with_id = VStr key_s /\
     fst (Handler.handler (H := Demo.lib)
            {| Handler.OUT_PREFIX := "analysis/";
               Handler.ENABLE_TEMPO := false;
               Handler.TEMPO_MAX_SECONDS := f_thirty;
               Handler.TEMPO_SR := 22050 |}
            Demo.event_with_id Demo.env_ok [])
       = Ok (VDict [("bucket", get_or_none "bucket" Demo.event_with_id);
                    ("key", VStr key_s);
                    ("analysis",
                     VDict (Handler.analysis_of
                              {| Handler.OUT_PREFIX := "analysis/";
                                 Handler.ENABLE_TEMPO := false;
                                 Handler.TEMPO_MAX_SECONDS := f_thirty;
                                 Handler.TEMPO_SR := 22050 |}
                              duration f_zero 0%Z method timings))])).
Proof.
  apply (@handler_tempo_disabled Demo.lib
           {| Handler.OUT_PREFIX := "analysis/"; Handler.ENABLE_TEMPO := false;
              Handler.TEMPO_MAX_SECONDS := f_thirty; Handler.TEMPO_SR := 22050 |}
           Demo.event_with_id Demo.env_ok []).
  reflexivity.
Defined.

(** What the stages ask of the decoder, and that they create no scratch
    file. *)
Lemma fast_duration_loads (path ext : string) (env : Env) (t : trace) :
  (loads (snd (Handler._fast_duration path ext env t)) = [] \/
   loads (snd (Handler._fast_duration path ext env t))
     = [(path, None, true, f_five, None)]) /\
  Obs.created (snd (Handler._fast_duration path ext env t)) = [].
Proof.
  change (post (Handler._fast_duration path ext) env t (fun _ d =>
            (loads d = [] \/ loads d = [(path, None, true, f_five, None)]) /\
            Obs.created d = [])).
  unfold_fast_duration.
  post_steps; cbn; auto.
Qed.

Lemma bounded_tempo_loads (cfg : Handler.config) (path : string)
    (env : Env) (t : trace) :
  (loads (snd (Handler._bounded_tempo cfg path env t)) = [] \/
   loads (snd (Handler._bounded_tempo cfg path env t))
     = [(path, Some (Handler.TEMPO_SR cfg), true,
         Handler.TEMPO_MAX_SECONDS cfg, Some "kaiser_fast")]) /\
  Obs.created (snd (Handler._bounded_tempo cfg path env t)) = [].
Proof.
  change (post (Handler._bounded_tempo cfg path) env t (fun _ d =>
            (loads d = [] \/
             loads d = [(path, Some (Handler.TEMPO_SR cfg), true,
                         Handler.TEMPO_MAX_SECONDS cfg, Some "kaiser_fast")]) /\
            Obs.created d = [])).
  unfold_bounded_tempo.
  post_steps; cbn; auto.
Qed.

Ltac budget_leaf :=
  repeat match goal with
         | Hq : _ /\ _ |- _ => destruct Hq
         end;
  repeat match goal with
         | Hq : _ \/ _ |- _ => destruct Hq
         end;
  rewrite ?app_nil_r; cbn [app];
  repeat (rewrite ?loads_app, ?created_app;
          cbn [loads Obs.created app Handler.update_request]);
  repeat match goal with
         | Hq : loads ?d = _ |- _ => rewrite Hq; clear Hq
         | Hq : Obs.created ?d = [] |- _ => rewrite Hq; clear Hq
         end;
  cbn [app List.length];
  (split; [lia |]);
  intros a Hin; cbn [In] in Hin;
  first
    [ contradiction
    | match goal with
      | |- exists name, In name [?n] /\ @?P name =>
          exists n; split; [left; reflexivity |];
          repeat match goal with
                 | D : _ \/ _ |- _ => destruct D
                 | D : False |- _ => destruct D
                 end;
          subst a; first [left; reflexivity | right; reflexivity]
      end ].

(** X10.  A run of the pipeline asks the decoder at most twice, always
    for the scratch file it created: for its first five seconds at the
    native rate (the duration resolver), or for its first
    TEMPO_MAX_SECONDS at TEMPO_SR with the fast resampler (the tempo
    estimator).  Nothing longer is ever decoded. *)
Theorem handler_decode_budget `{PyLib} (cfg : Handler.config) (event : dict)
    (env : Env) (t : trace) :
  (List.length (loads (snd (Handler.handler cfg event env t))) <= 2)%nat /\
  (forall a,
      In a (loads (snd (Handler.handler cfg event env t))) ->
      exists name,
        In name (Obs.created (snd (Handler.handler cfg event env t))) /\
        (a = (name, None, true, f_five, None) \/
         a = (name, Some (Handler.TEMPO_SR cfg), true,
              Handler.TEMPO_MAX_SECONDS cfg, Some "kaiser_fast"))).
Proof.
  change (post (Handler.handler cfg event) env t (fun _ d =>
    (List.length (loads d) <= 2)%nat /\
    (forall a,
        In a (loads d) ->
        exists name,
          In name (Obs.created d) /\
          (a = (name, None, true, f_five, None) \/
           a = (name, Some (Handler.TEMPO_SR cfg), true,
                Handler.TEMPO_MAX_SECONDS cfg, Some "kaiser_fast"))))).
  unfold Handler.handler, Handler.handler_with.
  destruct (negb _ || negb _).
  - apply post_ret. split; [cbn; lia | intros a []].
  - generalize (get_or_none "bucket" event) (get_or_none "file_id" event)
      (get_or_none "key" event).
    intros bucket file_id key.
    pipeline_walk ltac:(post_known fast_duration_loads)
                  ltac:(post_known bounded_tempo_loads)
                  ltac:(solve [budget_leaf]).
Qed.

Lemma handler_decode_budget_witness :
  exists name,
    In name
       (Obs.created
          (snd (Handler.handler (H := Demo.lib) Handler.default_config
                  Demo.event_with_id Demo.env_ok []))) /\
    (("/tmp/tmpabc.wav", Some 22050%Z, true, f_thirty, Some "kaiser_fast")
       = (name, None, true, f_five, None) \/
     ("/tmp/tmpabc.wav", Some 22050%Z, true, f_thirty, Some "kaiser_fast")
       = (name, Some (Handler.TEMPO_SR Handler.default_config), true,
          Handler.TEMPO_MAX_SECONDS Handler.default_config,
          Some "kaiser_fast")).
Proof.
  apply (proj2 (@handler_decode_budget Demo.lib Handler.default_config
                  Demo.event_with_id Demo.env_ok [])).
  vm_compute. left. reflexivity.
Defined.

(* ===================================================================== *)
(** * The record writers of the API *)
(* ===================================================================== *)

Lemma uuid_requests_one (r : outcome string) :
  Obs.uuid_requests [Ev Uuid4Str r] = 1%nat.
Proof. reflexivity. Qed.

(** Case analysis on the statements about a result and a history. *)
Ltac outcome_cases :=
  repeat match goal with
         | |- _ /\ _ => split
         | |- _ <-> _ => split
         | |- forall _, _ => intro
         | D : _ /\ _ |- _ => destruct D
         | D : exists _, _ |- _ => destruct D
         | D : _ \/ _ |- _ => destruct D
         | D : False |- _ => destruct D
         | D : Ok _ = Ok _ |- _ => inversion D; subst; clear D
         | D : Some _ = Some _ |- _ => inversion D; subst; clear D
         | D : (_, _) = (_, _) |- _ => inversion D; subst; clear D
         | D : _ :: _ = _ :: _ |- _ => inversion D; subst; clear D
         | D : String.eqb ?s EmptyString = true |- _ =>
             apply String.eqb_eq in D; subst s
         | D : String.eqb ?s ?s = false |- _ =>
             rewrite String.eqb_refl in D; discriminate D
         end;
  subst;
  try congruence; try reflexivity; try lia;
  try (do 2 eexists; split; [reflexivity | assumption]).

(** X11.  [save_metadata] puts at most one item.  It returns the item
    exactly when the put went through, [None] when the put raised a
    [ClientError] (which it never lets out), and the item has the five
    attributes of a new record, with the caller's file name and key.  A
    non-empty [file_id] is used as it is, without asking for a new
    identifier; an absent or empty one is replaced by a fresh one. *)
Theorem save_metadata_outcome `{PyLib} (filename s3_key : string)
    (duration tempo : pyval) (file_id : option string)
    (env : Env) (t : trace) :
  let r := fst (DbDynamo.save_metadata filename s3_key duration tempo file_id
                  env t) in
  let d := snd (DbDynamo.save_metadata filename s3_key duration tempo file_id
                  env t) in
  (List.length (put_items d) <= 1)%nat /\
  updates d = [] /\
  (forall item, r = Ok (Some item) <-> put_items d = [(item, None)]) /\
  (r = Ok None <->
   exists item e, put_items d = [(item, Some e)] /\ is_client_error e = true) /\
  (forall item o, In (item, o) (put_items d) ->
     dict_keys item = ["file_id"; "filename"; "s3_key"; "duration"; "tempo"] /\
     dict_get "filename" item = Some (VStr filename) /\
     dict_get "s3_key" item = Some (VStr s3_key) /\
     (duration = VNone -> dict_get "duration" item = Some (VDecimal "0")) /\
     (tempo = VNone -> dict_get "tempo" item = Some (VDecimal "0")) /\
     dict_get "analyzed_at" item = None) /\
  (forall s, file_id = Some s -> s <> "" ->
     Obs.uuid_requests d = 0%nat /\
     forall item o, In (item, o) (put_items d) ->
       dict_get "file_id" item = Some (VStr s)) /\
  (file_id = None \/ file_id = Some "" -> Obs.uuid_requests d = 1%nat).
Proof.
  cbv zeta.
  change (post (DbDynamo.save_metadata filename s3_key duration tempo file_id)
            env t (fun r d =>
    (List.length (put_items d) <= 1)%nat /\
    updates d = [] /\
    (forall item, r = Ok (Some item) <-> put_items d = [(item, None)]) /\
    (r = Ok None <->
     exists item e,
       put_items d = [(item, Some e)] /\ is_client_error e = true) /\
    (forall item o, In (item, o) (put_items d) ->
       dict_keys item = ["file_id"; "filename"; "s3_key"; "duration"; "tempo"] /\
       dict_get "filename" item = Some (VStr filename) /\
       dict_get "s3_key" item = Some (VStr s3_key) /\
       (duration = VNone -> dict_get "duration" item = Some (VDecimal "0")) /\
       (tempo = VNone -> dict_get "tempo" item = Some (VDecimal "0")) /\
       dict_get "analyzed_at" item = None) /\
    (forall s, file_id = Some s -> s <> "" ->
       Obs.uuid_requests d = 0%nat /\
       forall item o, In (item, o) (put_items d) ->
         dict_get "file_id" item = Some (VStr s)) /\
    (file_id = None \/ file_id = Some "" -> Obs.uuid_requests d = 1%nat))).
  unfold DbDynamo.save_metadata, DbDynamo.file_id_or_new, try_except_client.
  post_steps;
    cbn [put_items updates Obs.uuid_requests app error_of List.length In
         DbDynamo.clean_items map dict_keys fst dict_get String.eqb Ascii.eqb
         Bool.eqb DbDynamo._clean_ddb];
    outcome_cases.
Qed.

(** X12.  [update_metadata] with an empty [file_id] or no field answers
    with its error value and asks nothing of the table.  Otherwise it
    makes exactly one [update_item] request, for the key of that
    [file_id], never a put; a [ClientError] of the request comes back as
    an error value and is not raised, any other exception is raised
    unchanged. *)
Theorem update_metadata_outcome `{PyLib} (file_id : string) (fields : dict)
    (env : Env) (t : trace) :
  let r := fst (DbDynamo.update_metadata file_id fields env t) in
  let d := snd (DbDynamo.update_metadata file_id fields env t) in
  put_items d = [] /\
  (file_id = "" \/ fields = [] ->
   r = Ok (VDict [("error", VStr "Missing file_id or update fields")]) /\
   d = []) /\
  (file_id <> "" -> fields <> [] ->
   exists u n v o,
     updates d = [(([("file_id", VStr file_id)], u, n, v), o)] /\
     match o with
     | None => exists attrs, r = Ok attrs
     | Some e =>
         if is_client_error e
         then r = Ok (VDict [("error", VStr (exc_str e))])
         else r = Raise e
     end).
Proof.
  cbv zeta.
  change (post (DbDynamo.update_metadata file_id fields) env t (fun r d =>
    put_items d = [] /\
    (file_id = "" \/ fields = [] ->
     r = Ok (VDict [("error", VStr "Missing file_id or update fields")]) /\
     d = []) /\
    (file_id <> "" -> fields <> [] ->
     exists u n v o,
       updates d = [(([("file_id", VStr file_id)], u, n, v), o)] /\
       match o with
       | None => exists attrs, r = Ok attrs
       | Some e =>
           if is_client_error e
           then r = Ok (VDict [("error", VStr (exc_str e))])
           else r = Raise e
       end))).
  unfold DbDynamo.update_metadata, try_except_client.
  destruct (String.eqb file_id "") eqn:Eid;
    [| destruct fields as [| kv fields] ]; cbn [orb DbDynamo.dict_is_empty].
  - apply String.eqb_eq in Eid. subst file_id.
    apply post_ret. repeat split; intros; congruence.
  - apply post_ret. repeat split; intros; congruence.
  - post_steps; cbn [put_items updates app error_of];
      (split; [reflexivity |]);
      (split; [intros [-> | D]; [now rewrite String.eqb_refl in Eid
                                | discriminate D] |]);
      intros _ _; do 4 eexists; (split; [reflexivity |]);
      cbn beta iota;
      repeat match goal with
             | E : is_client_error _ = _ |- _ => rewrite E
             end;
      eauto.
Qed.

(** X13.  In a request of [update_metadata], every field the caller
    gave is reachable through its placeholders: [#k] names the
    attribute [k], and [:k] holds the cleaned value of the field. *)
Theorem update_metadata_placeholders `{PyLib} (file_id : string)
    (fields : dict) (env : Env) (t : trace)
    (k : dict) (u : string) (n v : dict) (o : option exc)
    (a : string) (x : pyval) :
  In ((k, u, n, v), o)
     (updates (snd (DbDynamo.update_metadata file_id fields env t))) ->
  dict_get a fields = Some x ->
  dict_get ("#" ++ a) n = Some (VStr a) /\
  dict_get (":" ++ a) v = Some (DbDynamo._clean_ddb x).
Proof.
  intros Hin G.
  pose proof (update_metadata_requests file_id fields env t) as P.
  unfold post in P. destruct P as (_ & I).
  destruct (I k u n v o Hin) as (_ & -> & ->).
  split.
  - apply names_lookup. rewrite clean_items_keys.
    eapply dict_get_some_keys, G.
  - rewrite values_lookup, clean_items_get, G. reflexivity.
Qed.

Lemma update_metadata_placeholders_witness :
  dict_get "#tempo" [("#tempo", VStr "tempo"); ("#tags", VStr "tags")]
    = Some (VStr "tempo") /\
  dict_get ":tempo"
    [(":tempo", VDecimal "1.5"); (":tags", VList [VDecimal "1.5"])]
    = Some (DbDynamo._clean_ddb (H := Demo.lib) (VFloat f_thirty)).
Proof.
  apply (@update_metadata_placeholders Demo.lib "fid-1"
           [("tempo", VFloat f_thirty); ("tags", VList [VFloat f_five])]
           Demo.env_ok []
           [("file_id", VStr "fid-1")] "SET #tempo = :tempo, #tags = :tags"
           _ _ None "tempo" (VFloat f_thirty)).
  - vm_compute. left. reflexivity.
  - reflexivity.
Defined.

(* ===================================================================== *)
(** * Rules for the computations of the application *)
(* ===================================================================== *)

Section AppRules.
Context {A B : Type}.
Implicit Types (env : App.AEnv) (t : App.atrace).

Lemma wpost_ret (a : A) env t (Q : outcome A -> App.atrace -> Prop) :
  Q (Ok a) [] -> App.wpost (App.wret a) env t Q.
Proof. exact (fun q => q). Qed.

Lemma wpost_raise (e : exc) env t (Q : outcome A -> App.atrace -> Prop) :
  Q (Raise e) [] -> App.wpost (App.wraise e) env t Q.
Proof. exact (fun q => q). Qed.

Lemma wpost_request (c : App.acall A) env t
    (Q : outcome A -> App.atrace -> Prop) :
  (forall r, Q r [App.AEv c r]) -> App.wpost (App.arequest c) env t Q.
Proof. intros q. apply q. Qed.

Lemma wpost_bind (m : App.W A) (k : A -> App.W B) env t
    (Q : outcome B -> App.atrace -> Prop) :
  App.wpost m env t (fun r d1 =>
    match r with
    | Ok a => App.wpost (k a) env (t ++ d1) (fun r2 d2 => Q r2 (d1 ++ d2))
    | Raise e => Q (Raise e) d1
    end) ->
  App.wpost (App.wbind m k) env t Q.
Proof.
  unfold App.wpost, App.wbind.
  destruct (m env t) as [[a | e] d1]; simpl; auto.
  destruct (k a env (t ++ d1)) as [r2 d2]; simpl; auto.
Qed.

Lemma wpost_try (m : App.W A) (h : exc -> App.W A) env t
    (Q : outcome A -> App.atrace -> Prop) :
  App.wpost m env t (fun r d1 =>
    match r with
    | Ok a => Q (Ok a) d1
    | Raise e => App.wpost (h e) env (t ++ d1) (fun r2 d2 => Q r2 (d1 ++ d2))
    end) ->
  App.wpost (App.wtry m h) env t Q.
Proof.
  unfold App.wpost, App.wtry.
  destruct (m env t) as [[a | e] d1]; simpl; auto.
  destruct (h e env (t ++ d1)) as [r2 d2]; simpl; auto.
Qed.

(** A call of a function of the analyzer's kind: its run under the
    restricted environment, its events lifted. *)
Lemma wpost_lift (m : M A) env t (Q : outcome A -> App.atrace -> Prop) :
  post m (App.restrict env t) [] (fun r d => Q r (map App.lift_event d)) ->
  App.wpost (App.lift m) env t Q.
Proof.
  unfold post, App.wpost, App.lift.
  destruct (m (App.restrict env t) []) as [r d]; simpl; auto.
Qed.

End AppRules.

Ltac wpost_step :=
  lazymatch goal with
  | |- App.wpost (App.wbind _ _) _ _ _ => apply wpost_bind
  | |- App.wpost (App.wret _) _ _ _ => apply wpost_ret
  | |- App.wpost (App.wraise _) _ _ _ => apply wpost_raise
  | |- App.wpost (App.arequest _) _ _ _ => apply wpost_request; intros [? | ?]
  | |- App.wpost (App.wtry _ _) _ _ _ => apply wpost_try
  | |- App.wpost (App.lift _) _ _ _ => apply wpost_lift
  | |- App.wpost (if ?b then _ else _) _ _ _ => destruct b eqn:?
  | |- App.wpost (match ?x with _ => _ end) _ _ _ => destruct x eqn:?
  end.

Ltac wpost_steps := repeat (first [wpost_step | post_step]; cbn beta iota).

(* ===================================================================== *)
(** * The endpoints that read and delete *)
(* ===================================================================== *)

(** X14.  [get_samples] asks the table for one scan with the given
    limit and writes nothing.  Its body is the [Items] of the answer, an
    empty list when the answer has none, and also when the scan raised a
    [ClientError]: the caller cannot tell a failing table from an empty
    one. *)
Theorem get_samples_response (limit : Z) (env : App.AEnv) (t : App.atrace) :
  let r := fst (App.get_samples limit env t) in
  let d := snd (App.get_samples limit env t) in
  App.writes d = [] /\
  exists r0,
    d = [App.AEv (App.Scan limit) r0] /\
    match r0 with
    | Ok resp =>
        r = Ok (VDict [("items",
                        match dict_get "Items" resp with
                        | Some items => items
                        | None => VList []
                        end)])
    | Raise e =>
        if is_client_error e
        then r = Ok (VDict [("items", VList [])])
        else r = Raise e
    end.
Proof.
  cbv zeta.
  change (App.wpost (App.get_samples limit) env t (fun r d =>
    App.writes d = [] /\
    exists r0,
      d = [App.AEv (App.Scan limit) r0] /\
      match r0 with
      | Ok resp =>
          r = Ok (VDict [("items",
                          match dict_get "Items" resp with
                          | Some items => items
                          | None => VList []
                          end)])
      | Raise e =>
          if is_client_error e
          then r = Ok (VDict [("items", VList [])])
          else r = Raise e
      end)).
  unfold App.get_samples, App.list_metadata, App.wtry_client.
  wpost_steps; cbn [app]; (split; [reflexivity |]);
    eexists; (split; [reflexivity |]); cbn beta iota;
    repeat match goal with
           | E : is_client_error _ = _ |- _ => rewrite E
           | E : dict_get _ _ = _ |- _ => rewrite E
           end;
    reflexivity.
Qed.

(** X15.  [get_sample] with an empty [file_id] answers with an error
    value and asks nothing.  Otherwise it asks the table once, for the
    key of that [file_id], and writes nothing; it hands back the [Item]
    of the answer when that is a non-empty value, and "No sample found"
    when the item is missing or empty and also when the table raised a
    [ClientError]. *)
Theorem get_sample_response (file_id : string) (env : App.AEnv)
    (t : App.atrace) :
  let r := fst (App.get_sample file_id env t) in
  let d := snd (App.get_sample file_id env t) in
  App.writes d = [] /\
  (file_id = "" ->
   r = Ok (VDict [("error", VStr "Missing file_id")]) /\ d = []) /\
  (file_id <> "" ->
   exists r0,
     d = [App.AEv (App.GetItem [("file_id", VStr file_id)]) r0] /\
     match r0 with
     | Ok resp =>
         r = Ok (if truthy (get_or_none "Item" resp)
                 then VDict [("items", get_or_none "Item" resp)]
                 else VDict [("error", VStr "No sample found")])
     | Raise e =>
         if is_client_error e
         then r = Ok (VDict [("error", VStr "No sample found")])
         else r = Raise e
     end).
Proof.
  cbv zeta.
  change (App.wpost (App.get_sample file_id) env t (fun r d =>
    App.writes d = [] /\
    (file_id = "" ->
     r = Ok (VDict [("error", VStr "Missing file_id")]) /\ d = []) /\
    (file_id <> "" ->
     exists r0,
       d = [App.AEv (App.GetItem [("file_id", VStr file_id)]) r0] /\
       match r0 with
       | Ok resp =>
           r = Ok (if truthy (get_or_none "Item" resp)
                   then VDict [("items", get_or_none "Item" resp)]
                   else VDict [("error", VStr "No sample found")])
       | Raise e =>
           if is_client_error e
           then r = Ok (VDict [("error", VStr "No sample found")])
           else r = Raise e
       end))).
  unfold App.get_sample, App.list_metadata_by_file_id, App.wtry_client.
  destruct (String.eqb file_id "") eqn:Eid.
  - apply String.eqb_eq in Eid. subst file_id.
    apply wpost_ret. repeat split; intros; congruence.
  - wpost_steps; cbn [app]; (split; [reflexivity |]);
      (split; [intros ->; discriminate Eid |]);
      intros _; eexists; (split; [reflexivity |]); cbn beta iota;
      repeat match goal with
             | E : is_client_error _ = _ |- _ => rewrite E
             | E : (if truthy ?v then _ else _) = _ |- _ =>
                 destruct (truthy v); inversion E; subst; clear E
             end;
      try reflexivity; try congruence.
Qed.

Ltac app_steps :=
  repeat (first [wpost_step | post_step]; cbn beta iota;
          cbn [existsb dict_keys map fst String.eqb Ascii.eqb Bool.eqb orb
               dict_get]).

(** X16.  [delete_sample] with an empty [file_id] answers 400 and asks
    nothing.  Otherwise it makes one delete request for the key of that
    [file_id] and no other request; it confirms the deletion when the
    request returned, and answers 500 with the text of the error when
    the table raised a [ClientError]. *)
Theorem delete_sample_response (file_id : string) (env : App.AEnv)
    (t : App.atrace) :
  let r := fst (App.delete_sample file_id env t) in
  let d := snd (App.delete_sample file_id env t) in
  (file_id = "" ->
   r = Ok (App.HTTPException 400 (VStr "Missing file_id")) /\ d = []) /\
  (file_id <> "" ->
   exists r0,
     d = [App.AEv (App.DeleteItem [("file_id", VStr file_id)]) r0] /\
     match r0 with
     | Ok _ =>
         r = Ok (App.Respond (VDict [("file_id", VStr file_id);
                                     ("deleted", VBool true)]))
     | Raise e =>
         if is_client_error e
         then r = Ok (App.HTTPException 500 (VStr (exc_str e)))
         else r = Raise e
     end).
Proof.
  cbv zeta.
  change (App.wpost (App.delete_sample file_id) env t (fun r d =>
    (file_id = "" ->
     r = Ok (App.HTTPException 400 (VStr "Missing file_id")) /\ d = []) /\
    (file_id <> "" ->
     exists r0,
       d = [App.AEv (App.DeleteItem [("file_id", VStr file_id)]) r0] /\
       match r0 with
       | Ok _ =>
           r = Ok (App.Respond (VDict [("file_id", VStr file_id);
                                       ("deleted", VBool true)]))
       | Raise e =>
           if is_client_error e
           then r = Ok (App.HTTPException 500 (VStr (exc_str e)))
           else r = Raise e
       end))).
  unfold App.delete_sample, App.delete_metadata, App.wtry_client,
    App.py_contains, App.py_getitem.
  destruct (String.eqb file_id "") eqn:Eid.
  - apply String.eqb_eq in Eid. subst file_id.
    apply wpost_ret.
    split; [intros _; split; reflexivity | intros D; now contradiction D].
  - app_steps; cbn [app];
      (split; [intros ->; discriminate Eid |]);
      intros _; eexists; (split; [reflexivity |]); cbn beta iota;
      repeat match goal with
             | E : is_client_error _ = _ |- _ => rewrite E
             end;
      try reflexivity; try congruence.
Qed.

(** [x in d] and [d.get(x)] agree on a dict. *)
Lemma contains_get (x : string) (d : dict) :
  existsb (String.eqb x) (dict_keys d)
    = match dict_get x d with Some _ => true | None => false end.
Proof.
  induction d as [| [k v] d IH]; [reflexivity |].
  cbn [dict_keys map fst existsb dict_get].
  rewrite String.eqb_sym. destruct (String.eqb k x); [reflexivity | exact IH].
Qed.

(** X17.  [update_sample] refuses a body that has a field [file_id]
    with a [TypeError], before any request.  With an empty [file_id] or
    an empty body it answers 500 without a request.  Otherwise it makes
    one update request for the key of that [file_id], asking for the new
    values; a [ClientError] gives 500 with the text of the error, and so
    does an answer whose attributes have one named [error], with the
    value of that attribute as detail; any other answer is handed back
    as the updated fields. *)
Theorem update_sample_response `{PyLib} (file_id : string) (fields : dict)
    (env : App.AEnv) (t : App.atrace) :
  let r := fst (App.update_sample file_id fields env t) in
  let d := snd (App.update_sample file_id fields env t) in
  (dict_get "file_id" fields <> None ->
   d = [] /\ exists e, r = Raise e /\ exc_cls e = TypeError) /\
  (dict_get "file_id" fields = None ->
   (file_id = "" \/ fields = [] ->
    r = Ok (App.HTTPException 500
              (VStr "Missing file_id or update fields")) /\
    d = []) /\
   (file_id <> "" -> fields <> [] ->
    exists u n v r0,
      d = [App.AEv (App.OfCall (UpdateItem [("file_id", VStr file_id)] u n v
                                  (Some "UPDATED_NEW"))) r0] /\
      match r0 with
      | Ok resp =>
          match dict_get "Attributes" resp with
          | None =>
              r = Ok (App.Respond (VDict [("file_id", VStr file_id);
                                          ("updated_fields", VDict [])]))
          | Some (VDict attrs) =>
              match dict_get "error" attrs with
              | Some detail => r = Ok (App.HTTPException 500 detail)
              | None =>
                  r = Ok (App.Respond
                            (VDict [("file_id", VStr file_id);
                                    ("updated_fields", VDict attrs)]))
              end
          | Some _ => True
          end
      | Raise e =>
          if is_client_error e
          then r = Ok (App.HTTPException 500 (VStr (exc_str e)))
          else r = Raise e
      end)).
Proof.
  cbv zeta.
  change (App.wpost (App.update_sample file_id fields) env t (fun r d =>
    (dict_get "file_id" fields <> None ->
     d = [] /\ exists e, r = Raise e /\ exc_cls e = TypeError) /\
    (dict_get "file_id" fields = None ->
     (file_id = "" \/ fields = [] ->
      r = Ok (App.HTTPException 500
                (VStr "Missing file_id or update fields")) /\
      d = []) /\
     (file_id <> "" -> fields <> [] ->
      exists u n v r0,
        d = [App.AEv (App.OfCall (UpdateItem [("file_id", VStr file_id)] u n v
                                    (Some "UPDATED_NEW"))) r0] /\
        match r0 with
        | Ok resp =>
            match dict_get "Attributes" resp with
            | None =>
                r = Ok (App.Respond (VDict [("file_id", VStr file_id);
                                            ("updated_fields", VDict [])]))
            | Some (VDict attrs) =>
                match dict_get "error" attrs with
                | Some detail => r = Ok (App.HTTPException 500 detail)
                | None =>
                    r = Ok (App.Respond
                              (VDict [("file_id", VStr file_id);
                                      ("updated_fields", VDict attrs)]))
                end
            | Some _ => True
            end
        | Raise e =>
            if is_client_error e
            then r = Ok (App.HTTPException 500 (VStr (exc_str e)))
            else r = Raise e
        end)))).
  unfold App.update_sample, App.update_metadata_kw.
  destruct (dict_get "file_id" fields) as [x |] eqn:Efid.
  - app_steps. split; [| intros D; discriminate D].
    intros _. split; [reflexivity |]. eexists. split; reflexivity.
  - unfold DbDynamo.update_metadata, try_except_client.
    destruct (String.eqb file_id "") eqn:Eid;
      [| destruct fields as [| kv fields] ]; cbn [orb DbDynamo.dict_is_empty].
    + apply String.eqb_eq in Eid. subst file_id.
      unfold App.py_contains, App.py_getitem. app_steps.
      split; [intros D; now contradiction D |]. intros _.
      split; [intros _; split; reflexivity | intros D; now contradiction D].
    + unfold App.py_contains, App.py_getitem. app_steps.
      split; [intros D; now contradiction D |]. intros _.
      split; [intros _; split; reflexivity | intros _ D; now contradiction D].
    + app_steps; cbn [map App.lift_event app];
        try match goal with
            | |- context [dict_get "Attributes" ?resp] =>
                destruct (dict_get "Attributes" resp) as [[] |] eqn:Eattr
            end;
        unfold App.py_contains, App.py_getitem;
        rewrite ?contains_get;
        app_steps; cbn [map App.lift_event app];
        (split; [intros D; now contradiction D |]); intros _;
        (split; [intros [-> | D]; [now rewrite String.eqb_refl in Eid
                                  | discriminate D] |]);
        intros _ _; do 4 eexists; (split; [reflexivity |]);
        cbn beta iota;
        repeat match goal with
               | E : is_client_error _ = _ |- _ => rewrite E
               | E : dict_get "Attributes" _ = _ |- _ => rewrite E
               | E : dict_get "error" _ = _ |- _ => rewrite E
               end;
        try reflexivity; try exact I; try congruence;
        match goal with
        | |- match dict_get "error" ?a with _ => _ end =>
            destruct (dict_get "error" a); [discriminate | reflexivity]
        end.
Qed.

(* ===================================================================== *)
(** * The upload endpoint *)
(* ===================================================================== *)

Ltac upload_run :=
  unfold App.upload_audio, DbDynamo.save_metadata, DbDynamo.file_id_or_new,
    try_except_client;
  match goal with
  | |- context [negb ?b] => destruct b eqn:Eext
  end; cbn [negb];
  app_steps;
  cbn [map App.lift_event app App.writes App.api_requests App.base_events
       put_items error_of].

(** X18.  [upload_audio] turns a file of another type away with 400
    before asking anything.  Its writes are made in one order: the
    object upload, the record put, the analyzer invocation, and a run
    stops only after a prefix of them.  When the object upload raises,
    the answer is 500 with the text of the error, and neither the record
    nor the invocation is attempted. *)
Theorem upload_audio_writes `{PyLib} (cfg : App.app_config)
    (f : App.upload_file) (env : App.AEnv) (t : App.atrace) :
  let r := fst (App.upload_audio cfg f env t) in
  let d := snd (App.upload_audio cfg f env t) in
  (existsb (String.eqb (App.upload_ext (App.filename f))) [".wav"; ".mp3"]
     = false ->
   r = Ok (App.HTTPException 400 (VStr "Only WAV/MP3 supported")) /\ d = []) /\
  (exists rest,
     App.writes d ++ rest = [App.WUpload; App.WPut; App.WInvoke]) /\
  (forall status detail,
     r = Ok (App.HTTPException status detail) ->
     (status = 400%Z /\ d = []) \/
     (status = 500%Z /\ App.writes d = [App.WUpload] /\
      exists b k e,
        App.api_requests d = [(App.RUpload b k, Some e)] /\
        detail = VStr ("S3 upload failed: " ++ exc_str e))) /\
  (forall b k e,
     In (App.RUpload b k, Some e) (App.api_requests d) ->
     r = Ok (App.HTTPException 500
               (VStr ("S3 upload failed: " ++ exc_str e)))).
Proof.
  cbv zeta.
  change (App.wpost (App.upload_audio cfg f) env t (fun r d =>
    (existsb (String.eqb (App.upload_ext (App.filename f))) [".wav"; ".mp3"]
       = false ->
     r = Ok (App.HTTPException 400 (VStr "Only WAV/MP3 supported")) /\
     d = []) /\
    (exists rest,
       App.writes d ++ rest = [App.WUpload; App.WPut; App.WInvoke]) /\
    (forall status detail,
       r = Ok (App.HTTPException status detail) ->
       (status = 400%Z /\ d = []) \/
       (status = 500%Z /\ App.writes d = [App.WUpload] /\
        exists b k e,
          App.api_requests d = [(App.RUpload b k, Some e)] /\
          detail = VStr ("S3 upload failed: " ++ exc_str e))) /\
    (forall b k e,
       In (App.RUpload b k, Some e) (App.api_requests d) ->
       r = Ok (App.HTTPException 500
                 (VStr ("S3 upload failed: " ++ exc_str e)))))).
  upload_run;
    (split; [first [ intros _; split; reflexivity
                   | intros D; discriminate D ] |]);
    (split; [eexists; cbn [app]; reflexivity |]);
    (split;
     [ intros status detail E; inversion E; subst; clear E;
       first [ left; split; reflexivity
             | right; split; [reflexivity |]; split; [reflexivity |];
               do 3 eexists; split; reflexivity ]
     | intros b k err Hin; cbn [In] in Hin;
       repeat match goal with
              | D : _ \/ _ |- _ => destruct D
              | D : False |- _ => destruct D
              | D : (_, _) = (_, _) |- _ => inversion D; subst; clear D
              end;
       reflexivity ]).
Qed.

(** X19.  When [upload_audio] answers with a body, it has uploaded the
    object under [uploads/<id><ext>], put the record and invoked the
    analyzer, in that order; the body and the analyzer's payload carry
    the identifier and the key of that object, and [lambda_invoked]
    tells whether the invocation returned.  The record put for a
    non-empty identifier is the new record of that identifier, with
    duration and tempo zero.  A record put refused with a [ClientError]
    does not show: the analyzer is invoked and the body is sent all the
    same. *)
Theorem upload_audio_response `{PyLib} (cfg : App.app_config)
    (f : App.upload_file) (env : App.AEnv) (t : App.atrace) :
  let r := fst (App.upload_audio cfg f env t) in
  let d := snd (App.upload_audio cfg f env t) in
  let ext := App.upload_ext (App.filename f) in
  (forall body,
     r = Ok (App.Respond body) ->
     exists id inv,
       existsb (String.eqb ext) [".wav"; ".mp3"] = true /\
       App.writes d = [App.WUpload; App.WPut; App.WInvoke] /\
       App.api_requests d
         = [(App.RUpload (App.S3_BUCKET cfg) ("uploads/" ++ id ++ ext), None);
            (App.RInvoke (App.LAMBDA_NAME cfg) "Event"
               (json_dumps
                  (VDict (App.payload_of cfg ("uploads/" ++ id ++ ext) id))),
             inv)] /\
       body = VDict ([("file_id", VStr id);
                      ("s3_key", VStr ("uploads/" ++ id ++ ext));
                      ("lambda_invoked",
                       VBool match inv with None => true | Some _ => false end)]
                     ++ match inv with
                        | None => []
                        | Some e => [("error", VStr (exc_str e))]
                        end) /\
       (id <> "" ->
        exists o,
          put_items (App.base_events d)
            = [([("file_id", VStr id);
                 ("filename", VStr (App.filename f));
                 ("s3_key", VStr ("uploads/" ++ id ++ ext));
                 ("duration", VDecimal "0");
                 ("tempo", VDecimal "0")], o)])) /\
  (forall item e,
     In (item, Some e) (put_items (App.base_events d)) ->
     is_client_error e = true ->
     exists body, r = Ok (App.Respond body) /\
                  In App.WInvoke (App.writes d)).
Proof.
  cbv zeta.
  change (App.wpost (App.upload_audio cfg f) env t (fun r d =>
    (forall body,
       r = Ok (App.Respond body) ->
       exists id inv,
         existsb (String.eqb (App.upload_ext (App.filename f)))
           [".wav"; ".mp3"] = true /\
         App.writes d = [App.WUpload; App.WPut; App.WInvoke] /\
         App.api_requests d
           = [(App.RUpload (App.S3_BUCKET cfg)
                 ("uploads/" ++ id ++ App.upload_ext (App.filename f)), None);
              (App.RInvoke (App.LAMBDA_NAME cfg) "Event"
                 (json_dumps
                    (VDict (App.payload_of cfg
                              ("uploads/" ++ id
                                 ++ App.upload_ext (App.filename f)) id))),
               inv)] /\
         body = VDict ([("file_id", VStr id);
                        ("s3_key",
                         VStr ("uploads/" ++ id
                                 ++ App.upload_ext (App.filename f)));
                        ("lambda_invoked",
                         VBool match inv with
                               | None => true
                               | Some _ => false
                               end)]
                       ++ match inv with
                          | None => []
                          | Some e => [("error", VStr (exc_str e))]
                          end) /\
         (id <> "" ->
          exists o,
            put_items (App.base_events d)
              = [([("file_id", VStr id);
                   ("filename", VStr (App.filename f));
                   ("s3_key",
                    VStr ("uploads/" ++ id
                            ++ App.upload_ext (App.filename f)));
                   ("duration", VDecimal "0");
                   ("tempo", VDecimal "0")], o)])) /\
    (forall item e,
       In (item, Some e) (put_items (App.base_events d)) ->
       is_client_error e = true ->
       exists body, r = Ok (App.Respond body) /\
                    In App.WInvoke (App.writes d)))).
  upload_run;
    (split;
     [ intros body E; inversion E; subst; clear E;
       do 2 eexists;
       (split; [reflexivity |]); (split; [reflexivity |]);
       (split; [reflexivity |]); (split; [reflexivity |]);
       intros N;
       try match goal with
           | D : String.eqb ?s EmptyString = true |- _ =>
               apply String.eqb_eq in D; subst s; now contradiction N
           end;
       eexists; reflexivity
     | intros item err Hin C; cbn [In] in Hin;
       repeat match goal with
              | D : _ \/ _ |- _ => destruct D
              | D : False |- _ => destruct D
              | D : (_, _) = (_, _) |- _ => inversion D; subst; clear D
              end;
       try congruence;
       eexists; (split; [reflexivity | cbn; auto]) ]).
Qed.

(* ===================================================================== *)
(** * File names *)
(* ===================================================================== *)

Lemma rfind_from_absent (c : ascii) (s : string) (i acc : Z) :
  str_existsb (fun x => Ascii.eqb x c) s = false ->
  rfind_from c s i acc = acc.
Proof.
  revert i acc. induction s as [| x s IH]; intros i acc; [reflexivity |].
  cbn [str_existsb rfind_from]. intros E.
  apply orb_false_elim in E. destruct E as [E1 E2].
  rewrite E1. apply IH, E2.
Qed.

Lemma rfind_from_last (c : ascii) (a b : string) (i acc : Z) :
  str_existsb (fun x => Ascii.eqb x c) b = false ->
  rfind_from c (a ++ String c b) i acc = (i + Z.of_nat (String.length a))%Z.
Proof.
  intros Hb. revert i acc.
  induction a as [| x a IH]; intros i acc.
  - cbn [append rfind_from String.length]. rewrite Ascii.eqb_refl.
    rewrite rfind_from_absent by exact Hb. cbn. lia.
  - cbn [append rfind_from String.length]. rewrite IH. lia.
Qed.

Lemma str_drop_app (a b : string) : str_drop (String.length a) (a ++ b) = b.
Proof. induction a as [| x a IH]; [now destruct b | exact IH]. Qed.

Lemma after_last_suffix (c : ascii) (a b : string) :
  str_existsb (fun x => Ascii.eqb x c) b = false ->
  App.after_last c (a ++ String c b) = b.
Proof.
  intros Hb. unfold App.after_last, rfind.
  rewrite rfind_from_last by exact Hb.
  replace (Z.to_nat (0 + Z.of_nat (String.length a) + 1))
    with (String.length (a ++ String c EmptyString)).
  - replace (a ++ String c b)%string
      with ((a ++ String c EmptyString) ++ b)%string.
    + apply str_drop_app.
    + clear Hb. induction a as [| x a IH]; [reflexivity |].
      cbn [append]. now rewrite IH.
  - clear Hb. induction a as [| x a IH]; [reflexivity |].
    cbn [append String.length]. rewrite IH. lia.
Qed.

Lemma after_last_absent (c : ascii) (b : string) :
  str_existsb (fun x => Ascii.eqb x c) b = false ->
  App.after_last c b = b.
Proof.
  intros Hb. unfold App.after_last, rfind.
  rewrite rfind_from_absent by exact Hb. reflexivity.
Qed.

(** X20.  The type of an upload is read from what follows the last dot
    of the file name, in any letter case; a name without a dot is taken
    whole, so that a file named [mp3] is accepted like [a.MP3]. *)
Theorem upload_ext_of_suffix (stem suffix : string) :
  str_existsb (fun x => Ascii.eqb x ".") suffix = false ->
  App.upload_ext (stem ++ "." ++ suffix) = ("." ++ lower suffix)%string /\
  App.upload_ext suffix = ("." ++ lower suffix)%string.
Proof.
  intros Hs. unfold App.upload_ext. split.
  - change ("." ++ suffix)%string with (String "." suffix).
    now rewrite after_last_suffix.
  - now rewrite after_last_absent.
Qed.

Lemma upload_ext_of_suffix_witness :
  App.upload_ext ("take.2" ++ "." ++ "MP3") = ("." ++ lower "MP3")%string /\
  App.upload_ext "MP3" = ("." ++ lower "MP3")%string.
Proof.
  apply (upload_ext_of_suffix "take.2" "MP3"). reflexivity.
Defined.

(* ===================================================================== *)
(** * From the upload to the analyzer *)
(* ===================================================================== *)

(** The analyzer on the payload of an upload. *)
Lemma handler_on_payload `{PyLib} (acfg : App.app_config)
    (cfg : Handler.config) (key id : string) (env : Env) (t : trace) :
  id <> "" ->
  put_items (snd (Handler.handler cfg (App.payload_of acfg key id) env t))
    = [] /\
  (forall k u n v o,
      In ((k, u, n, v), o)
         (updates (snd (Handler.handler cfg (App.payload_of acfg key id)
                          env t))) ->
      k = [("file_id", VStr id)]) /\
  (forall b k body ct o,
      In ((b, k, body, ct), o)
         (put_objects (snd (Handler.handler cfg (App.payload_of acfg key id)
                              env t))) ->
      b = App.S3_BUCKET acfg /\
      k = (Handler.OUT_PREFIX cfg ++ basename key ++ ".json")%string) /\
  (succeeded (fst (Handler.handler cfg (App.payload_of acfg key id) env t))
     = true ->
   exists upd,
     In (upd, None)
        (updates (snd (Handler.handler cfg (App.payload_of acfg key id)
                         env t)))).
Proof.
  intros Hid.
  assert (Ht : truthy (VStr id) = true).
  { cbn. destruct (String.eqb id "") eqn:E; [| reflexivity].
    apply String.eqb_eq in E. contradiction. }
  by_shape cfg (App.payload_of acfg key id) env t.
  - split; [reflexivity |].
    split; [intros ? ? ? ? ? [] |].
    split; [intros ? ? ? ? ? [] | discriminate].
  - cbn [App.payload_of get_or_none dict_get String.eqb Ascii.eqb Bool.eqb]
      in S.
    destruct S as [e0 | name e0 | name e0
                   | name key_s du te be me ti e0 Ek
                   | name key_s du te be me ti p e0 Ek P
                   | name key_s du te be me ti p Ek P];
      try (inversion Ek; subst key_s; clear Ek);
      try (inversion P; subst); try congruence;
      cbn [put_items updates put_objects Handler.update_request
           artifact_request error_of In succeeded Handler.error_result
           dict_get String.eqb Ascii.eqb Bool.eqb];
      (split; [reflexivity |]);
      (split;
       [ intros;
         repeat match goal with
                | D : _ \/ _ |- _ => destruct D
                | D : False |- _ => destruct D
                | D : (_, _) = (_, _) |- _ => inversion D; subst; clear D
                end;
         reflexivity |]);
      (split;
       [ intros;
         repeat match goal with
                | D : _ \/ _ |- _ => destruct D
                | D : False |- _ => destruct D
                | D : (_, _) = (_, _) |- _ => inversion D; subst; clear D
                end;
         split; reflexivity |]);
      first [ discriminate | intros _; eexists; cbn; eauto ].
Qed.

(** X21.  After an upload that was answered with a body, the analyzer
    run on the payload the upload sent works on the record the upload
    put: it never inserts a record of its own, its updates have the key
    of the uploaded record's [file_id], its artifact goes to the bucket
    of the upload, and a run that succeeds has made an update that the
    table accepted. *)
Theorem upload_then_analyze `{PyLib} (acfg : App.app_config)
    (f : App.upload_file) (aenv : App.AEnv) (at0 : App.atrace)
    (body : pyval) (id : string) :
  fst (App.upload_audio acfg f aenv at0) = Ok (App.Respond body) ->
  get_or_none "file_id" (match body with VDict b => b | _ => [] end)
    = VStr id ->
  id <> "" ->
  exists key item o inv,
    get_or_none "s3_key" (match body with VDict b => b | _ => [] end)
      = VStr key /\
    put_items (App.base_events (snd (App.upload_audio acfg f aenv at0)))
      = [(item, o)] /\
    dict_get "file_id" item = Some (VStr id) /\
    dict_get "s3_key" item = Some (VStr key) /\
    In (App.RInvoke (App.LAMBDA_NAME acfg) "Event"
          (json_dumps (VDict (App.payload_of acfg key id))), inv)
       (App.api_requests (snd (App.upload_audio acfg f aenv at0))) /\
    forall (cfg : Handler.config) (env : Env) (t : trace),
      let r := fst (Handler.handler cfg (App.payload_of acfg key id) env t) in
      let d := snd (Handler.handler cfg (App.payload_of acfg key id) env t) in
      put_items d = [] /\
      (forall k u n v o',
          In ((k, u, n, v), o') (updates d) -> k = [("file_id", VStr id)]) /\
      (forall b k bd ct o',
          In ((b, k, bd, ct), o') (put_objects d) ->
          b = App.S3_BUCKET acfg /\
          k = (Handler.OUT_PREFIX cfg ++ basename key ++ ".json")%string) /\
      (succeeded r = true -> exists upd, In (upd, None) (updates d)).
Proof.
  revert body id.
  change (App.wpost (App.upload_audio acfg f) aenv at0 (fun r d =>
    forall body id,
      r = Ok (App.Respond body) ->
      get_or_none "file_id" (match body with VDict b => b | _ => [] end)
        = VStr id ->
      id <> "" ->
      exists key item o inv,
        get_or_none "s3_key" (match body with VDict b => b | _ => [] end)
          = VStr key /\
        put_items (App.base_events d) = [(item, o)] /\
        dict_get "file_id" item = Some (VStr id) /\
        dict_get "s3_key" item = Some (VStr key) /\
        In (App.RInvoke (App.LAMBDA_NAME acfg) "Event"
              (json_dumps (VDict (App.payload_of acfg key id))), inv)
           (App.api_requests d) /\
        forall (cfg : Handler.config) (env : Env) (t : trace),
          put_items (snd (Handler.handler cfg (App.payload_of acfg key id)
                            env t)) = [] /\
          (forall k u n v o',
              In ((k, u, n, v), o')
                 (updates (snd (Handler.handler cfg
                                  (App.payload_of acfg key id) env t))) ->
              k = [("file_id", VStr id)]) /\
          (forall b k bd ct o',
              In ((b, k, bd, ct), o')
                 (put_objects (snd (Handler.handler cfg
                                      (App.payload_of acfg key id) env t))) ->
              b = App.S3_BUCKET acfg /\
              k = (Handler.OUT_PREFIX cfg ++ basename key ++ ".json")%string) /\
          (succeeded (fst (Handler.handler cfg (App.payload_of acfg key id)
                             env t)) = true ->
           exists upd,
             In (upd, None)
                (updates (snd (Handler.handler cfg
                                 (App.payload_of acfg key id) env t)))))).
  upload_run;
    intros body id E G N; inversion E; subst body; clear E;
    cbn [get_or_none dict_get String.eqb Ascii.eqb Bool.eqb] in G;
    inversion G; subst; clear G;
    try match goal with
        | D : String.eqb ?s EmptyString = true |- _ =>
            apply String.eqb_eq in D; subst s; now contradiction N
        end;
    do 4 eexists;
    (split; [reflexivity |]); (split; [reflexivity |]);
    (split; [reflexivity |]); (split; [reflexivity |]);
    (split; [cbn [In]; auto |]);
    intros cfg env t; apply handler_on_payload; exact N.
Qed.

Lemma upload_then_analyze_witness :
  exists key item o inv,
    get_or_none "s3_key"
      [("file_id", VStr AppDemo.sample_id);
       ("s3_key", VStr "uploads/00000000-0000-4000-8000-000000000001.wav");
       ("lambda_invoked", VBool true)] = VStr key /\
    put_items
      (App.base_events
         (snd (App.upload_audio (H := Demo.lib) AppDemo.app AppDemo.wav_upload
                 AppDemo.env_ok [])))
      = [(item, o)] /\
    dict_get "file_id" item = Some (VStr AppDemo.sample_id) /\
    dict_get "s3_key" item = Some (VStr key) /\
    In (App.RInvoke (App.LAMBDA_NAME AppDemo.app) "Event"
          (json_dumps (PyLib := Demo.lib)
             (VDict (App.payload_of AppDemo.app key AppDemo.sample_id))), inv)
       (App.api_requests
          (snd (App.upload_audio (H := Demo.lib) AppDemo.app
                  AppDemo.wav_upload AppDemo.env_ok []))) /\
    forall (cfg : Handler.config) (env : Env) (t : trace),
      let r := fst (Handler.handler (H := Demo.lib) cfg
                      (App.payload_of AppDemo.app key AppDemo.sample_id)
                      env t) in
      let d := snd (Handler.handler (H := Demo.lib) cfg
                      (App.payload_of AppDemo.app key AppDemo.sample_id)
                      env t) in
      put_items d = [] /\
      (forall k u n v o',
          In ((k, u, n, v), o') (updates d) ->
          k = [("file_id", VStr AppDemo.sample_id)]) /\
      (forall b k bd ct o',
          In ((b, k, bd, ct), o') (put_objects d) ->
          b = App.S3_BUCKET AppDemo.app /\
          k = (Handler.OUT_PREFIX cfg ++ basename key ++ ".json")%string) /\
      (succeeded r = true -> exists upd, In (upd, None) (updates d)).
Proof.
  apply (@upload_then_analyze Demo.lib AppDemo.app AppDemo.wav_upload
           AppDemo.env_ok []
           (VDict
              [("file_id", VStr AppDemo.sample_id);
               ("s3_key",
                VStr "uploads/00000000-0000-4000-8000-000000000001.wav");
               ("lambda_invoked", VBool true)])
           AppDemo.sample_id).
  - vm_compute. reflexivity.
  - reflexivity.
  - unfold AppDemo.sample_id. discriminate.
Defined.
